(** * Bank statement tracker: transaction state and aggregation engine

    A shallow embedding of the core of [statement_tracker.py]: the two
    global transaction lists, the ignore list, the category dictionary,
    the CSV import loop and the summary tables, followed by the properties
    of that code.

    Conventions of the embedding
    - A Python [float] is a binary64 value of [PrimFloat]; comparisons with
      the integer literal [0] are comparisons with [0%float].
    - Python strings are [string]s; the text helpers ([lower], [strip])
      act on the ASCII range and leave other bytes alone.
    - [datetime] objects carry a calendar date only: both [strptime]
      formats of the program have no time fields, so the time of day is
      always midnight. [%Y] is written with four digits, [%m] and [%d]
      with two.
    - Dictionaries are [gmap]s; the two transaction lists and the ignore
      list are lists, in the order Python keeps them.
    - [ignore.csv] and the copies of it that [load_ignore_list] hands out
      are one list, [ignore_list]: every change is written back with
      [save_ignore_list] before the list is read again.
    - Writes to disk and message boxes are recorded in [effects]. *)

From Stdlib Require Import Floats DecimalString DecimalNat Ascii String List Arith Lia Permutation.
From stdpp Require Import gmap strings list fin_maps.

Set Default Proof Using "Type".
Set Warnings "-abstract-large-number".

(** ** Text helpers: the [str] methods the program calls *)

Module Text.

(** [str.isspace] on the ASCII range: tab, line feed, vertical tab, form
    feed, carriage return, the four separators 28..31 and the space. *)
Definition is_space (c : ascii) : bool :=
  let n := nat_of_ascii c in
  ((9 <=? n) && (n <=? 13)) || ((28 <=? n) && (n <=? 32)).

Fixpoint lstrip (s : string) : string :=
  match s with
  | EmptyString => EmptyString
  | String c s' => if is_space c then lstrip s' else s
  end.

Fixpoint rstrip (s : string) : string :=
  match s with
  | EmptyString => EmptyString
  | String c s' =>
      match rstrip s' with
      | EmptyString => if is_space c then EmptyString else String c EmptyString
      | r => String c r
      end
  end.

(** [s.strip()] *)
Definition strip (s : string) : string := rstrip (lstrip s).

Definition lower_char (c : ascii) : ascii :=
  let n := nat_of_ascii c in
  if (65 <=? n) && (n <=? 90) then ascii_of_nat (n + 32) else c.

(** [s.lower()] *)
Fixpoint lower (s : string) : string :=
  match s with
  | EmptyString => EmptyString
  | String c s' => String (lower_char c) (lower s')
  end.

(** [s.split(sep)] for a one-character separator: never the empty list. *)
Fixpoint split (sep : ascii) (s : string) : list string :=
  match s with
  | EmptyString => [EmptyString]
  | String c s' =>
      if Ascii.eqb c sep then EmptyString :: split sep s'
      else match split sep s' with
           | h :: t => String c h :: t
           | [] => [String c EmptyString]
           end
  end.

(** [c * n] *)
Fixpoint repeat_char (c : ascii) (n : nat) : string :=
  match n with
  | O => EmptyString
  | S n' => String c (repeat_char c n')
  end.

Definition is_digit (c : ascii) : bool :=
  let n := nat_of_ascii c in (48 <=? n) && (n <=? 57).

Fixpoint all_digits (s : string) : bool :=
  match s with
  | EmptyString => true
  | String c s' => is_digit c && all_digits s'
  end.

(** Decimal notation of a natural number, without padding. *)
Definition of_nat (n : nat) : string := NilEmpty.string_of_uint (Nat.to_uint n).

(** The value of a non-empty string of decimal digits. *)
Definition to_nat (s : string) : option nat :=
  match s with
  | EmptyString => None
  | _ => option_map Nat.of_uint (NilEmpty.uint_of_string s)
  end.

(** Left padding with zeros up to width [w], as [%02d] and [%04d] do. *)
Definition zfill (w : nat) (s : string) : string :=
  String.append (repeat_char "0" (w - String.length s)) s.

End Text.

(** ** Dates *)

Record datetime := mk_datetime { year : nat; month : nat; day : nat }.

#[export] Instance datetime_eq_dec : EqDecision datetime.
Proof. solve_decision. Defined.

Definition is_leap (y : nat) : bool :=
  (y mod 4 =? 0) && (negb (y mod 100 =? 0) || (y mod 400 =? 0)).

Definition days_in_month (y m : nat) : nat :=
  match m with
  | 2 => if is_leap y then 29 else 28
  | 4 | 6 | 9 | 11 => 30
  | _ => 31
  end.

(** The range check of the [datetime] constructor. *)
Definition valid_date (d : datetime) : bool :=
  (1 <=? year d) && (year d <=? 9999) &&
  (1 <=? month d) && (month d <=? 12) &&
  (1 <=? day d) && (day d <=? days_in_month (year d) (month d)).

Definition datetime_new (y m d : nat) : option datetime :=
  let r := mk_datetime y m d in
  if valid_date r then Some r else None.

(** [d.strftime("%Y-%m")] *)
Definition strftime_ym (d : datetime) : string :=
  String.append (Text.zfill 4 (Text.of_nat (year d)))
    (String "-" (Text.zfill 2 (Text.of_nat (month d)))).

(** [d.strftime("%Y-%m-%d")] *)
Definition strftime_ymd (d : datetime) : string :=
  String.append (Text.zfill 4 (Text.of_nat (year d)))
    (String "-" (String.append (Text.zfill 2 (Text.of_nat (month d)))
       (String "-" (Text.zfill 2 (Text.of_nat (day d)))))).

(** The three directives of [strptime]: [%Y] is four digits, [%m] and
    [%d] are one or two digits in range, [%d] also a space and a digit. *)
Definition field_Y (s : string) : option nat :=
  if String.length s =? 4 then Text.to_nat s else None.

Definition field_m (s : string) : option nat :=
  if (1 <=? String.length s) && (String.length s <=? 2) then
    match Text.to_nat s with
    | Some n => if (1 <=? n) && (n <=? 12) then Some n else None
    | None => None
    end
  else None.

Definition field_d (s : string) : option nat :=
  let digits :=
    match s with
    | String c1 (String c2 EmptyString) =>
        if Ascii.eqb c1 " " && negb (Ascii.eqb c2 "0") then String c2 EmptyString else s
    | _ => s
    end in
  if (1 <=? String.length digits) && (String.length digits <=? 2) then
    match Text.to_nat digits with
    | Some n => if (1 <=? n) && (n <=? 31) then Some n else None
    | None => None
    end
  else None.

(** [datetime.strptime(s, "%Y-%m-%d")]; [None] stands for [ValueError]. *)
Definition strptime_ymd (s : string) : option datetime :=
  match Text.split "-" s with
  | [ys; ms; ds] =>
      match field_Y ys, field_m ms, field_d ds with
      | Some y, Some m, Some d => datetime_new y m d
      | _, _, _ => None
      end
  | _ => None
  end.

(** ** Transactions and the summary tables *)

(** The tuple [(date, store, amount, category)]. *)
Record transaction := mk_transaction {
  date : datetime;
  store : string;
  amount : float;
  category : string
}.

Definition set_category (t : transaction) (c : string) : transaction :=
  mk_transaction (date t) (store t) (amount t) c.

(** The key under which a transaction is ignored:
    [(date.strftime("%Y-%m-%d"), store)]. *)
Definition ignore_key (t : transaction) : string * string :=
  (strftime_ymd (date t), store t).

(** [d[k] += x] on a [defaultdict(float)] *)
Definition add_to (k : string) (x : float) (d : gmap string float) : gmap string float :=
  <[k := (default 0%float (d !! k) + x)%float]> d.

(** [d[k1][k2] += x] on a [defaultdict(lambda: defaultdict(float))] *)
Definition add_to2 (k1 k2 : string) (x : float)
    (d : gmap string (gmap string float)) : gmap string (gmap string float) :=
  <[k1 := add_to k2 x (default ∅ (d !! k1))]> d.

Record summary := mk_summary {
  summary_spending : gmap string (gmap string float);
  summary_income : gmap string (gmap string float);
  monthly_totals_spending : gmap string float;
  monthly_totals_income : gmap string float
}.

Definition empty_summary : summary := mk_summary ∅ ∅ ∅ ∅.

(** The body of the loop of [generate_summary]. *)
Definition summary_step (s : summary) (t : transaction) : summary :=
  let month := strftime_ym (date t) in
  if (amount t <? 0)%float then
    mk_summary (add_to2 month (category t) (abs (amount t)) (summary_spending s))
               (summary_income s)
               (add_to month (abs (amount t)) (monthly_totals_spending s))
               (monthly_totals_income s)
  else if (0 <? amount t)%float then
    mk_summary (summary_spending s)
               (add_to2 month (category t) (amount t) (summary_income s))
               (monthly_totals_spending s)
               (add_to month (amount t) (monthly_totals_income s))
  else s.

(** The four tables [generate_summary] builds from the list it is given. *)
Definition summarize (txs : list transaction) : summary :=
  fold_left summary_step txs empty_summary.

(** Reading a table the way the views do: a missing key counts as zero. *)
Definition total_at (d : gmap string float) (m : string) : float :=
  default 0%float (d !! m).

Definition breakdown_at (d : gmap string (gmap string float)) (m c : string) : float :=
  total_at (default ∅ (d !! m)) c.

(** The sum of a list of floats, accumulated from zero in list order. *)
Definition fsum (l : list float) : float := fold_left PrimFloat.add l 0%float.

Definition in_month (m : string) (t : transaction) : bool :=
  String.eqb (strftime_ym (date t)) m.

Definition is_income (t : transaction) : bool := (0 <? amount t)%float.
Definition is_spending (t : transaction) : bool := (amount t <? 0)%float.

Definition has_category (c : string) (t : transaction) : bool :=
  String.eqb (category t) c.

Definition spent (t : transaction) : float := abs (amount t).

(** ** The application state *)

(** What the program does to the outside: files written, boxes shown. *)
Inductive effect :=
  | SaveCategories (c : gmap string string)
  | SaveIgnoreList (l : list (string * string))
  | DateError (file : string) (text : string)
  | FileError (file : string)
  | ShowError (text : string)
  | ShowInfo (title : string)
  | Uncaught (exn : string).

(** The globals [transactions] and [ignored_transactions], the attributes
    [categories] and [ignore_list], the four summary tables, and the
    effects so far, oldest first. *)
Record app_state := mk_state {
  transactions : list transaction;
  ignored_transactions : list transaction;
  categories : gmap string string;
  ignore_list : list (string * string);
  tables : summary;
  effects : list effect
}.

Definition set_transactions (st : app_state) (l : list transaction) : app_state :=
  mk_state l (ignored_transactions st) (categories st) (ignore_list st)
           (tables st) (effects st).

Definition set_ignored (st : app_state) (l : list transaction) : app_state :=
  mk_state (transactions st) l (categories st) (ignore_list st)
           (tables st) (effects st).

Definition set_categories (st : app_state) (c : gmap string string) : app_state :=
  mk_state (transactions st) (ignored_transactions st) c (ignore_list st)
           (tables st) (effects st).

Definition set_ignore_list (st : app_state) (l : list (string * string)) : app_state :=
  mk_state (transactions st) (ignored_transactions st) (categories st) l
           (tables st) (effects st).

Definition set_tables (st : app_state) (s : summary) : app_state :=
  mk_state (transactions st) (ignored_transactions st) (categories st)
           (ignore_list st) s (effects st).

Definition emit (st : app_state) (e : effect) : app_state :=
  mk_state (transactions st) (ignored_transactions st) (categories st)
           (ignore_list st) (tables st) (effects st ++ [e]).

(** [BankStatementApp.__init__]: both lists empty, the dictionary and the
    ignore list as the two files hold them. *)
Definition init (categories_file : gmap string string)
    (ignore_file : list (string * string)) : app_state :=
  mk_state [] [] categories_file ignore_file empty_summary [].

(** [save_categories(self.categories)] *)
Definition save_categories (st : app_state) : app_state :=
  emit st (SaveCategories (categories st)).

(** [save_ignore_list(self.ignore_list)] *)
Definition save_ignore_list (st : app_state) : app_state :=
  emit st (SaveIgnoreList (ignore_list st)).

(** [generate_summary]: the tables are rebuilt from [transactions]. *)
Definition generate_summary (st : app_state) : app_state :=
  set_tables st (summarize (transactions st)).

(** ** Import *)

Definition extract_store_name (description : string) : string :=
  match Text.split "," description with
  | _ :: part :: _ => Text.strip part
  | _ => Text.strip description
  end.

(** A row of [csv.DictReader] with its three columns. *)
Record csv_row := mk_row { Date : string; Description : string; Value : string }.

(** A selected file: [open] raises, or the reader yields [rows] and then
    ends ([complete = true]) or raises ([complete = false]). *)
Inductive csv_file :=
  | Unreadable (path : string)
  | Readable (path : string) (rows : list csv_row) (complete : bool).

(** [(date_str, store) in self.ignore_list] *)
Definition in_ignore_list (l : list (string * string)) (k : string * string) : bool :=
  bool_decide (k ∈ l).

Section ImportLoop.

(** The two parsers of the standard library that [load_csv] calls:
    [float(text)] and [datetime.strptime(text, "%d %b %Y")], with [None]
    for a raised exception. *)
Variable py_float : string -> option float.
Variable strptime_dmy : string -> option datetime.

(** The body of [for row in reader]. *)
Definition import_row (file : string) (st : app_state) (row : csv_row) : app_state :=
  match strptime_dmy (Date row) with
  | None => emit st (DateError file (Date row))
  | Some d =>
      let store_name := extract_store_name (Description row) in
      match py_float (Value row) with
      | None => st
      | Some a =>
          let cat := default "None" (categories st !! store_name) in
          let st1 :=
            match categories st !! store_name with
            | None => save_categories (set_categories st (<[store_name := cat]> (categories st)))
            | Some _ => st
            end in
          let t := mk_transaction d store_name a cat in
          if in_ignore_list (ignore_list st1) (strftime_ymd d, store_name)
          then set_ignored st1 (ignored_transactions st1 ++ [t])
          else set_transactions st1 (transactions st1 ++ [t])
      end
  end.

(** The body of [for file_path in file_paths]. *)
Definition load_file (st : app_state) (f : csv_file) : app_state :=
  match f with
  | Unreadable p => emit st (FileError p)
  | Readable p rows complete =>
      let st' := fold_left (import_row p) rows st in
      if complete then st' else emit st' (FileError p)
  end.

(** [load_csv]: [replace_answer] is the answer to the yes/no box, which
    is asked only while [transactions] is not empty. *)
Definition load_csv (st : app_state) (file_paths : list csv_file)
    (replace_answer : bool) : app_state :=
  match file_paths with
  | [] => st
  | _ =>
      let replace_data :=
        match transactions st with [] => false | _ => replace_answer end in
      let st1 := if replace_data then set_transactions st [] else st in
      let st2 := fold_left load_file file_paths st1 in
      match transactions st2 with
      | [] => emit st2 (ShowInfo "No Transactions")
      | _ => generate_summary st2
      end
  end.

End ImportLoop.

(** ** The ignore dialog *)

(** [transaction[:2] == (date_obj, store)] *)
Definition matches (date_obj : datetime) (store_name : string) (t : transaction) : bool :=
  bool_decide (date t = date_obj) && String.eqb (store t) store_name.

(** The first element that satisfies [p], and the list without it: what
    [for x in l: if p(x): l.remove(x); break] finds and leaves. [remove]
    deletes the first element equal to [x]; that is [x] itself, since an
    equal tuple before it would have satisfied [p] first. *)
Fixpoint take_first {A : Type} (p : A -> bool) (l : list A) : option (A * list A) :=
  match l with
  | [] => None
  | x :: l' =>
      if p x then Some (x, l')
      else match take_first p l' with
           | Some (y, r) => Some (y, x :: r)
           | None => None
           end
  end.

(** [l.remove(k)] for a [k] that may be absent. *)
Fixpoint remove_first (k : string * string) (l : list (string * string)) :
    list (string * string) :=
  match l with
  | [] => []
  | x :: l' => if bool_decide (x = k) then l' else x :: remove_first k l'
  end.

(** [IgnoreListDialog.add_selectedd] on the selected row [(date_str,
    store, ...)]; [None] is the exception of [strptime]. The amount the
    method rebuilds from the row is not used afterwards. *)
Definition add_selectedd (st : app_state) (date_str store_name : string) :
    option app_state :=
  match strptime_ymd date_str with
  | None => None
  | Some date_obj =>
      if in_ignore_list (ignore_list st) (date_str, store_name) then Some st
      else
        let st1 :=
          save_ignore_list
            (set_ignore_list st (ignore_list st ++ [(date_str, store_name)])) in
        match take_first (matches date_obj store_name) (transactions st1) with
        | Some (t, rest) =>
            Some (set_ignored (set_transactions st1 rest)
                              (ignored_transactions st1 ++ [t]))
        | None => Some st1
        end
  end.

(** [IgnoreListDialog.remove_selectedd] on the selected row; [None] is
    the exception of [strptime], which leaves the handler before anything
    is moved or saved. *)
Definition remove_selectedd (st : app_state) (date_str store_name : string) :
    option app_state :=
  let l :=
    if in_ignore_list (ignore_list st) (date_str, store_name)
    then remove_first (date_str, store_name) (ignore_list st)
    else ignore_list st in
  match strptime_ymd date_str with
  | None => None
  | Some date_obj =>
      let st1 :=
        match take_first (matches date_obj store_name) (ignored_transactions st) with
        | Some (t, rest) => set_transactions (set_ignored st rest) (transactions st ++ [t])
        | None => st
        end in
      Some (save_ignore_list (set_ignore_list st1 l))
  end.

(** ** Category edits *)

(** The row of the correction table: date, store, amount and category as
    shown. *)
Definition table_row : Type := string * string * string * string.

(** [correct_transaction]: [index] is the number the focused item is named
    by, [new_cat] the answer of the text box ([None] when cancelled) and
    [update_all] the answer of the yes/no box. [None] is [IndexError]. *)
Definition correct_transaction (st : app_state) (index : nat) (values : table_row)
    (new_cat : option string) (update_all : bool) : option app_state :=
  let '(_, values1, _, current_cat) := values in
  match new_cat with
  | None => Some st
  | Some nc =>
      if negb (String.eqb nc EmptyString) && negb (String.eqb nc current_cat) then
        if update_all then
          let l := map (fun t => if String.eqb (store t) values1
                                 then set_category t nc else t)
                       (transactions st) in
          Some (generate_summary
                  (set_categories (set_transactions st l)
                                  (<[values1 := nc]> (categories st))))
        else
          match transactions st !! index with
          | Some t =>
              Some (generate_summary
                      (set_transactions st (<[index := set_category t nc]> (transactions st))))
          | None => None
          end
      else Some st
  end.

(** [cat.lower() == old_cat.lower()] *)
Definition same_category (cat old_cat : string) : bool :=
  String.eqb (Text.lower cat) (Text.lower old_cat).

(** [edit_category]: after the updates and the summary, the method calls
    [populate_correction_periods], which the class does not define. *)
Definition edit_category (st : app_state) (old_cat : string)
    (new_cat : option string) : app_state :=
  match new_cat with
  | None => st
  | Some nc =>
      if negb (String.eqb nc EmptyString) && negb (String.eqb nc old_cat) then
        let l := map (fun t => if same_category (category t) old_cat
                               then set_category t nc else t)
                     (transactions st) in
        let c := (fun cat => if same_category cat old_cat then nc else cat)
                   <$> categories st in
        let st1 := set_categories (set_transactions st l) c in
        emit (generate_summary (emit st1 (ShowInfo "Updated")))
             (Uncaught "AttributeError")
      else st
  end.

(** [add_category] with the store and the category of the two entry
    fields. *)
Definition add_category (st : app_state) (store_name cat : string) : app_state :=
  if String.eqb cat EmptyString || String.eqb store_name EmptyString then
    emit st (ShowError "Please select a category to add.")
  else
    save_categories (set_categories st (<[store_name := cat]> (categories st))).

(** [update_changes] *)
Definition update_changes (st : app_state) : app_state :=
  emit (save_categories (generate_summary st)) (ShowInfo "Updated").

(** ** The user's actions as a transition system *)

Inductive action :=
  | LoadCsv (file_paths : list csv_file) (replace_answer : bool)
  | AddSelected (date_str store_name : string)
  | RemoveSelected (date_str store_name : string)
  | CloseIgnoreDialog
  | CorrectTransaction (index : nat) (values : table_row)
                       (new_cat : option string) (update_all : bool)
  | EditCategory (old_cat : string) (new_cat : option string)
  | AddCategory (store_name cat : string)
  | UpdateChanges.

Section Run.

Variable py_float : string -> option float.
Variable strptime_dmy : string -> option datetime.

(** One action; [None] when the handler raises. Closing the ignore
    dialog runs [refresh_all_pages], of which [generate_summary] is the
    part that touches the state. *)
Definition step (st : app_state) (a : action) : option app_state :=
  match a with
  | LoadCsv fs r => Some (load_csv py_float strptime_dmy st fs r)
  | AddSelected d s => add_selectedd st d s
  | RemoveSelected d s => remove_selectedd st d s
  | CloseIgnoreDialog => Some (generate_summary st)
  | CorrectTransaction i v n u => correct_transaction st i v n u
  | EditCategory o n => Some (edit_category st o n)
  | AddCategory s c => Some (add_category st s c)
  | UpdateChanges => Some (update_changes st)
  end.

Fixpoint run (st : app_state) (l : list action) : option app_state :=
  match l with
  | [] => Some st
  | a :: l' =>
      match step st a with
      | Some st' => run st' l'
      | None => None
      end
  end.

End Run.

(** ** Sample data *)

Module Sample.

(** [float] and [strptime] on the texts of the sample statements. *)
Definition py_float (s : string) : option float :=
  if String.eqb s "-23.50" then Some (-23.5)%float
  else if String.eqb s "2000.00" then Some 2000%float
  else if String.eqb s "-5.00" then Some (-5)%float
  else if String.eqb s "0.00" then Some 0%float
  else None.

Definition strptime_dmy (s : string) : option datetime :=
  if String.eqb s "15 Jan 2024" then Some (mk_datetime 2024 1 15)
  else if String.eqb s "20 Jan 2024" then Some (mk_datetime 2024 1 20)
  else None.

Definition tesco_row : csv_row := mk_row "15 Jan 2024" "SHOP A, Tesco" "-23.50".
Definition employer_row : csv_row := mk_row "20 Jan 2024" "SHOP B, Employer" "2000.00".
Definition tesco_again_row : csv_row := mk_row "15 Jan 2024" "SHOP C, Tesco" "-5.00".
Definition bad_date_row : csv_row := mk_row "2024-01-15" "SHOP A, Tesco" "-23.50".
Definition bad_value_row : csv_row := mk_row "15 Jan 2024" "SHOP A, Tesco" "n/a".

Definition jan15 : datetime := mk_datetime 2024 1 15.
Definition jan20 : datetime := mk_datetime 2024 1 20.

Definition tesco : transaction := mk_transaction jan15 "Tesco" (-23.5)%float "None".
Definition employer : transaction := mk_transaction jan20 "Employer" 2000%float "None".
Definition tesco_again : transaction := mk_transaction jan15 "Tesco" (-5)%float "None".
Definition voided : transaction := mk_transaction jan15 "Tesco" 0%float "None".
Definition small_tesco : transaction := mk_transaction jan20 "tesco" (-5)%float "None".

Definition statement : csv_file := Readable "jan.csv" [tesco_row; employer_row] true.

Definition two_tesco : csv_file := Readable "jan.csv" [tesco_row; tesco_again_row] true.
Definition three_tesco : csv_file :=
  Readable "jan.csv" [tesco_row; tesco_again_row; tesco_row] true.
Definition tesco_only : csv_file := Readable "a.csv" [tesco_row] true.
Definition tesco_again_only : csv_file := Readable "b.csv" [tesco_again_row] true.
Definition employer_only : csv_file := Readable "feb.csv" [employer_row] true.

Definition shop_categories : gmap string string :=
  {[ "Tesco" := "Groceries"; "Employer" := "Pay" ]}.

Definition fresh : app_state := init ∅ [].

Definition run_sample : app_state -> list action -> option app_state :=
  run py_float strptime_dmy.

End Sample.

(** ** Auxiliary definitions of the statements *)

(** [f] holds at [0], ..., [n]. *)
Fixpoint all_upto (f : nat -> bool) (n : nat) : bool :=
  match n with
  | O => f O
  | S k => f n && all_upto f k
  end.

(** Everything of the state but the record of effects. *)
Definition data (st : app_state) :
    list transaction * list transaction * gmap string string *
    list (string * string) * summary :=
  (transactions st, ignored_transactions st, categories st, ignore_list st, tables st).

(** Two dictionaries that answer [get(store, "None")] alike. *)
Definition same_defaults (c1 c2 : gmap string string) : Prop :=
  forall s, default "None" (c1 !! s) = default "None" (c2 !! s).

Definition file_rows (f : csv_file) : list csv_row :=
  match f with
  | Unreadable _ => []
  | Readable _ rows _ => rows
  end.

(** Whether a transaction's key is on the ignore list. *)
Definition on_ignore_list (l : list (string * string)) (t : transaction) : bool :=
  in_ignore_list l (ignore_key t).

Section ImportedRows.

Variable py_float : string -> option float.
Variable strptime_dmy : string -> option datetime.

(** The transaction a row stands for, when its date and its value
    parse; the category is the one the dictionary [cats] gives. *)
Definition row_transaction (cats : gmap string string) (row : csv_row) :
    option transaction :=
  match strptime_dmy (Date row), py_float (Value row) with
  | Some d, Some a =>
      let s := extract_store_name (Description row) in
      Some (mk_transaction d s a (default "None" (cats !! s)))
  | _, _ => None
  end.

(** The transactions of a batch of files, in reading order. *)
Definition imported (cats : gmap string string) (files : list csv_file) :
    list transaction :=
  omap (row_transaction cats) (flat_map file_rows files).

End ImportedRows.

(** What [load_csv] starts from: the list emptied when the user asked to
    replace a list that was not empty. *)
Definition kept_transactions (st : app_state) (replace_answer : bool) : list transaction :=
  match transactions st with
  | [] => []
  | l => if replace_answer then [] else l
  end.

(** The two ends of [load_csv] around its loop over the files. *)
Definition load_start (st : app_state) (replace_answer : bool) : app_state :=
  if match transactions st with [] => false | _ => replace_answer end
  then set_transactions st [] else st.

Definition load_end (st : app_state) : app_state :=
  match transactions st with
  | [] => emit st (ShowInfo "No Transactions")
  | _ => generate_summary st
  end.

(** ** The partition of the transactions *)

(** A date text as [strftime("%Y-%m-%d")] writes it, which is how the
    rows of the ignore dialog show dates. *)
Definition canonical_date (s : string) : bool :=
  match strptime_ymd s with
  | Some d => String.eqb (strftime_ymd d) s
  | None => false
  end.

(** The moves of the dialog carry the date of a row of the dialog. *)
Definition from_dialog (a : action) : bool :=
  match a with
  | AddSelected date_str _ | RemoveSelected date_str _ => canonical_date date_str
  | _ => true
  end.

(** No two transactions of the two lists have the same date text and
    store. *)
Definition keys_distinct (st : app_state) : bool :=
  bool_decide (NoDup (map ignore_key (transactions st ++ ignored_transactions st))).

(** What makes a transaction the one that was imported: its date, its
    store and its amount. Its category is what a correction changes. *)
Definition entry (t : transaction) : datetime * string * float :=
  (date t, store t, amount t).

(** The entries of the transactions of the two lists. *)
Definition held_entries (st : app_state) : list (datetime * string * float) :=
  map entry (transactions st ++ ignored_transactions st).

(** The partition as the specification words it, for the imported
    transactions [imports]: no transaction is in both lists, every
    imported transaction is in one of them, and the pair of a
    transaction of either list is on the ignore list exactly when the
    transaction is in [ignored_transactions]. *)
Definition partition_claim (imports : list (datetime * string * float))
    (st : app_state) : Prop :=
  (forall t, ~ (In t (transactions st) /\ In t (ignored_transactions st))) /\
  (forall e, In e imports -> In e (held_entries st)) /\
  (forall t, In t (transactions st ++ ignored_transactions st) ->
     (In (ignore_key t) (ignore_list st) <-> In t (ignored_transactions st))).

(** The same, list by list. *)
Definition partition_ok (st : app_state) : Prop :=
  (forall t, In t (transactions st) -> ~ In (ignore_key t) (ignore_list st)) /\
  (forall t, In t (ignored_transactions st) -> In (ignore_key t) (ignore_list st)).

Section Reachable.

Variable py_float : string -> option float.
Variable strptime_dmy : string -> option datetime.

(** The imported transactions after an action, given those before it: a
    load of files adds the transactions it reads, and forgets the earlier
    ones when the user asked to replace a list that was not empty; no
    other action imports or discards a transaction. *)
Definition imports_after (imports : list (datetime * string * float))
    (st : app_state) (a : action) : list (datetime * string * float) :=
  match a with
  | LoadCsv (f :: fs) replace_answer =>
      (if match transactions st with [] => false | _ => replace_answer end
       then [] else imports)
      ++ map entry (imported py_float strptime_dmy (categories st) (f :: fs))
  | _ => imports
  end.

(** What is asked of the files loaded: no two of the transactions read
    share date and store, and none shares them with a transaction that
    the load keeps. *)
Definition load_distinct (st : app_state) (a : action) : bool :=
  match a with
  | LoadCsv (f :: fs) replace_answer =>
      bool_decide (NoDup (map ignore_key
        (kept_transactions st replace_answer ++ ignored_transactions st ++
         imported py_float strptime_dmy (categories st) (f :: fs))))
  | _ => true
  end.

(** The states the user's actions lead to, each with the transactions
    imported on the way, from a start with an ignore file without
    repeated lines, as long as every load satisfies [load_distinct]. *)
Inductive reachable_distinct : list (datetime * string * float) -> app_state -> Prop :=
  | reach_init (cats : gmap string string) (reg : list (string * string)) :
      bool_decide (NoDup reg) = true ->
      reachable_distinct [] (init cats reg)
  | reach_step (imports : list (datetime * string * float)) (st : app_state)
      (a : action) (st' : app_state) :
      reachable_distinct imports st ->
      from_dialog a = true ->
      step py_float strptime_dmy st a = Some st' ->
      load_distinct st a = true ->
      reachable_distinct (imports_after imports st a) st'.

End Reachable.

(** ** The other statements of the specification, as worded there *)

(** Renaming a category: every store and every transaction held that had
    the old category, compared case-insensitively, has the new one
    afterwards, and no transaction of [transactions] and no store keeps
    the old one. *)
Definition rename_claim (st : app_state) (old_cat new_cat : string) : Prop :=
  let st' := edit_category st old_cat (Some new_cat) in
  (forall s c, categories st !! s = Some c -> same_category c old_cat = true ->
     categories st' !! s = Some new_cat) /\
  (forall (i : nat) (t : transaction),
     (transactions st ++ ignored_transactions st) !! i = Some t ->
     same_category (category t) old_cat = true ->
     exists t', (transactions st' ++ ignored_transactions st') !! i = Some t' /\
                category t' = new_cat) /\
  (forall t, In t (transactions st') -> same_category (category t) old_cat = false) /\
  (forall s c, categories st' !! s = Some c -> same_category c old_cat = false).

(** Ignoring a transaction of [transactions] and taking it back: it is in
    [transactions] again, not in [ignored_transactions], and its pair is
    off the ignore list. *)
Definition toggle_claim (st : app_state) (t : transaction) : Prop :=
  In t (transactions st) ->
  exists st1 st2,
    add_selectedd st (strftime_ymd (date t)) (store t) = Some st1 /\
    remove_selectedd st1 (strftime_ymd (date t)) (store t) = Some st2 /\
    In t (transactions st2) /\
    ~ In t (ignored_transactions st2) /\
    ~ In (ignore_key t) (ignore_list st2).

(** Moving to the ignored list when two or more transactions share date
    and store: the first one goes, the later ones stay. *)
Definition first_only_claim (st : app_state) (date_str store_name : string) : Prop :=
  forall d l1 t l2,
    strptime_ymd date_str = Some d ->
    transactions st = l1 ++ t :: l2 ->
    matches d store_name t = true ->
    (forall u, In u l1 -> matches d store_name u = false) ->
    (exists u, In u l2 /\ matches d store_name u = true) ->
    exists st', add_selectedd st date_str store_name = Some st' /\
      transactions st' = l1 ++ l2 /\
      ignored_transactions st' = ignored_transactions st ++ [t].

(** ** Further code of the program: files, tables of the dialogs, counts *)

(** [d[row[0]] = row[1]] for a row of at least two fields: the body of
    the loop that reads the file of categories. *)
Definition row_update (d : gmap string string) (row : list string) : gmap string string :=
  match row with
  | k :: v :: _ => <[k := v]> d
  | _ => d
  end.

(** [load_categories], on the rows [csv.reader] yields; [None] is a
    missing file, an empty file has no rows. *)
Definition load_categories (file : option (list (list string))) : gmap string string :=
  match file with
  | None => ∅
  | Some rows => fold_left row_update rows ∅
  end.

(** The rows [save_categories] writes, one per entry of the dictionary;
    the program writes them in the order the entries were inserted. *)
Definition categories_rows (c : gmap string string) : list (list string) :=
  (fun p => [p.1; p.2]) <$> map_to_list c.

(** [load_ignore_list] *)
Definition load_ignore_list (file : option (list (list string))) : list (string * string) :=
  match file with
  | None => []
  | Some rows =>
      omap (fun row => match row with
                       | d :: s :: _ => Some (Text.strip d, Text.strip s)
                       | _ => None
                       end) rows
  end.

(** The rows [save_ignore_list] writes. *)
Definition ignore_rows (l : list (string * string)) : list (list string) :=
  map (fun p => [p.1; p.2]) l.

(** A value of the dictionary [config.settings]: a string, as the module
    sets them and [load_settings] reads them, or an integer, which is what
    [apply_settings] stores under "FontSize" ([IntVar.get()]) before it
    calls [save_settings]. *)
Inductive setting_value :=
  | Str (s : string)
  | Num (n : Z).

(** [str(n)] for an integer *)
Definition str_of_int (n : Z) : string :=
  if (n <? 0)%Z then String "-" (Text.of_nat (Z.to_nat (- n)))
  else Text.of_nat (Z.to_nat n).

(** The field [csv.writer] writes for a value: a string as it is, any
    other value through [str]. *)
Definition written (v : setting_value) : string :=
  match v with
  | Str s => s
  | Num n => str_of_int n
  end.

(** [settings[row[0]] = row[1]] for a row of at least two fields; what is
    read is a string. *)
Definition setting_update (d : gmap string setting_value) (row : list string) :
    gmap string setting_value :=
  match row with
  | k :: v :: _ => <[k := Str v]> d
  | _ => d
  end.

(** [config.load_settings] on the global dictionary [settings]: the first
    row is taken off as the header; for a missing file the function calls
    [save_settings()] without its argument, which raises ([None]). *)
Definition load_settings (file : option (list (list string)))
    (settings : gmap string setting_value) : option (gmap string setting_value) :=
  match file with
  | None => None
  | Some rows => Some (fold_left setting_update (tail rows) settings)
  end.

(** The rows [config.save_settings] writes: the header, then one row per
    setting. *)
Definition settings_rows (settings : gmap string setting_value) : list (list string) :=
  ["Setting"; "Value"] :: ((fun p => [p.1; written p.2]) <$> map_to_list settings).

(** [needle in hay] *)
Fixpoint contains (needle hay : string) : bool :=
  String.prefix needle hay ||
  match hay with
  | EmptyString => false
  | String _ hay' => contains needle hay'
  end.

(** Truth of a string in a condition: it is not empty. *)
Definition truthy (s : string) : bool := negb (String.eqb s EmptyString).

(** A row of the two tables of the ignore dialog, before its amounts are
    formatted. *)
Record dialog_row := mk_dialog_row {
  row_date : string;
  row_store : string;
  row_income : float;
  row_outgoing : float;
  row_category : string
}.

(** [IgnoreListDialog.filter_available]: the rows of the table of
    available transactions, for the texts of the three filter fields. The
    sort column of the table is never set, so the rows stay in the order of
    [transactions]. *)
Definition filter_available (st : app_state) (time_var cat_var store_var : string) :
    list dialog_row :=
  let time_filter := Text.strip (Text.lower time_var) in
  let cat_filter := Text.strip (Text.lower cat_var) in
  let store_filter := Text.strip (Text.lower store_var) in
  omap (fun t =>
          let date_str := strftime_ymd (date t) in
          let income := if (amount t <? 0)%float then 0%float else amount t in
          let outgoing := if (amount t <? 0)%float then abs (amount t) else 0%float in
          if in_ignore_list (ignore_list st) (date_str, store t) then None
          else if truthy time_filter && negb (String.eqb time_filter "total")
                  && negb (String.prefix time_filter date_str) then None
          else if truthy cat_filter
                  && negb (contains cat_filter (Text.lower (category t))) then None
          else if truthy store_filter
                  && negb (contains store_filter (Text.lower (store t))) then None
          else Some (mk_dialog_row date_str (store t) income outgoing (category t)))
       (transactions st).

(** [d.strftime("%Y")] *)
Definition strftime_y (d : datetime) : string := Text.zfill 4 (Text.of_nat (year d)).

(** The test of the period in [populate_correction_tab]: "Total", a year
    of four characters, a month of seven; anything else shows nothing. *)
Definition in_period (period : string) (d : datetime) : bool :=
  if String.eqb period "Total" then true
  else if String.length period =? 4 then String.eqb (strftime_y d) period
  else if String.length period =? 7 then String.eqb (strftime_ym d) period
  else false.

(** [populate_correction_tab]: the items of the correction table, each
    named by the index of its transaction in [transactions]. *)
Definition populate_correction_tab (st : app_state) (period cat_var store_var : string) :
    list (nat * transaction) :=
  let cat_filter := Text.lower cat_var in
  let store_filter := Text.lower store_var in
  omap (fun it =>
          let t := it.2 in
          if negb (in_period period (date t)) then None
          else if truthy cat_filter
                  && negb (contains cat_filter (Text.lower (category t))) then None
          else if truthy store_filter
                  && negb (contains store_filter (Text.lower (store t))) then None
          else Some it)
       (imap (fun i t => (i, t)) (transactions st)).

(** The two dictionaries of the loop of [populate_categories_tab]:
    [cat_counts] and [cat_totals]. *)
Definition category_counts (txs : list transaction) : gmap string nat :=
  fold_left (fun d t => <[category t := S (default 0 (d !! category t))]> d) txs ∅.

Definition category_totals (txs : list transaction) : gmap string float :=
  fold_left (fun d t => add_to (category t) (amount t) d) txs ∅.

(** A text without white space at either end. *)
Definition stripped (s : string) : Prop := Text.strip s = s.

(** The lists, the dictionary and the ignore list, without the tables. *)
Definition core (st : app_state) :
    list transaction * list transaction * gmap string string * list (string * string) :=
  (transactions st, ignored_transactions st, categories st, ignore_list st).

(** The character [c] does not occur in [s]. *)
Fixpoint lacks (c : ascii) (s : string) : bool :=
  match s with
  | EmptyString => true
  | String a s' => negb (Ascii.eqb a c) && lacks c s'
  end.

(** No character of [s] is white space. *)
Fixpoint no_space (s : string) : bool :=
  match s with
  | EmptyString => true
  | String c s' => negb (Text.is_space c) && no_space s'
  end.

(** [d[k] = v] for each pair, in list order. *)
Definition insert_all {V : Type} (l : list (string * V)) (d : gmap string V) :
    gmap string V :=
  fold_left (fun d p => <[p.1 := p.2]> d) l d.

Definition strip_pair (p : string * string) : string * string :=
  (Text.strip p.1, Text.strip p.2).

(** The dictionary [c] holds every entry of [c0], and maps to "None"
    every store that it holds and [c0] did not. *)
Definition extends_with_none (c0 c : gmap string string) : Prop :=
  (forall s v, c0 !! s = Some v -> c !! s = Some v) /\
  (forall s v, c0 !! s = None -> c !! s = Some v -> v = "None").

(** Two lists of transactions that agree, position by position, on dates
    and amounts. *)
Definition same_money (l1 l2 : list transaction) : Prop :=
  Forall2 (fun a b => date a = date b /\ amount a = amount b) l1 l2.
(** * Properties *)

(** ** Dates: formatting and parsing back *)

Lemma all_digits_of_nat (n : nat) : Text.all_digits (Text.of_nat n) = true.
Proof.
  unfold Text.of_nat. induction (Nat.to_uint n); simpl; auto.
Qed.

Lemma all_digits_zfill (w : nat) (s : string) :
  Text.all_digits s = true -> Text.all_digits (Text.zfill w s) = true.
Proof.
  intros Hs. unfold Text.zfill.
  induction (w - String.length s) as [|k IH]; simpl; auto.
Qed.

Lemma split_digits (s : string) :
  Text.all_digits s = true -> Text.split "-" s = [s].
Proof.
  induction s as [|c s IH]; simpl; [reflexivity|].
  intros [Hc Hs]%andb_true_iff. rewrite IH by exact Hs.
  destruct (Ascii.eqb_spec c "-") as [->|_]; [discriminate Hc|reflexivity].
Qed.

Lemma split_digits_dash (a b : string) :
  Text.all_digits a = true ->
  Text.split "-" (String.append a (String "-" b)) = a :: Text.split "-" b.
Proof.
  induction a as [|c a IH]; intros Ha.
  - reflexivity.
  - simpl in Ha. apply andb_true_iff in Ha as [Hc Ha].
    simpl. rewrite (IH Ha).
    destruct (Ascii.eqb_spec c "-") as [->|_]; [discriminate Hc|reflexivity].
Qed.

Lemma uint_of_zeros (k : nat) (s : string) :
  option_map Nat.of_uint (NilEmpty.uint_of_string (String.append (Text.repeat_char "0" k) s)) =
  option_map Nat.of_uint (NilEmpty.uint_of_string s).
Proof.
  induction k as [|k IH]; simpl; [reflexivity|].
  rewrite <- IH. now destruct (NilEmpty.uint_of_string _).
Qed.

Lemma of_nat_not_empty (n : nat) : Text.of_nat n <> EmptyString.
Proof.
  unfold Text.of_nat. intros H.
  assert (Hn : Nat.to_uint n = Decimal.Nil).
  { assert (Hu := NilEmpty.usu (Nat.to_uint n)). rewrite H in Hu. simpl in Hu. congruence. }
  assert (Hz := DecimalNat.Unsigned.to_of (Nat.to_uint n)).
  rewrite DecimalNat.Unsigned.of_to, Hn in Hz. discriminate Hz.
Qed.

Lemma to_nat_zfill (w n : nat) : Text.to_nat (Text.zfill w (Text.of_nat n)) = Some n.
Proof.
  assert (Hv : option_map Nat.of_uint
                 (NilEmpty.uint_of_string (Text.zfill w (Text.of_nat n))) = Some n).
  { unfold Text.zfill. rewrite uint_of_zeros. unfold Text.of_nat.
    rewrite NilEmpty.usu. simpl. now rewrite DecimalNat.Unsigned.of_to. }
  unfold Text.to_nat. destruct (Text.zfill w (Text.of_nat n)) eqn:Hz; [|exact Hv].
  exfalso. unfold Text.zfill in Hz.
  destruct (w - String.length (Text.of_nat n)); simpl in Hz; [|discriminate].
  now apply of_nat_not_empty in Hz.
Qed.

Lemma split_strftime_ymd (d : datetime) :
  Text.split "-" (strftime_ymd d) =
  [Text.zfill 4 (Text.of_nat (year d)); Text.zfill 2 (Text.of_nat (month d));
   Text.zfill 2 (Text.of_nat (day d))].
Proof.
  unfold strftime_ymd.
  rewrite split_digits_dash by (apply all_digits_zfill, all_digits_of_nat).
  rewrite split_digits_dash by (apply all_digits_zfill, all_digits_of_nat).
  rewrite split_digits by (apply all_digits_zfill, all_digits_of_nat).
  reflexivity.
Qed.

Lemma field_Y_zfill (n : nat) (v : nat) :
  field_Y (Text.zfill 4 (Text.of_nat n)) = Some v -> v = n.
Proof.
  unfold field_Y. destruct (_ =? 4); [|discriminate].
  rewrite to_nat_zfill. congruence.
Qed.

Lemma field_m_zfill (n : nat) (v : nat) :
  field_m (Text.zfill 2 (Text.of_nat n)) = Some v -> v = n.
Proof.
  unfold field_m. destruct (_ && _); [|discriminate].
  rewrite to_nat_zfill. destruct (_ && _); congruence.
Qed.

Lemma day_digits (s : string) :
  Text.all_digits s = true ->
  match s with
  | String c1 (String c2 EmptyString) =>
      if Ascii.eqb c1 " " && negb (Ascii.eqb c2 "0") then String c2 EmptyString else s
  | _ => s
  end = s.
Proof.
  destruct s as [|c1 [|c2 [|c3 s]]]; try reflexivity.
  simpl. intros [Hc _]%andb_true_iff.
  destruct (Ascii.eqb_spec c1 " ") as [->|_]; [discriminate Hc|reflexivity].
Qed.

Lemma field_d_zfill (n : nat) (v : nat) :
  field_d (Text.zfill 2 (Text.of_nat n)) = Some v -> v = n.
Proof.
  unfold field_d.
  rewrite day_digits by (apply all_digits_zfill, all_digits_of_nat).
  destruct (_ && _); [|discriminate].
  rewrite to_nat_zfill. destruct (_ && _); congruence.
Qed.

(** Parsing a formatted date gives the date back, or fails. *)
Lemma strptime_strftime_inv (d d' : datetime) :
  strptime_ymd (strftime_ymd d) = Some d' -> d' = d.
Proof.
  unfold strptime_ymd. rewrite split_strftime_ymd.
  destruct (field_Y _) as [y|] eqn:Hy; [|discriminate].
  destruct (field_m _) as [m|] eqn:Hm; [|discriminate].
  destruct (field_d _) as [x|] eqn:Hd; [|discriminate].
  apply field_Y_zfill in Hy as ->. apply field_m_zfill in Hm as ->.
  apply field_d_zfill in Hd as ->.
  unfold datetime_new. destruct (valid_date _); [|discriminate].
  destruct d. cbn. congruence.
Qed.

Lemma all_upto_spec (f : nat -> bool) (n : nat) :
  all_upto f n = true -> forall k, (k <=? n) = true -> f k = true.
Proof.
  induction n as [|n IH]; cbn [all_upto]; intros H k Hk.
  - destruct k; [exact H|discriminate Hk].
  - apply andb_true_iff in H as [Hn H].
    destruct (Nat.eq_dec k (S n)) as [->|Hne]; [exact Hn|].
    apply IH; [exact H|]. apply Nat.leb_le in Hk. apply Nat.leb_le. lia.
Qed.

Lemma length_year (y : nat) :
  (y <=? 9999) = true -> String.length (Text.zfill 4 (Text.of_nat y)) = 4.
Proof.
  intros Hy. apply Nat.eqb_eq.
  refine (all_upto_spec (fun y => String.length (Text.zfill 4 (Text.of_nat y)) =? 4)
            9999 _ y Hy).
  vm_compute. reflexivity.
Qed.

Lemma length_two (n : nat) :
  (n <=? 31) = true -> String.length (Text.zfill 2 (Text.of_nat n)) = 2.
Proof.
  intros Hn. apply Nat.eqb_eq.
  refine (all_upto_spec (fun n => String.length (Text.zfill 2 (Text.of_nat n)) =? 2)
            31 _ n Hn).
  vm_compute. reflexivity.
Qed.

Lemma days_in_month_le (y m : nat) : days_in_month y m <= 31.
Proof.
  unfold days_in_month.
  do 12 (destruct m as [|m]; [try destruct (is_leap y); lia|]). lia.
Qed.

(** Every date a [datetime] can hold is parsed back from its text. *)
Lemma strptime_strftime (d : datetime) :
  valid_date d = true -> strptime_ymd (strftime_ymd d) = Some d.
Proof.
  intros Hv. pose proof Hv as Hv'. unfold valid_date in Hv'.
  repeat (apply andb_true_iff in Hv' as [Hv' ?]).
  assert (Hm : (month d <=? 31) = true).
  { apply Nat.leb_le. repeat match goal with H : (_ <=? _) = true |- _ => apply Nat.leb_le in H end. lia. }
  assert (Hd : (day d <=? 31) = true).
  { apply Nat.leb_le. pose proof (days_in_month_le (year d) (month d)).
    repeat match goal with H : (_ <=? _) = true |- _ => apply Nat.leb_le in H end. lia. }
  unfold strptime_ymd. rewrite split_strftime_ymd.
  unfold field_Y, field_m, field_d.
  rewrite day_digits by (apply all_digits_zfill, all_digits_of_nat).
  rewrite length_year by assumption. rewrite !length_two by assumption.
  rewrite !to_nat_zfill, Nat.eqb_refl.
  change ((1 <=? 2) && (2 <=? 2)) with true. cbv iota.
  rewrite H2, H1, H0, Hd. cbn [andb]. unfold datetime_new.
  destruct d as [y m x]. cbn [year month day] in *. now rewrite Hv.
Qed.

(** ** Floats: what the comparisons with zero exclude *)

Lemma float_pos_not_neg (a : float) :
  (0 <? a)%float = true -> (a <? 0)%float = false.
Proof.
  rewrite !FloatAxioms.ltb_spec.
  change (Prim2SF 0) with (S754_zero false).
  destruct (Prim2SF a) as [s|s| |s m e]; try destruct s; cbn; congruence.
Qed.

Lemma float_zero_not_neg (a : float) :
  (a =? 0)%float = true -> (a <? 0)%float = false.
Proof.
  rewrite FloatAxioms.eqb_spec, FloatAxioms.ltb_spec.
  change (Prim2SF 0) with (S754_zero false).
  destruct (Prim2SF a) as [s|s| |s m e]; try destruct s; cbn; congruence.
Qed.

Lemma float_zero_not_pos (a : float) :
  (a =? 0)%float = true -> (0 <? a)%float = false.
Proof.
  rewrite FloatAxioms.eqb_spec, FloatAxioms.ltb_spec.
  change (Prim2SF 0) with (S754_zero false).
  destruct (Prim2SF a) as [s|s| |s m e]; try destruct s; cbn; congruence.
Qed.

(** ** The summary tables *)

Lemma total_at_add_to (k m : string) (x : float) (d : gmap string float) :
  total_at (add_to k x d) m =
  if String.eqb k m then (total_at d m + x)%float else total_at d m.
Proof.
  unfold total_at, add_to.
  destruct (String.eqb_spec k m) as [->|Hne].
  - now rewrite lookup_insert_eq.
  - now rewrite lookup_insert_ne.
Qed.

Lemma breakdown_at_add_to2 (k1 k2 m c : string) (x : float)
    (d : gmap string (gmap string float)) :
  breakdown_at (add_to2 k1 k2 x d) m c =
  if String.eqb k1 m && String.eqb k2 c
  then (breakdown_at d m c + x)%float else breakdown_at d m c.
Proof.
  unfold breakdown_at, add_to2.
  destruct (String.eqb_spec k1 m) as [->|Hne]; cbn [andb].
  - rewrite lookup_insert_eq. cbn [default]. apply total_at_add_to.
  - now rewrite lookup_insert_ne.
Qed.

Section SummaryFold.

Variables (m c : string).

Lemma fold_totals_income (txs : list transaction) (s : summary) :
  total_at (monthly_totals_income (fold_left summary_step txs s)) m =
  fold_left PrimFloat.add
    (map amount (List.filter (fun t => in_month m t && is_income t) txs))
    (total_at (monthly_totals_income s) m).
Proof.
  revert s. induction txs as [|t txs IH]; intros s; [reflexivity|].
  cbn [fold_left List.filter]. rewrite IH. clear IH.
  unfold summary_step, in_month, is_income.
  destruct (amount t <? 0)%float eqn:Hneg.
  - destruct (0 <? amount t)%float eqn:Hpos.
    + rewrite (float_pos_not_neg _ Hpos) in Hneg. discriminate.
    + now rewrite andb_false_r.
  - destruct (0 <? amount t)%float eqn:Hpos.
    + cbn [monthly_totals_income]. rewrite total_at_add_to, andb_true_r.
      now destruct (String.eqb _ m).
    + now rewrite andb_false_r.
Qed.

Lemma fold_totals_spending (txs : list transaction) (s : summary) :
  total_at (monthly_totals_spending (fold_left summary_step txs s)) m =
  fold_left PrimFloat.add
    (map spent (List.filter (fun t => in_month m t && is_spending t) txs))
    (total_at (monthly_totals_spending s) m).
Proof.
  revert s. induction txs as [|t txs IH]; intros s; [reflexivity|].
  cbn [fold_left List.filter]. rewrite IH. clear IH.
  unfold summary_step, in_month, is_spending, spent.
  destruct (amount t <? 0)%float eqn:Hneg.
  - cbn [monthly_totals_spending]. rewrite total_at_add_to, andb_true_r.
    now destruct (String.eqb _ m).
  - rewrite andb_false_r. now destruct (0 <? amount t)%float.
Qed.

Lemma fold_breakdown_income (txs : list transaction) (s : summary) :
  breakdown_at (summary_income (fold_left summary_step txs s)) m c =
  fold_left PrimFloat.add
    (map amount
       (List.filter (fun t => in_month m t && has_category c t && is_income t) txs))
    (breakdown_at (summary_income s) m c).
Proof.
  revert s. induction txs as [|t txs IH]; intros s; [reflexivity|].
  cbn [fold_left List.filter]. rewrite IH. clear IH.
  unfold summary_step, in_month, is_income, has_category.
  destruct (amount t <? 0)%float eqn:Hneg.
  - destruct (0 <? amount t)%float eqn:Hpos.
    + rewrite (float_pos_not_neg _ Hpos) in Hneg. discriminate.
    + now rewrite andb_false_r.
  - destruct (0 <? amount t)%float eqn:Hpos.
    + cbn [summary_income]. rewrite breakdown_at_add_to2, andb_true_r.
      now destruct (_ && _).
    + now rewrite andb_false_r.
Qed.

Lemma fold_breakdown_spending (txs : list transaction) (s : summary) :
  breakdown_at (summary_spending (fold_left summary_step txs s)) m c =
  fold_left PrimFloat.add
    (map spent
       (List.filter (fun t => in_month m t && has_category c t && is_spending t) txs))
    (breakdown_at (summary_spending s) m c).
Proof.
  revert s. induction txs as [|t txs IH]; intros s; [reflexivity|].
  cbn [fold_left List.filter]. rewrite IH. clear IH.
  unfold summary_step, in_month, is_spending, has_category, spent.
  destruct (amount t <? 0)%float eqn:Hneg.
  - cbn [summary_spending]. rewrite breakdown_at_add_to2, andb_true_r.
    now destruct (_ && _).
  - rewrite andb_false_r. now destruct (0 <? amount t)%float.
Qed.

End SummaryFold.

Lemma summary_step_zero (s : summary) (t : transaction) :
  (amount t =? 0)%float = true -> summary_step s t = s.
Proof.
  intros Hz. unfold summary_step.
  now rewrite (float_zero_not_neg _ Hz), (float_zero_not_pos _ Hz).
Qed.

(** C1. After [generate_summary], for every month [m] the income total is
    the sum of the amounts of the transactions of [m] in [transactions]
    with [amount > 0], the spending total is the sum of [abs(amount)] over
    those with [amount < 0], the two breakdowns at [(m, c)] are the same
    sums restricted to category [c], and a transaction whose amount is
    zero changes none of the four tables. Sums are accumulated from zero
    in list order, a missing key reads as zero. *)
Theorem generate_summary_sound (st : app_state) :
  let s := tables (generate_summary st) in
  let txs := transactions st in
  (forall m, total_at (monthly_totals_income s) m =
     fsum (map amount (List.filter (fun t => in_month m t && is_income t) txs))) /\
  (forall m, total_at (monthly_totals_spending s) m =
     fsum (map spent (List.filter (fun t => in_month m t && is_spending t) txs))) /\
  (forall m c, breakdown_at (summary_income s) m c =
     fsum (map amount
       (List.filter (fun t => in_month m t && has_category c t && is_income t) txs))) /\
  (forall m c, breakdown_at (summary_spending s) m c =
     fsum (map spent
       (List.filter (fun t => in_month m t && has_category c t && is_spending t) txs))) /\
  (forall before t after,
     txs = before ++ t :: after -> (amount t =? 0)%float = true ->
     s = summarize (before ++ after)).
Proof.
  cbn zeta. unfold generate_summary, summarize, fsum. cbn [tables set_tables].
  repeat split; intros.
  - apply fold_totals_income.
  - apply fold_totals_spending.
  - apply fold_breakdown_income.
  - apply fold_breakdown_spending.
  - subst. rewrite H. rewrite !fold_left_app. cbn [fold_left].
    now rewrite summary_step_zero.
Qed.

(** ** Import *)

Section ImportFacts.

Variable py_float : string -> option float.
Variable strptime_dmy : string -> option datetime.

Local Abbreviation import_row := (import_row py_float strptime_dmy).
Local Abbreviation load_file := (load_file py_float strptime_dmy).
Local Abbreviation load_csv := (load_csv py_float strptime_dmy).
Local Abbreviation row_transaction := (row_transaction py_float strptime_dmy).
Local Abbreviation imported := (imported py_float strptime_dmy).

Lemma same_defaults_refl (c : gmap string string) : same_defaults c c.
Proof. now intros s. Qed.

Lemma row_transaction_defaults (c1 c2 : gmap string string) (row : csv_row) :
  same_defaults c1 c2 -> row_transaction c1 row = row_transaction c2 row.
Proof.
  intros H. unfold row_transaction.
  destruct (strptime_dmy (Date row)), (py_float (Value row)); try reflexivity.
  cbn zeta. now rewrite H.
Qed.

(** One row: what it appends, and what it leaves alone. *)
Lemma import_row_lists (file : string) (st : app_state) (row : csv_row) :
  let st' := import_row file st row in
  let new := option_list (row_transaction (categories st) row) in
  transactions st' =
    transactions st ++ List.filter (fun t => negb (on_ignore_list (ignore_list st) t)) new /\
  ignored_transactions st' =
    ignored_transactions st ++ List.filter (on_ignore_list (ignore_list st)) new /\
  ignore_list st' = ignore_list st /\
  tables st' = tables st /\
  same_defaults (categories st) (categories st').
Proof.
  cbn zeta. unfold import_row, row_transaction.
  destruct (strptime_dmy (Date row)) as [d|]; cbn.
  2:{ rewrite !app_nil_r. repeat split. }
  destruct (py_float (Value row)) as [a|]; cbn.
  2:{ rewrite !app_nil_r. repeat split. }
  unfold on_ignore_list, ignore_key. cbn [date store].
  destruct (categories st !! extract_store_name (Description row)) as [c|] eqn:Hc; cbn.
  - destruct (in_ignore_list _ _); cbn; rewrite ?app_nil_r; repeat split.
  - destruct (in_ignore_list _ _); cbn; rewrite ?app_nil_r; repeat split;
      intros s; (destruct (decide (extract_store_name (Description row) = s)) as [<-|Hne];
        [now rewrite lookup_insert_eq, Hc | now rewrite lookup_insert_ne]).
Qed.

Lemma import_rows_lists (file : string) (rows : list csv_row) (st : app_state)
    (cats : gmap string string) :
  same_defaults cats (categories st) ->
  let st' := fold_left (import_row file) rows st in
  let new := omap (row_transaction cats) rows in
  transactions st' =
    transactions st ++ List.filter (fun t => negb (on_ignore_list (ignore_list st) t)) new /\
  ignored_transactions st' =
    ignored_transactions st ++ List.filter (on_ignore_list (ignore_list st)) new /\
  ignore_list st' = ignore_list st /\
  tables st' = tables st /\
  same_defaults cats (categories st').
Proof.
  cbn zeta. revert st. induction rows as [|row rows IH]; intros st Hc.
  - cbn. rewrite !app_nil_r. repeat split. exact Hc.
  - cbn [fold_left omap list_omap].
    destruct (import_row_lists file st row) as (Ht & Hi & Hl & Hs & Hd).
    assert (Hc' : same_defaults cats (categories (import_row file st row))).
    { intros s. now rewrite Hc, Hd. }
    destruct (IH _ Hc') as (Ht' & Hi' & Hl' & Hs' & Hd').
    rewrite Ht', Hi', Hl', Hs', Hl, Ht, Hi, Hs.
    rewrite <- (row_transaction_defaults cats (categories st) row Hc).
    destruct (row_transaction cats row) as [t|]; cbn;
      rewrite ?app_nil_r; repeat split; try exact Hd';
      destruct (on_ignore_list (ignore_list st) t); cbn;
      now rewrite <- ?app_assoc, ?app_nil_r.
Qed.

Lemma tables_emit st e : tables (emit st e) = tables st.
Proof. reflexivity. Qed.

Lemma load_files_lists (files : list csv_file) (st : app_state)
    (cats : gmap string string) :
  same_defaults cats (categories st) ->
  let st' := fold_left load_file files st in
  let new := imported cats files in
  transactions st' =
    transactions st ++ List.filter (fun t => negb (on_ignore_list (ignore_list st) t)) new /\
  ignored_transactions st' =
    ignored_transactions st ++ List.filter (on_ignore_list (ignore_list st)) new /\
  ignore_list st' = ignore_list st /\
  tables st' = tables st /\
  same_defaults cats (categories st').
Proof.
  cbn zeta. unfold imported. revert st.
  induction files as [|f files IH]; intros st Hc.
  - cbn. rewrite !app_nil_r. repeat split. exact Hc.
  - cbn [fold_left flat_map]. rewrite omap_app, !List.filter_app.
    assert (Hf : let st1 := load_file st f in
                 transactions st1 = transactions st ++
                   List.filter (fun t => negb (on_ignore_list (ignore_list st) t))
                     (omap (row_transaction cats) (file_rows f)) /\
                 ignored_transactions st1 = ignored_transactions st ++
                   List.filter (on_ignore_list (ignore_list st))
                     (omap (row_transaction cats) (file_rows f)) /\
                 ignore_list st1 = ignore_list st /\
                 tables st1 = tables st /\
                 same_defaults cats (categories st1)).
    { destruct f as [p|p rows complete]; cbn.
      - rewrite !app_nil_r. repeat split. exact Hc.
      - destruct (import_rows_lists p rows st cats Hc) as (Ht & Hi & Hl & Hs & Hd).
        destruct complete; cbn; repeat split; assumption. }
    cbn zeta in Hf. destruct Hf as (Ht & Hi & Hl & Hs & Hd).
    destruct (IH _ Hd) as (Ht' & Hi' & Hl' & Hs' & Hd').
    rewrite Ht', Hi', Hl', Hs', Hl, Ht, Hi, Hs, <- !app_assoc. repeat split. exact Hd'.
Qed.

Lemma load_start_fields (st : app_state) (replace_answer : bool) :
  transactions (load_start st replace_answer) = kept_transactions st replace_answer /\
  ignored_transactions (load_start st replace_answer) = ignored_transactions st /\
  ignore_list (load_start st replace_answer) = ignore_list st /\
  categories (load_start st replace_answer) = categories st.
Proof.
  unfold load_start, kept_transactions.
  destruct (transactions st) eqn:Ht; [now rewrite Ht|].
  destruct replace_answer; cbn; now rewrite ?Ht.
Qed.

Lemma load_end_fields (st : app_state) :
  transactions (load_end st) = transactions st /\
  ignored_transactions (load_end st) = ignored_transactions st /\
  ignore_list (load_end st) = ignore_list st.
Proof. unfold load_end. now destruct (transactions st) eqn:E. Qed.

Lemma load_csv_cons (st : app_state) (f : csv_file) (fs : list csv_file)
    (replace_answer : bool) :
  load_csv st (f :: fs) replace_answer =
  load_end (fold_left load_file (f :: fs) (load_start st replace_answer)).
Proof. reflexivity. Qed.

(** The lists after a load of at least one file. *)
Lemma load_csv_lists (st : app_state) (f : csv_file) (fs : list csv_file)
    (replace_answer : bool) :
  let st' := load_csv st (f :: fs) replace_answer in
  let new := imported (categories st) (f :: fs) in
  transactions st' =
    kept_transactions st replace_answer ++
    List.filter (fun t => negb (on_ignore_list (ignore_list st) t)) new /\
  ignored_transactions st' =
    ignored_transactions st ++ List.filter (on_ignore_list (ignore_list st)) new /\
  ignore_list st' = ignore_list st.
Proof.
  cbn zeta. rewrite load_csv_cons.
  destruct (load_start_fields st replace_answer) as (Ht1 & Hi1 & Hl1 & Hc1).
  destruct (load_files_lists (f :: fs) (load_start st replace_answer) (categories st))
    as (Ht & Hi & Hl & _ & _).
  { rewrite Hc1. apply same_defaults_refl. }
  destruct (load_end_fields (fold_left load_file (f :: fs) (load_start st replace_answer)))
    as (-> & -> & ->).
  rewrite Ht, Hi, Hl, Ht1, Hi1, Hl1. repeat split.
Qed.

(** C6. [load_csv] sends every transaction it reads to exactly one
    list: to [ignored_transactions] when the pair of its date, written
    as YYYY-MM-DD, and its store is on the ignore list, to [transactions]
    otherwise; each is appended, in reading order, and nothing else is
    added to either list. *)
Theorem load_csv_routing (st : app_state) (file_paths : list csv_file)
    (replace_answer : bool) :
  file_paths <> [] ->
  let st' := load_csv st file_paths replace_answer in
  let new := imported (categories st) file_paths in
  (forall t, In t new ->
     if on_ignore_list (ignore_list st) t
     then In t (ignored_transactions st') else In t (transactions st')) /\
  transactions st' =
    kept_transactions st replace_answer ++
    List.filter (fun t => negb (on_ignore_list (ignore_list st) t)) new /\
  ignored_transactions st' =
    ignored_transactions st ++ List.filter (on_ignore_list (ignore_list st)) new /\
  ignore_list st' = ignore_list st.
Proof.
  intros Hne. cbn zeta.
  destruct file_paths as [|f fs]; [contradiction|]. clear Hne.
  destruct (load_csv_lists st f fs replace_answer) as (Ht & Hi & Hl).
  split; [|repeat split; assumption].
  intros t Hin. destruct (on_ignore_list (ignore_list st) t) eqn:Hon.
  - rewrite Hi. apply in_or_app. right. apply List.filter_In. now split.
  - rewrite Ht. apply in_or_app. right. apply List.filter_In. split; [exact Hin|].
    now rewrite Hon.
Qed.

Lemma load_csv_app (st : app_state) (fs1 : list csv_file) (f : csv_file)
    (fs2 : list csv_file) (replace_answer : bool) :
  load_csv st (fs1 ++ f :: fs2) replace_answer =
  load_end (fold_left load_file (fs1 ++ f :: fs2) (load_start st replace_answer)).
Proof. destruct fs1; reflexivity. Qed.

(** The lists, the dictionary and the tables never depend on the
    effects recorded so far. *)
Lemma import_row_data (file : string) (st1 st2 : app_state) (row : csv_row) :
  data st1 = data st2 ->
  data (import_row file st1 row) = data (import_row file st2 row).
Proof.
  destruct st1 as [t1 i1 c1 l1 s1 e1], st2 as [t2 i2 c2 l2 s2 e2].
  unfold data. cbn. intros [= -> -> -> -> ->].
  unfold import_row. cbn.
  destruct (strptime_dmy (Date row)); [|reflexivity].
  destruct (py_float (Value row)); [|reflexivity].
  destruct (c2 !! extract_store_name (Description row)); cbn;
    destruct (in_ignore_list l2 _); reflexivity.
Qed.

Lemma import_rows_data (file : string) (rows : list csv_row) (st1 st2 : app_state) :
  data st1 = data st2 ->
  data (fold_left (import_row file) rows st1) =
  data (fold_left (import_row file) rows st2).
Proof.
  revert st1 st2. induction rows as [|row rows IH]; intros st1 st2 H; [exact H|].
  cbn [fold_left]. apply IH, import_row_data, H.
Qed.

Lemma data_emit (st : app_state) (e : effect) : data (emit st e) = data st.
Proof. reflexivity. Qed.

Lemma load_file_data (f : csv_file) (st1 st2 : app_state) :
  data st1 = data st2 -> data (load_file st1 f) = data (load_file st2 f).
Proof.
  intros H. destruct f as [p|p rows complete]; cbn.
  - exact H.
  - destruct complete; rewrite ?data_emit; apply import_rows_data, H.
Qed.

Lemma load_files_data (files : list csv_file) (st1 st2 : app_state) :
  data st1 = data st2 ->
  data (fold_left load_file files st1) = data (fold_left load_file files st2).
Proof.
  revert st1 st2. induction files as [|f files IH]; intros st1 st2 H; [exact H|].
  cbn [fold_left]. apply IH, load_file_data, H.
Qed.

Lemma load_end_data (st1 st2 : app_state) :
  data st1 = data st2 -> data (load_end st1) = data (load_end st2).
Proof.
  destruct st1 as [t1 i1 c1 l1 s1 e1], st2 as [t2 i2 c2 l2 s2 e2].
  unfold data. cbn. intros [= -> -> -> -> ->].
  unfold load_end. cbn. now destruct t2.
Qed.

(** Effects are only ever added. *)
Lemma import_row_effects (file : string) (st : app_state) (row : csv_row) (e : effect) :
  In e (effects st) -> In e (effects (import_row file st row)).
Proof.
  intros H. unfold import_row.
  destruct (strptime_dmy (Date row)); [|cbn; apply in_or_app; now left].
  destruct (py_float (Value row)); [|exact H].
  destruct (categories st !! extract_store_name (Description row)); cbn;
    destruct (in_ignore_list _ _); cbn; try exact H; apply in_or_app; now left.
Qed.

Lemma import_rows_effects (file : string) (rows : list csv_row) (st : app_state)
    (e : effect) :
  In e (effects st) -> In e (effects (fold_left (import_row file) rows st)).
Proof.
  revert st. induction rows as [|row rows IH]; intros st H; [exact H|].
  cbn [fold_left]. apply IH, import_row_effects, H.
Qed.

Lemma load_file_effects (f : csv_file) (st : app_state) (e : effect) :
  In e (effects st) -> In e (effects (load_file st f)).
Proof.
  intros H. destruct f as [p|p rows complete]; cbn.
  - apply in_or_app. now left.
  - destruct complete; cbn; [|apply in_or_app; left]; apply import_rows_effects, H.
Qed.

Lemma load_files_effects (files : list csv_file) (st : app_state) (e : effect) :
  In e (effects st) -> In e (effects (fold_left load_file files st)).
Proof.
  revert st. induction files as [|f files IH]; intros st H; [exact H|].
  cbn [fold_left]. apply IH, load_file_effects, H.
Qed.

Lemma load_end_effects (st : app_state) (e : effect) :
  In e (effects st) -> In e (effects (load_end st)).
Proof.
  intros H. unfold load_end. destruct (transactions st); cbn; [|exact H].
  apply in_or_app. now left.
Qed.

Lemma in_effects_emit (st : app_state) (e : effect) : In e (effects (emit st e)).
Proof. cbn. apply in_or_app. right. now left. Qed.

(** C7. A row whose date does not parse leaves the lists, the
    dictionary and the tables as if the row were absent from its file,
    and a date error naming it is reported; a row whose value does not
    parse leaves the whole state, effects included, as if it were
    absent; a file that cannot be opened leaves the data as if it were
    not in the batch, and a file error is reported: the two lists gain
    the transactions of the other files and nothing else. In each case
    the rows and files around the failing one are processed as usual. *)
Theorem import_failures_skipped :
  (forall st fs1 p rows1 row rows2 complete fs2 answer,
     strptime_dmy (Date row) = None ->
     let with_row :=
       load_csv st (fs1 ++ Readable p (rows1 ++ row :: rows2) complete :: fs2) answer in
     let without :=
       load_csv st (fs1 ++ Readable p (rows1 ++ rows2) complete :: fs2) answer in
     data with_row = data without /\
     In (DateError p (Date row)) (effects with_row)) /\
  (forall st fs1 p rows1 row rows2 complete fs2 answer d,
     strptime_dmy (Date row) = Some d ->
     py_float (Value row) = None ->
     load_csv st (fs1 ++ Readable p (rows1 ++ row :: rows2) complete :: fs2) answer =
     load_csv st (fs1 ++ Readable p (rows1 ++ rows2) complete :: fs2) answer) /\
  (forall st fs1 p fs2 answer,
     fs1 ++ fs2 <> [] ->
     let with_file := load_csv st (fs1 ++ Unreadable p :: fs2) answer in
     let without := load_csv st (fs1 ++ fs2) answer in
     data with_file = data without /\
     In (FileError p) (effects with_file)) /\
  (forall st fs1 p fs2 answer,
     let with_file := load_csv st (fs1 ++ Unreadable p :: fs2) answer in
     let others := imported (categories st) (fs1 ++ fs2) in
     transactions with_file =
       kept_transactions st answer ++
       List.filter (fun t => negb (on_ignore_list (ignore_list st) t)) others /\
     ignored_transactions with_file =
       ignored_transactions st ++ List.filter (on_ignore_list (ignore_list st)) others /\
     In (FileError p) (effects with_file)).
Proof.
  split; [|split; [|split]].
  - intros st fs1 p rows1 row rows2 complete fs2 answer Hd. cbn zeta.
    rewrite !load_csv_app, !fold_left_app. cbn [fold_left].
    set (st0 := fold_left load_file fs1 (load_start st answer)).
    assert (Hrow : import_row p (fold_left (import_row p) rows1 st0) row =
                   emit (fold_left (import_row p) rows1 st0) (DateError p (Date row))).
    { unfold import_row. now rewrite Hd. }
    split.
    + apply load_end_data, load_files_data. cbn [load_file].
      rewrite !fold_left_app. cbn [fold_left]. rewrite Hrow.
      destruct complete; rewrite ?data_emit; now apply import_rows_data.
    + apply load_end_effects, load_files_effects. cbn [load_file].
      rewrite !fold_left_app. cbn [fold_left]. rewrite Hrow.
      destruct complete; cbn [emit effects]; [|apply in_or_app; left];
        apply import_rows_effects, in_effects_emit.
  - intros st fs1 p rows1 row rows2 complete fs2 answer d Hd Hv.
    rewrite !load_csv_app, !fold_left_app. cbn [fold_left load_file].
    rewrite !fold_left_app. cbn [fold_left].
    assert (Hrow : forall s, import_row p s row = s).
    { intros s. unfold import_row. now rewrite Hd, Hv. }
    now rewrite Hrow.
  - intros st fs1 p fs2 answer Hne. cbn zeta.
    rewrite load_csv_app.
    assert (Hwo : load_csv st (fs1 ++ fs2) answer =
                  load_end (fold_left load_file (fs1 ++ fs2) (load_start st answer))).
    { destruct (fs1 ++ fs2); [contradiction|reflexivity]. }
    rewrite Hwo, !fold_left_app. cbn [fold_left load_file]. split.
    + apply load_end_data, load_files_data, data_emit.
    + apply load_end_effects, load_files_effects, in_effects_emit.
  - intros st fs1 p fs2 answer. cbn zeta.
    assert (Hsame : imported (categories st) (fs1 ++ Unreadable p :: fs2) =
                    imported (categories st) (fs1 ++ fs2)).
    { unfold imported. now rewrite !flat_map_app. }
    rewrite <- Hsame.
    assert (Herr : In (FileError p)
                     (effects (load_csv st (fs1 ++ Unreadable p :: fs2) answer))).
    { rewrite load_csv_app, fold_left_app. cbn [fold_left load_file].
      apply load_end_effects, load_files_effects, in_effects_emit. }
    destruct fs1 as [|f fs1]; cbn [app] in *.
    + now destruct (load_csv_lists st (Unreadable p) fs2 answer) as (-> & -> & _).
    + now destruct (load_csv_lists st f (fs1 ++ Unreadable p :: fs2) answer)
        as (-> & -> & _).
Qed.

End ImportFacts.

(** ** Category edits *)

(** C10. [add_category] with an empty store or an empty category leaves
    the dictionary as it is and saves nothing: the only effect is the
    error box. With both texts non-empty the dictionary afterwards maps
    the store to the category, and it is saved. *)
Theorem add_category_guard (st : app_state) (store_name cat : string) :
  let st' := add_category st store_name cat in
  (store_name = EmptyString \/ cat = EmptyString ->
     categories st' = categories st /\
     effects st' = effects st ++ [ShowError "Please select a category to add."]) /\
  (store_name <> EmptyString -> cat <> EmptyString ->
     categories st' = <[store_name := cat]> (categories st) /\
     categories st' !! store_name = Some cat /\
     effects st' = effects st ++ [SaveCategories (categories st')]).
Proof.
  cbn zeta. unfold add_category. split.
  - intros H.
    assert (Hg : String.eqb cat EmptyString || String.eqb store_name EmptyString = true).
    { apply orb_true_iff. destruct H as [->| ->]; [right|left]; reflexivity. }
    now rewrite Hg.
  - intros Hs Hc.
    apply String.eqb_neq in Hs, Hc. rewrite Hs, Hc. cbn.
    repeat split. apply lookup_insert_eq.
Qed.

(** C9. The update for all transactions of a store compares stores with
    [==]: every transaction of [transactions] whose store is exactly the
    store of the selected row gets the new category, every other one keeps
    its category, and date, store and amount stay as they were, position
    by position. *)
Theorem correct_all_for_store (st : app_state) (index : nat)
    (shown_date shown_store shown_amount current_cat nc : string) :
  nc <> EmptyString -> nc <> current_cat ->
  exists st',
    correct_transaction st index (shown_date, shown_store, shown_amount, current_cat)
      (Some nc) true = Some st' /\
    length (transactions st') = length (transactions st) /\
    forall (i : nat) (t : transaction),
      transactions st !! i = Some t ->
      exists t',
        transactions st' !! i = Some t' /\
        date t' = date t /\ store t' = store t /\ amount t' = amount t /\
        category t' = if bool_decide (store t = shown_store) then nc else category t.
Proof.
  intros Hne Hcur. apply String.eqb_neq in Hne, Hcur.
  unfold correct_transaction. rewrite Hne, Hcur. cbn [negb andb].
  eexists. split; [reflexivity|].
  cbn [transactions generate_summary set_tables set_categories set_transactions].
  split; [apply length_map|].
  intros i t Hi.
  exists (if String.eqb (store t) shown_store then set_category t nc else t).
  split.
  - rewrite list_lookup_fmap, Hi. reflexivity.
  - destruct (String.eqb_spec (store t) shown_store) as [He|He].
    + rewrite bool_decide_eq_true_2 by exact He. now cbn.
    + rewrite bool_decide_eq_false_2 by exact He. now cbn.
Qed.

(** Renaming: what [edit_category] does to the dictionary and to
    [transactions] when the new name is given and differs from the old. *)
Lemma edit_category_effective (st : app_state) (old_cat nc : string) :
  nc <> EmptyString -> nc <> old_cat ->
  categories (edit_category st old_cat (Some nc)) =
    ((fun cat => if same_category cat old_cat then nc else cat) <$> categories st) /\
  transactions (edit_category st old_cat (Some nc)) =
    map (fun t => if same_category (category t) old_cat then set_category t nc else t)
        (transactions st).
Proof.
  intros Hne Hold. apply String.eqb_neq in Hne, Hold.
  unfold edit_category. rewrite Hne, Hold. now cbn.
Qed.

(** C4, as amended. After [edit_category] with a new name that is not
    empty and differs from the old one, every store that was mapped to the
    old category, compared case-insensitively, is mapped to the new one
    and every other store keeps its category; every transaction of
    [transactions] whose category equalled the old one case-insensitively
    has the new category, with date, store and amount unchanged, and every
    other one is unchanged. When the new name also differs from the old
    one case-insensitively, no transaction of [transactions] and no store
    keeps the old category. *)
Theorem rename_propagates (st : app_state) (old_cat nc : string) :
  nc <> EmptyString -> nc <> old_cat ->
  let st' := edit_category st old_cat (Some nc) in
  (forall s c, categories st !! s = Some c ->
     categories st' !! s = Some (if same_category c old_cat then nc else c)) /\
  length (transactions st') = length (transactions st) /\
  (forall (i : nat) (t : transaction), transactions st !! i = Some t ->
     transactions st' !! i =
       Some (if same_category (category t) old_cat then set_category t nc else t)) /\
  (same_category nc old_cat = false ->
     (forall t, In t (transactions st') -> same_category (category t) old_cat = false) /\
     (forall s c, categories st' !! s = Some c -> same_category c old_cat = false)).
Proof.
  intros Hne Hold. cbn zeta.
  destruct (edit_category_effective st old_cat nc Hne Hold) as [-> ->].
  split; [|split; [|split]].
  - intros s c Hs. now rewrite lookup_fmap, Hs.
  - apply length_map.
  - intros i t Hi. now rewrite list_lookup_fmap, Hi.
  - intros Hnew. split.
    + intros t [u [<- _]]%in_map_iff.
      destruct (same_category (category u) old_cat) eqn:E; [exact Hnew|exact E].
    + intros s c. rewrite lookup_fmap.
      destruct (categories st !! s) as [c0|]; [|discriminate].
      cbn. intros [= <-].
      destruct (same_category c0 old_cat) eqn:E; [exact Hnew|exact E].
Qed.

(** ** Moving transactions between the two lists *)

Ltac simpl_state :=
  cbn [transactions ignored_transactions categories ignore_list tables effects
       set_transactions set_ignored set_categories set_ignore_list set_tables
       emit save_categories save_ignore_list generate_summary] in *.

Lemma take_first_found {A : Type} (p : A -> bool) (l1 : list A) (x : A) (l2 : list A) :
  (forall y, In y l1 -> p y = false) -> p x = true ->
  take_first p (l1 ++ x :: l2) = Some (x, l1 ++ l2).
Proof.
  intros H1 Hx. induction l1 as [|y l1 IH]; cbn.
  - now rewrite Hx.
  - rewrite (H1 y) by now left. rewrite IH; [reflexivity|].
    intros z Hz. apply H1. now right.
Qed.

Lemma take_first_none {A : Type} (p : A -> bool) (l : list A) :
  (forall y, In y l -> p y = false) -> take_first p l = None.
Proof.
  induction l as [|y l IH]; cbn; intros H; [reflexivity|].
  rewrite (H y) by now left. rewrite IH; [reflexivity|].
  intros z Hz. apply H. now right.
Qed.

Lemma take_first_some {A : Type} (p : A -> bool) (l : list A) (x : A) (r : list A) :
  take_first p l = Some (x, r) ->
  exists l1 l2, l = l1 ++ x :: l2 /\ r = l1 ++ l2 /\ p x = true /\
                forall y, In y l1 -> p y = false.
Proof.
  revert r. induction l as [|y l IH]; cbn; intros r H; [discriminate|].
  destruct (p y) eqn:Hy.
  - injection H as <- <-. exists [], l. cbn. repeat split; [exact Hy|contradiction].
  - destruct (take_first p l) as [[z r']|]; [|discriminate].
    injection H as <- <-.
    destruct (IH r' eq_refl) as (l1 & l2 & -> & -> & Hx & Hl1).
    exists (y :: l1), l2. cbn. repeat split; [exact Hx|].
    intros w [<-|Hw]; [exact Hy|now apply Hl1].
Qed.

Lemma take_first_is_none {A : Type} (p : A -> bool) (l : list A) :
  take_first p l = None -> forall y, In y l -> p y = false.
Proof.
  induction l as [|x l IH]; cbn; intros H y Hy; [contradiction|].
  destruct (p x) eqn:Hx; [discriminate|].
  destruct (take_first p l) as [[z r]|]; [discriminate|].
  destruct Hy as [<-|Hy]; [exact Hx|now apply IH].
Qed.

Lemma in_ignore_list_true (l : list (string * string)) (k : string * string) :
  in_ignore_list l k = true <-> In k l.
Proof.
  unfold in_ignore_list. rewrite bool_decide_eq_true. apply list_elem_of_In.
Qed.

Lemma in_ignore_list_false (l : list (string * string)) (k : string * string) :
  in_ignore_list l k = false <-> ~ In k l.
Proof.
  unfold in_ignore_list. rewrite bool_decide_eq_false. now rewrite list_elem_of_In.
Qed.

Lemma remove_first_last (k : string * string) (l : list (string * string)) :
  ~ In k l -> remove_first k (l ++ [k]) = l.
Proof.
  induction l as [|x l IH]; cbn; intros H.
  - now rewrite bool_decide_eq_true_2.
  - rewrite bool_decide_eq_false_2 by (intros ->; apply H; now left).
    rewrite IH; [reflexivity|]. intros Hk. apply H. now right.
Qed.

Lemma remove_first_subset (k x : string * string) (l : list (string * string)) :
  In x (remove_first k l) -> In x l.
Proof.
  induction l as [|y l IH]; cbn; [trivial|].
  destruct (bool_decide (y = k)); [now right|].
  intros [<-|H]; [now left|right; now apply IH].
Qed.

Lemma remove_first_other (k x : string * string) (l : list (string * string)) :
  x <> k -> In x l -> In x (remove_first k l).
Proof.
  intros Hne. induction l as [|y l IH]; cbn; [trivial|].
  destruct (bool_decide (y = k)) eqn:E.
  - apply bool_decide_eq_true in E. subst y. intros [->|H]; [contradiction|exact H].
  - intros [<-|H]; [now left|right; now apply IH].
Qed.

Lemma remove_first_nodup (k : string * string) (l : list (string * string)) :
  List.NoDup l -> List.NoDup (remove_first k l) /\ ~ In k (remove_first k l).
Proof.
  induction 1 as [|x l Hx Hl IH]; cbn.
  - split; [constructor|tauto].
  - destruct (bool_decide (x = k)) eqn:E.
    + apply bool_decide_eq_true in E. subst x. now split.
    + apply bool_decide_eq_false in E. destruct IH as [IH1 IH2]. split.
      * constructor; [|exact IH1]. intros H. apply Hx. now apply remove_first_subset in H.
      * intros [H|H]; [now apply E|now apply IH2].
Qed.

Lemma matches_true (d : datetime) (s : string) (t : transaction) :
  matches d s t = true <-> date t = d /\ store t = s.
Proof.
  unfold matches. rewrite andb_true_iff, bool_decide_eq_true, String.eqb_eq. tauto.
Qed.

Lemma matches_self (t : transaction) : matches (date t) (store t) t = true.
Proof. now apply matches_true. Qed.

(** C8, as amended. When the list holds a transaction with the date and
    the store of the selected row, [remove_selectedd] always, and
    [add_selectedd] whenever the pair is not yet on the ignore list, takes
    the first such transaction out of its list, appends it to the other
    list, and leaves every other element, later ones with the same date
    and store included, where it was; [add_selectedd] with a pair that is
    already on the ignore list changes nothing. *)
Theorem move_takes_first_only (st : app_state) (date_str store_name : string)
    (d : datetime) (l1 : list transaction) (t : transaction) (l2 : list transaction) :
  strptime_ymd date_str = Some d ->
  matches d store_name t = true ->
  (forall u, In u l1 -> matches d store_name u = false) ->
  (transactions st = l1 ++ t :: l2 ->
   in_ignore_list (ignore_list st) (date_str, store_name) = false ->
   exists st', add_selectedd st date_str store_name = Some st' /\
     transactions st' = l1 ++ l2 /\
     ignored_transactions st' = ignored_transactions st ++ [t]) /\
  (in_ignore_list (ignore_list st) (date_str, store_name) = true ->
   add_selectedd st date_str store_name = Some st) /\
  (ignored_transactions st = l1 ++ t :: l2 ->
   exists st', remove_selectedd st date_str store_name = Some st' /\
     ignored_transactions st' = l1 ++ l2 /\
     transactions st' = transactions st ++ [t]).
Proof.
  intros Hd Ht Hl1. split; [|split].
  - intros Htx Hk. unfold add_selectedd. rewrite Hd, Hk.
    cbn [transactions save_ignore_list set_ignore_list emit]. rewrite Htx.
    rewrite (take_first_found _ l1 t l2 Hl1 Ht).
    eexists. split; [reflexivity|]. now cbn.
  - intros Hk. unfold add_selectedd. now rewrite Hd, Hk.
  - intros Hig. unfold remove_selectedd. rewrite Hd, Hig.
    rewrite (take_first_found _ l1 t l2 Hl1 Ht).
    eexists. split; [reflexivity|]. now cbn.
Qed.

(** C5, as amended. Let [t] be in [transactions], with a date a
    [datetime] can hold, while no transaction of [ignored_transactions]
    has the date and the store of [t] and the ignore list has no repeated
    entry. Then [add_selectedd] followed by [remove_selectedd], both on
    the pair of [t]'s date as YYYY-MM-DD and [t]'s store, succeed and
    leave [t], with all four fields, in [transactions], not in
    [ignored_transactions], and its pair off the ignore list;
    [ignored_transactions] is as it was. *)
Theorem ignore_toggle_restores (st : app_state) (t : transaction) :
  In t (transactions st) ->
  valid_date (date t) = true ->
  (forall u, In u (ignored_transactions st) -> matches (date t) (store t) u = false) ->
  List.NoDup (ignore_list st) ->
  exists st1 st2,
    add_selectedd st (strftime_ymd (date t)) (store t) = Some st1 /\
    remove_selectedd st1 (strftime_ymd (date t)) (store t) = Some st2 /\
    In t (transactions st2) /\
    ~ In t (ignored_transactions st2) /\
    ~ In (ignore_key t) (ignore_list st2) /\
    ignored_transactions st2 = ignored_transactions st.
Proof.
  intros Hin Hv Hig Hnd.
  assert (Hp := strptime_strftime (date t) Hv).
  assert (Hnot : ~ In t (ignored_transactions st)).
  { intros H. apply Hig in H. now rewrite matches_self in H. }
  unfold add_selectedd. rewrite Hp.
  destruct (in_ignore_list (ignore_list st) (strftime_ymd (date t), store t)) eqn:Hk.
  - (* already listed: nothing moves, the pair is taken off the list *)
    exists st. eexists. split; [reflexivity|].
    unfold remove_selectedd. rewrite Hp, Hk, (take_first_none _ _ Hig).
    split; [reflexivity|]. cbn. repeat split; try assumption.
    now apply remove_first_nodup.
  - (* the first transaction of that date and store goes there and back *)
    apply in_ignore_list_false in Hk.
    cbn [transactions save_ignore_list set_ignore_list emit].
    destruct (take_first (matches (date t) (store t)) (transactions st))
      as [[t' rest]|] eqn:Htf.
    2:{ apply take_first_is_none with (y := t) in Htf; [|exact Hin].
        now rewrite matches_self in Htf. }
    apply take_first_some in Htf as (l1 & l2 & Htx & -> & Ht' & Hl1).
    eexists. eexists. split; [reflexivity|].
    unfold remove_selectedd. rewrite Hp. simpl_state.
    assert (Hl : in_ignore_list (ignore_list st ++ [(strftime_ymd (date t), store t)])
                   (strftime_ymd (date t), store t) = true).
    { apply in_ignore_list_true, in_or_app. right. now left. }
    rewrite Hl, (remove_first_last _ _ Hk).
    rewrite (take_first_found _ (ignored_transactions st) t' [] Hig Ht').
    split; [reflexivity|]. cbn. rewrite app_nil_r. repeat split; try assumption.
    rewrite Htx in Hin. apply in_app_or in Hin as [H|[<-|H]].
    + apply in_or_app. left. apply in_or_app. now left.
    + apply in_or_app. right. now left.
    + apply in_or_app. left. apply in_or_app. now right.
Qed.

(** ** The partition invariant *)

Lemma canonical_date_spec (s : string) :
  canonical_date s = true ->
  exists d, strptime_ymd s = Some d /\ strftime_ymd d = s.
Proof.
  unfold canonical_date. destruct (strptime_ymd s) as [d|]; [|discriminate].
  intros H%String.eqb_eq. now exists d.
Qed.

(** For a date text from the dialog, comparing keys and comparing date
    objects and stores select the same transactions. *)
Lemma key_matches (date_str store_name : string) (d : datetime) (u : transaction) :
  strptime_ymd date_str = Some d -> strftime_ymd d = date_str ->
  ignore_key u = (date_str, store_name) <-> matches d store_name u = true.
Proof.
  intros Hp Hf. rewrite matches_true. unfold ignore_key. split.
  - intros [= H1 H2]. split; [|exact H2].
    rewrite <- H1 in Hp. now apply strptime_strftime_inv in Hp.
  - intros [-> ->]. now rewrite Hf.
Qed.

Lemma partition_ok_claim (imports : list (datetime * string * float)) (st : app_state) :
  partition_ok st -> (forall e, In e imports -> In e (held_entries st)) ->
  partition_claim imports st.
Proof.
  intros [Ha Hi] Hheld. split; [|split; [exact Hheld|]].
  - intros t [H1 H2]. exact (Ha t H1 (Hi t H2)).
  - intros t Ht. split; [|apply Hi].
    intros Hk. apply in_app_or in Ht as [Ht|Ht]; [|exact Ht].
    now apply Ha in Ht.
Qed.

Lemma nodup_keys_apart {A B : Type} (f : A -> B) (l1 l2 : list A) (x y : A) :
  List.NoDup (map f (l1 ++ l2)) -> In x l1 -> In y l2 -> f x <> f y.
Proof.
  rewrite map_app. intros H Hx Hy Heq.
  apply NoDup_ListNoDup, NoDup_app in H as (_ & H & _).
  apply (H (f x)).
  - apply list_elem_of_In, in_map, Hx.
  - rewrite Heq. apply list_elem_of_In, in_map, Hy.
Qed.

(** Edits of categories keep every key, so they keep the partition. *)
Lemma partition_ok_same_keys (st st' : app_state) :
  (forall t', In t' (transactions st') ->
     exists t, In t (transactions st) /\ ignore_key t' = ignore_key t) ->
  ignored_transactions st' = ignored_transactions st ->
  ignore_list st' = ignore_list st ->
  partition_ok st -> partition_ok st'.
Proof.
  intros Ht Hi Hl [Ha Hg]. unfold partition_ok. rewrite Hi, Hl. split; [|exact Hg].
  intros t' H'. destruct (Ht t' H') as (t & Hin & ->). now apply Ha.
Qed.

Lemma kept_transactions_in (st : app_state) (r : bool) (t : transaction) :
  In t (kept_transactions st r) -> In t (transactions st).
Proof.
  unfold kept_transactions. destruct (transactions st); [trivial|].
  now destruct r.
Qed.

Section Invariant.

Variable py_float : string -> option float.
Variable strptime_dmy : string -> option datetime.

Lemma load_csv_partition (st : app_state) (fs : list csv_file) (r : bool) :
  partition_ok st -> partition_ok (load_csv py_float strptime_dmy st fs r).
Proof.
  intros [Ha Hi]. destruct fs as [|f fs]; [now split|].
  destruct (load_csv_lists py_float strptime_dmy st f fs r) as (Ht & Hg & Hl).
  unfold partition_ok. rewrite Ht, Hg, Hl. split.
  - intros t [H|H]%in_app_or.
    + now apply Ha, kept_transactions_in with (r := r).
    + apply List.filter_In in H as [_ H]. apply negb_true_iff in H.
      now apply in_ignore_list_false in H.
  - intros t [H|H]%in_app_or; [now apply Hi|].
    apply List.filter_In in H as [_ H]. now apply in_ignore_list_true in H.
Qed.

Lemma add_selectedd_partition (st st' : app_state) (date_str store_name : string) :
  canonical_date date_str = true ->
  add_selectedd st date_str store_name = Some st' ->
  keys_distinct st' = true ->
  partition_ok st -> List.NoDup (ignore_list st) ->
  partition_ok st' /\ List.NoDup (ignore_list st').
Proof.
  intros (d & Hp & Hf)%canonical_date_spec Hstep Hkeys [Ha Hi] Hnd.
  apply bool_decide_eq_true, NoDup_ListNoDup in Hkeys.
  unfold add_selectedd in Hstep. rewrite Hp in Hstep.
  destruct (in_ignore_list (ignore_list st) (date_str, store_name)) eqn:Hk.
  { injection Hstep as <-. now split. }
  apply in_ignore_list_false in Hk. simpl_state.
  assert (Hnd' : List.NoDup (ignore_list st ++ [(date_str, store_name)])).
  { apply NoDup_ListNoDup, NoDup_app. repeat split.
    - now apply NoDup_ListNoDup.
    - intros x Hx ->%list_elem_of_singleton.
      now apply list_elem_of_In in Hx.
    - apply NoDup_singleton. }
  destruct (take_first (matches d store_name) (transactions st)) as [[t rest]|] eqn:Htf;
    injection Hstep as <-; simpl_state; (split; [|exact Hnd']).
  - apply take_first_some in Htf as (l1 & l2 & Htx & -> & Ht & _).
    assert (Hkt : ignore_key t = (date_str, store_name)) by now apply (key_matches _ _ d).
    split.
    + intros u Hu [H|[H|[]]]%in_app_or.
      * revert H. apply Ha. rewrite Htx.
        apply in_app_or in Hu as [Hu|Hu]; apply in_or_app; [now left|right; now right].
      * apply (nodup_keys_apart ignore_key _ _ u t Hkeys Hu).
        -- apply in_or_app. right. now left.
        -- now rewrite Hkt.
    + intros u [H|[<-|[]]]%in_app_or; apply in_or_app.
      * left. now apply Hi.
      * right. left. now rewrite Hkt.
  - split.
    + intros u Hu [H|[H|[]]]%in_app_or.
      * now apply (Ha u).
      * symmetry in H. apply (key_matches _ _ d u Hp Hf) in H.
        now rewrite (take_first_is_none _ _ Htf u Hu) in H.
    + intros u Hu. apply in_or_app. left. now apply Hi.
Qed.

Lemma remove_selectedd_partition (st st' : app_state) (date_str store_name : string) :
  canonical_date date_str = true ->
  remove_selectedd st date_str store_name = Some st' ->
  keys_distinct st' = true ->
  partition_ok st -> List.NoDup (ignore_list st) ->
  partition_ok st' /\ List.NoDup (ignore_list st').
Proof.
  intros (d & Hp & Hf)%canonical_date_spec Hstep Hkeys [Ha Hi] Hnd.
  apply bool_decide_eq_true, NoDup_ListNoDup in Hkeys.
  unfold remove_selectedd in Hstep. rewrite Hp in Hstep.
  set (k := (date_str, store_name)) in *.
  set (reg' := if in_ignore_list (ignore_list st) k
               then remove_first k (ignore_list st) else ignore_list st) in *.
  assert (Hreg : List.NoDup reg' /\ ~ In k reg' /\
                 (forall x, In x reg' -> In x (ignore_list st)) /\
                 (forall x, x <> k -> In x (ignore_list st) -> In x reg')).
  { unfold reg'. destruct (in_ignore_list (ignore_list st) k) eqn:Hk.
    - destruct (remove_first_nodup k _ Hnd) as [H1 H2]. repeat split; try assumption.
      + intros x. apply remove_first_subset.
      + intros x. apply remove_first_other.
    - apply in_ignore_list_false in Hk. repeat split; auto. }
  destruct Hreg as (Hnd' & Hk' & Hsub & Hoth).
  destruct (take_first (matches d store_name) (ignored_transactions st))
    as [[t rest]|] eqn:Htf;
    injection Hstep as <-; simpl_state; (split; [|exact Hnd']).
  - apply take_first_some in Htf as (l1 & l2 & Hig & -> & Ht & _).
    assert (Hkt : ignore_key t = k) by now apply (key_matches _ _ d).
    split.
    + intros u [Hu|[<-|[]]]%in_app_or H.
      * now apply (Ha u Hu), Hsub.
      * apply Hk'. now rewrite <- Hkt.
    + intros u Hu. apply Hoth.
      * rewrite <- Hkt. intros Heq.
        apply (nodup_keys_apart ignore_key _ _ t u Hkeys); [|exact Hu|now symmetry].
        apply in_or_app. right. now left.
      * apply Hi. rewrite Hig.
        apply in_app_or in Hu as [Hu|Hu]; apply in_or_app; [now left|right; now right].
  - split.
    + intros u Hu H. now apply (Ha u Hu), Hsub.
    + intros u Hu. apply Hoth; [|now apply Hi].
      intros H. apply (key_matches _ _ d u Hp Hf) in H.
      now rewrite (take_first_is_none _ _ Htf u Hu) in H.
Qed.

Lemma correct_transaction_partition (st st' : app_state) (index : nat)
    (values : table_row) (new_cat : option string) (update_all : bool) :
  correct_transaction st index values new_cat update_all = Some st' ->
  partition_ok st -> partition_ok st' /\ ignore_list st' = ignore_list st.
Proof.
  destruct values as [[[v0 v1] v2] v3]. unfold correct_transaction.
  destruct new_cat as [nc|]; [|now intros [= <-]].
  destruct (negb (String.eqb nc EmptyString) && negb (String.eqb nc v3)); [|now intros [= <-]].
  destruct update_all.
  - intros [= <-] Hok. split; [|reflexivity].
    apply (partition_ok_same_keys st); try reflexivity; [|exact Hok].
    simpl_state. intros t' (t & <- & Ht)%in_map_iff. exists t. split; [exact Ht|].
    now destruct (String.eqb (store t) v1).
  - destruct (transactions st !! index) as [t|] eqn:Hidx; [|discriminate].
    intros [= <-] Hok. split; [|reflexivity].
    apply (partition_ok_same_keys st); try reflexivity; [|exact Hok].
    simpl_state. intros t' Ht'%list_elem_of_In.
    apply list_elem_of_lookup in Ht' as [j Hj].
    destruct (decide (index = j)) as [<-|Hne].
    + rewrite list_lookup_insert_eq in Hj by (now apply lookup_lt_Some in Hidx).
      injection Hj as <-. exists t. split; [|reflexivity].
      apply list_elem_of_In. now apply list_elem_of_lookup_2 in Hidx.
    + rewrite list_lookup_insert_ne in Hj by exact Hne.
      exists t'. split; [|reflexivity].
      apply list_elem_of_In. now apply list_elem_of_lookup_2 in Hj.
Qed.

Lemma edit_category_partition (st : app_state) (old_cat : string)
    (new_cat : option string) :
  partition_ok st -> partition_ok (edit_category st old_cat new_cat).
Proof.
  unfold edit_category. destruct new_cat as [nc|]; [|trivial].
  destruct (negb (String.eqb nc EmptyString) && negb (String.eqb nc old_cat)); [|trivial].
  apply partition_ok_same_keys; try reflexivity.
  simpl_state. intros t' (t & <- & Ht)%in_map_iff. exists t. split; [exact Ht|].
  now destruct (same_category (category t) old_cat).
Qed.

Lemma step_partition (st st' : app_state) (a : action) :
  from_dialog a = true ->
  step py_float strptime_dmy st a = Some st' ->
  keys_distinct st' = true ->
  partition_ok st /\ List.NoDup (ignore_list st) ->
  partition_ok st' /\ List.NoDup (ignore_list st').
Proof.
  intros Hd Hstep Hkeys [Hok Hnd]. destruct a; cbn [step from_dialog] in *.
  - injection Hstep as <-. split; [now apply load_csv_partition|].
    destruct file_paths as [|f fs]; [exact Hnd|].
    destruct (load_csv_lists py_float strptime_dmy st f fs replace_answer)
      as (_ & _ & ->). exact Hnd.
  - now apply (add_selectedd_partition st st' date_str store_name).
  - now apply (remove_selectedd_partition st st' date_str store_name).
  - injection Hstep as <-. now split.
  - destruct (correct_transaction_partition _ _ _ _ _ _ Hstep Hok) as [H ->].
    now split.
  - injection Hstep as <-. split; [now apply edit_category_partition|].
    unfold edit_category. destruct new_cat as [nc|]; [|exact Hnd].
    now destruct (negb (String.eqb nc EmptyString) && negb (String.eqb nc old_cat)).
  - injection Hstep as <-. unfold add_category.
    now destruct (String.eqb cat EmptyString || String.eqb store_name EmptyString).
  - injection Hstep as <-. now split.
Qed.

(** *** The transactions held *)

Lemma map_insert_same {A B : Type} (f : A -> B) (l : list A) (i : nat) (x y : A) :
  l !! i = Some x -> f y = f x -> map f (<[i := y]> l) = map f l.
Proof.
  revert i. induction l as [|a l IH]; intros [|i] H Hf; try discriminate H.
  - injection H as ->. cbn. now rewrite Hf.
  - cbn. f_equal. now apply IH.
Qed.

Lemma keys_of_entries (st : app_state) :
  map ignore_key (transactions st ++ ignored_transactions st) =
  map (fun e => (strftime_ymd e.1.1, e.1.2)) (held_entries st).
Proof. unfold held_entries. now rewrite map_map. Qed.

Lemma keys_distinct_entries (st st' : app_state) :
  held_entries st' ≡ₚ held_entries st ->
  keys_distinct st = true -> keys_distinct st' = true.
Proof.
  unfold keys_distinct. rewrite !bool_decide_eq_true, !keys_of_entries.
  intros Hp. apply (Permutation_map (fun e => (strftime_ymd e.1.1, e.1.2))) in Hp.
  now rewrite Hp.
Qed.

(** A move takes one transaction from one list to the end of the
    other, or none. *)
Lemma moves_permutation (st st' : app_state) (date_str store_name : string) :
  add_selectedd st date_str store_name = Some st' \/
  remove_selectedd st date_str store_name = Some st' ->
  transactions st' ++ ignored_transactions st' ≡ₚ
    transactions st ++ ignored_transactions st.
Proof.
  intros [H|H].
  - unfold add_selectedd in H.
    destruct (strptime_ymd date_str) as [d|]; [|discriminate].
    destruct (in_ignore_list _ _); [now injection H as <-|]. simpl_state.
    destruct (take_first (matches d store_name) (transactions st)) as [[t rest]|] eqn:Htf;
      injection H as <-; simpl_state; [|reflexivity].
    apply take_first_some in Htf as (l1 & l2 & -> & -> & _).
    rewrite (app_assoc (l1 ++ l2)), <- Permutation_cons_append.
    rewrite <- !app_assoc. cbn. now rewrite <- Permutation_middle.
  - unfold remove_selectedd in H.
    destruct (strptime_ymd date_str) as [d|]; [|discriminate].
    destruct (take_first (matches d store_name) (ignored_transactions st))
      as [[t rest]|] eqn:Htf; injection H as <-; simpl_state; [|reflexivity].
    apply take_first_some in Htf as (l1 & l2 & -> & -> & _).
    rewrite <- !app_assoc. cbn. now rewrite <- !Permutation_middle.
Qed.

Lemma correct_transaction_entries (st st' : app_state) (index : nat)
    (values : table_row) (new_cat : option string) (update_all : bool) :
  correct_transaction st index values new_cat update_all = Some st' ->
  held_entries st' = held_entries st.
Proof.
  destruct values as [[[v0 v1] v2] v3]. unfold correct_transaction, held_entries.
  destruct new_cat as [nc|]; [|now intros [= <-]].
  destruct (negb (String.eqb nc EmptyString) && negb (String.eqb nc v3)); [|now intros [= <-]].
  destruct update_all.
  - intros [= <-]. simpl_state. rewrite !map_app, map_map. f_equal.
    apply map_ext. intros t. now destruct (String.eqb (store t) v1).
  - destruct (transactions st !! index) as [t|] eqn:Hidx; [|discriminate].
    intros [= <-]. simpl_state. rewrite !map_app. f_equal.
    now apply (map_insert_same entry _ _ t).
Qed.

Lemma edit_category_entries (st : app_state) (old_cat : string)
    (new_cat : option string) :
  held_entries (edit_category st old_cat new_cat) = held_entries st.
Proof.
  unfold edit_category, held_entries. destruct new_cat as [nc|]; [|reflexivity].
  destruct (negb (String.eqb nc EmptyString) && negb (String.eqb nc old_cat)); [|reflexivity].
  simpl_state. rewrite !map_app, map_map. f_equal.
  apply map_ext. intros t. now destruct (same_category (category t) old_cat).
Qed.

(** No action but a load changes which transactions are held. *)
Lemma step_entries (st st' : app_state) (a : action) :
  match a with LoadCsv (_ :: _) _ => False | _ => True end ->
  step py_float strptime_dmy st a = Some st' ->
  held_entries st' ≡ₚ held_entries st.
Proof.
  intros Ha Hstep. destruct a; cbn [step] in Hstep.
  - destruct file_paths; [|contradiction]. now injection Hstep as <-.
  - unfold held_entries. apply Permutation_map.
    apply (moves_permutation st st' date_str store_name). now left.
  - unfold held_entries. apply Permutation_map.
    apply (moves_permutation st st' date_str store_name). now right.
  - now injection Hstep as <-.
  - now rewrite (correct_transaction_entries _ _ _ _ _ _ Hstep).
  - injection Hstep as <-. now rewrite edit_category_entries.
  - injection Hstep as <-. unfold add_category.
    now destruct (String.eqb cat EmptyString || String.eqb store_name EmptyString).
  - now injection Hstep as <-.
Qed.

(** After a load the lists hold what they were to hold and what was
    read. *)
Lemma load_entries (imports : list (datetime * string * float)) (st : app_state)
    (f : csv_file) (fs : list csv_file) (r : bool) :
  (forall e, In e imports -> In e (held_entries st)) ->
  forall e, In e (imports_after py_float strptime_dmy imports st (LoadCsv (f :: fs) r)) ->
    In e (held_entries (load_csv py_float strptime_dmy st (f :: fs) r)).
Proof.
  intros Hheld e He. cbn [imports_after] in He.
  destruct (load_csv_lists py_float strptime_dmy st f fs r) as (Ht & Hg & _).
  unfold held_entries in *. rewrite Ht, Hg.
  apply in_app_or in He as [He|He].
  - assert (Hkept : kept_transactions st r = transactions st).
    { unfold kept_transactions. destruct (transactions st); [reflexivity|].
      destruct r; [contradiction|reflexivity]. }
    assert (He' : In e imports).
    { destruct (transactions st); [exact He|]. destruct r; [contradiction|exact He]. }
    rewrite Hkept. apply Hheld, in_map_iff in He' as (t & <- & Hin).
    apply in_map. apply in_app_or in Hin as [Hin|Hin]; apply in_or_app.
    + left. apply in_or_app. now left.
    + right. apply in_or_app. now left.
  - apply in_map_iff in He as (t & <- & Hin). apply in_map.
    destruct (on_ignore_list (ignore_list st) t) eqn:Hk; apply in_or_app.
    + right. apply in_or_app. right. apply List.filter_In. now split.
    + left. apply in_or_app. right. apply List.filter_In. split; [exact Hin|].
      now rewrite Hk.
Qed.

Lemma filter_both_permutation {A : Type} (p : A -> bool) (l : list A) :
  List.filter (fun x => negb (p x)) l ++ List.filter p l ≡ₚ l.
Proof.
  induction l as [|x l IH]; [reflexivity|]. cbn [List.filter].
  destruct (p x); cbn [negb app].
  - rewrite <- Permutation_middle. now rewrite IH.
  - now rewrite IH.
Qed.

(** A load puts every transaction it reads in one list, once. *)
Lemma load_permutation (st : app_state) (f : csv_file) (fs : list csv_file) (r : bool) :
  let st' := load_csv py_float strptime_dmy st (f :: fs) r in
  transactions st' ++ ignored_transactions st' ≡ₚ
  kept_transactions st r ++ ignored_transactions st ++
  imported py_float strptime_dmy (categories st) (f :: fs).
Proof.
  cbn zeta.
  destruct (load_csv_lists py_float strptime_dmy st f fs r) as (-> & -> & _).
  rewrite <- (filter_both_permutation (on_ignore_list (ignore_list st))
                (imported py_float strptime_dmy (categories st) (f :: fs))) at 3.
  rewrite <- !app_assoc. apply Permutation_app_head.
  rewrite !app_assoc. apply Permutation_app_tail. apply Permutation_app_comm.
Qed.

Lemma step_held (imports : list (datetime * string * float)) (st st' : app_state)
    (a : action) :
  step py_float strptime_dmy st a = Some st' ->
  load_distinct py_float strptime_dmy st a = true ->
  keys_distinct st = true ->
  (forall e, In e imports -> In e (held_entries st)) ->
  keys_distinct st' = true /\
  (forall e, In e (imports_after py_float strptime_dmy imports st a) ->
     In e (held_entries st')).
Proof.
  intros Hstep Hd Hkeys Hheld.
  assert (Hother : match a with LoadCsv (_ :: _) _ => False | _ => True end ->
            keys_distinct st' = true /\
            (forall e, In e imports -> In e (held_entries st'))).
  { intros Ha. pose proof (step_entries st st' a Ha Hstep) as Hp. split.
    - exact (keys_distinct_entries st st' Hp Hkeys).
    - intros e He. apply (Permutation_in e (Permutation_sym Hp)), Hheld, He. }
  destruct a as [[|f fs] r| | | | | | |]; try (apply Hother; exact I).
  cbn [step] in Hstep. injection Hstep as <-. split; [|now apply load_entries].
  cbn [load_distinct] in Hd. unfold keys_distinct.
  rewrite bool_decide_eq_true in Hd |- *.
  now rewrite (Permutation_map ignore_key (load_permutation st f fs r)).
Qed.

(** C2, as amended. Start from the empty lists and an ignore file
    without repeated lines, and let the user load files, move rows of
    the ignore dialog either way, and edit categories, where no load
    reads two transactions of one date and store, or one of a date and
    store that a transaction it keeps has. In
    every state reached no transaction is in both lists; every
    transaction imported, since the start or since the last load that
    replaced the list, is in one of the two lists, with the date, store
    and amount it was read with; and the pair of a transaction of
    either list is on the ignore list exactly when the transaction is in
    [ignored_transactions]. *)
Theorem partition_invariant (imports : list (datetime * string * float))
    (st : app_state) :
  reachable_distinct py_float strptime_dmy imports st -> partition_claim imports st.
Proof.
  intros H.
  assert (Hinv : (partition_ok st /\ List.NoDup (ignore_list st)) /\
                 keys_distinct st = true /\
                 (forall e, In e imports -> In e (held_entries st))).
  { induction H as [cats reg Hreg|imports st a st' _ IH Hd Hstep Hload].
    - apply bool_decide_eq_true, NoDup_ListNoDup in Hreg.
      split; [split; [split; intros t []|exact Hreg]|].
      split; [reflexivity|intros e []].
    - destruct IH as (Hok & Hk & Hheld).
      destruct (step_held imports st st' a Hstep Hload Hk Hheld) as [Hk' Hheld'].
      split; [|now split].
      now apply (step_partition st st' a). }
  destruct Hinv as ([Hok _] & _ & Hheld). now apply partition_ok_claim.
Qed.

End Invariant.

(** ** The statements on the sample data *)

(** The two scenarios of the specification: the statement of two rows is
    loaded; then the Tesco row is ignored and the dialog closed. *)
Example scenario_import :
  exists st,
    Sample.run_sample Sample.fresh [LoadCsv [Sample.statement] false] = Some st /\
    transactions st = [Sample.tesco; Sample.employer] /\
    ignored_transactions st = [] /\
    total_at (monthly_totals_spending (tables st)) "2024-01" = 23.5%float /\
    total_at (monthly_totals_income (tables st)) "2024-01" = 2000%float.
Proof.
  eexists. split; [vm_compute; reflexivity|]. repeat split.
Qed.

Example scenario_ignore :
  exists st,
    Sample.run_sample Sample.fresh
      [LoadCsv [Sample.statement] false; AddSelected "2024-01-15" "Tesco";
       CloseIgnoreDialog] = Some st /\
    transactions st = [Sample.employer] /\
    ignored_transactions st = [Sample.tesco] /\
    ignore_list st = [("2024-01-15", "Tesco")] /\
    total_at (monthly_totals_spending (tables st)) "2024-01" = 0%float /\
    total_at (monthly_totals_income (tables st)) "2024-01" = 2000%float.
Proof.
  eexists. split; [vm_compute; reflexivity|]. repeat split.
Qed.

(** C2, as worded, fails. Two rows of one day at one store are loaded
    and the dialog ignores that pair: the first transaction moves, the
    second stays in [transactions] with its pair on the ignore list. *)
Lemma partition_claim_fails :
  exists st,
    Sample.run_sample Sample.fresh
      [LoadCsv [Sample.two_tesco] false; AddSelected "2024-01-15" "Tesco"] = Some st /\
    ~ partition_claim (map entry [Sample.tesco; Sample.tesco_again]) st.
Proof.
  eexists. split; [vm_compute; reflexivity|].
  intros (_ & _ & H). specialize (H Sample.tesco_again).
  destruct H as [H _]; [now left|].
  destruct H as [H|[]]; [now left|].
  apply (f_equal amount) in H. apply (f_equal (fun x => (x =? -5)%float)) in H.
  vm_compute in H. discriminate H.
Qed.

(** The invariant at a state of the sample: the statement is loaded and
    the Tesco row is ignored. *)
Lemma partition_invariant_witness :
  exists st,
    Sample.run_sample Sample.fresh
      [LoadCsv [Sample.statement] false; AddSelected "2024-01-15" "Tesco"] = Some st /\
    reachable_distinct Sample.py_float Sample.strptime_dmy
      (map entry [Sample.tesco; Sample.employer]) st /\
    partition_claim (map entry [Sample.tesco; Sample.employer]) st.
Proof.
  eexists. split; [vm_compute; reflexivity|].
  assert (H : reachable_distinct Sample.py_float Sample.strptime_dmy
                (map entry [Sample.tesco; Sample.employer])
                (mk_state [Sample.employer] [Sample.tesco]
                   (categories (load_csv Sample.py_float Sample.strptime_dmy Sample.fresh
                                  [Sample.statement] false))
                   [("2024-01-15", "Tesco")]
                   (tables (load_csv Sample.py_float Sample.strptime_dmy Sample.fresh
                              [Sample.statement] false))
                   (effects (load_csv Sample.py_float Sample.strptime_dmy Sample.fresh
                               [Sample.statement] false)
                    ++ [SaveIgnoreList [("2024-01-15", "Tesco")]]))).
  { apply (reach_step Sample.py_float Sample.strptime_dmy
             (map entry [Sample.tesco; Sample.employer])
             (load_csv Sample.py_float Sample.strptime_dmy (init ∅ [])
                [Sample.statement] false)
             (AddSelected "2024-01-15" "Tesco")).
    - apply (reach_step Sample.py_float Sample.strptime_dmy []
               (init ∅ []) (LoadCsv [Sample.statement] false)).
      + apply reach_init. vm_compute. reflexivity.
      + reflexivity.
      + reflexivity.
      + vm_compute. reflexivity.
    - vm_compute. reflexivity.
    - vm_compute. reflexivity.
    - reflexivity. }
  split; [exact H|].
  exact (partition_invariant Sample.py_float Sample.strptime_dmy _ _ H).
Defined.

(** The summary on the sample statement with a transaction of amount
    zero in between. *)
Lemma generate_summary_sound_witness :
  let st := set_transactions Sample.fresh [Sample.tesco; Sample.voided; Sample.employer] in
  (amount Sample.voided =? 0)%float = true /\
  tables (generate_summary st) = summarize [Sample.tesco; Sample.employer] /\
  total_at (monthly_totals_spending (tables (generate_summary st))) "2024-01" = 23.5%float /\
  total_at (monthly_totals_income (tables (generate_summary st))) "2024-01" = 2000%float.
Proof.
  cbn zeta.
  pose proof (generate_summary_sound
    (set_transactions Sample.fresh [Sample.tesco; Sample.voided; Sample.employer]))
    as (Hi & Hs & _ & _ & Hz).
  split; [reflexivity|]. split; [|split].
  - exact (Hz [Sample.tesco] Sample.voided [Sample.employer] eq_refl eq_refl).
  - rewrite Hs. vm_compute. reflexivity.
  - rewrite Hi. vm_compute. reflexivity.
Defined.

(** C3 on the sample. The statement is loaded, the Tesco row is ignored,
    and a second file with the Employer row alone is loaded with the
    answer "replace": [transactions] holds what the new file gives, and
    [ignored_transactions] still holds the Tesco transaction, which the
    new file does not contain. *)
Theorem replace_keeps_ignored :
  exists st,
    Sample.run_sample Sample.fresh
      [LoadCsv [Sample.statement] false; AddSelected "2024-01-15" "Tesco"] = Some st /\
    transactions st = [Sample.employer] /\
    ignored_transactions st = [Sample.tesco] /\
    let st' := load_csv Sample.py_float Sample.strptime_dmy st [Sample.employer_only] true in
    imported Sample.py_float Sample.strptime_dmy (categories st) [Sample.employer_only]
      = [Sample.employer] /\
    transactions st' = [Sample.employer] /\
    ignored_transactions st' = [Sample.tesco].
Proof.
  eexists. split; [vm_compute; reflexivity|].
  repeat split; vm_compute; reflexivity.
Qed.

Lemma load_csv_routing_witness :
  [Sample.statement] <> [] /\
  let st := init ∅ [("2024-01-15", "Tesco")] in
  let st' := load_csv Sample.py_float Sample.strptime_dmy st [Sample.statement] false in
  transactions st' = [Sample.employer] /\
  ignored_transactions st' = [Sample.tesco] /\
  ignore_list st' = [("2024-01-15", "Tesco")].
Proof.
  split; [discriminate|]. cbn zeta.
  exact (proj2 (load_csv_routing Sample.py_float Sample.strptime_dmy
                  (init ∅ [("2024-01-15", "Tesco")]) [Sample.statement] false
                  ltac:(discriminate))).
Defined.

Lemma import_failures_skipped_witness :
  Sample.strptime_dmy (Date Sample.bad_date_row) = None /\
  Sample.strptime_dmy (Date Sample.bad_value_row) = Some Sample.jan15 /\
  Sample.py_float (Value Sample.bad_value_row) = None /\
  [] ++ [Sample.statement] <> [] /\
  (let with_row :=
     load_csv Sample.py_float Sample.strptime_dmy Sample.fresh
       ([] ++ Readable "jan.csv" ([Sample.tesco_row] ++ Sample.bad_date_row :: [Sample.employer_row])
                true :: []) false in
   data with_row =
     data (load_csv Sample.py_float Sample.strptime_dmy Sample.fresh
             ([] ++ Readable "jan.csv" ([Sample.tesco_row] ++ [Sample.employer_row]) true :: [])
             false) /\
   In (DateError "jan.csv" "2024-01-15") (effects with_row)) /\
  load_csv Sample.py_float Sample.strptime_dmy Sample.fresh
    ([] ++ Readable "jan.csv" ([Sample.tesco_row] ++ Sample.bad_value_row :: [Sample.employer_row])
             true :: []) false =
  load_csv Sample.py_float Sample.strptime_dmy Sample.fresh
    ([] ++ Readable "jan.csv" ([Sample.tesco_row] ++ [Sample.employer_row]) true :: []) false /\
  (let with_file :=
     load_csv Sample.py_float Sample.strptime_dmy Sample.fresh
       ([] ++ Unreadable "gone.csv" :: [Sample.statement]) false in
   data with_file =
     data (load_csv Sample.py_float Sample.strptime_dmy Sample.fresh
             ([] ++ [Sample.statement]) false) /\
   In (FileError "gone.csv") (effects with_file)).
Proof.
  destruct (import_failures_skipped Sample.py_float Sample.strptime_dmy)
    as (Hd & Hv & Hf & _).
  split; [reflexivity|]. split; [reflexivity|]. split; [reflexivity|].
  split; [discriminate|].
  split; [|split].
  - exact (Hd Sample.fresh [] "jan.csv" [Sample.tesco_row] Sample.bad_date_row
              [Sample.employer_row] true [] false eq_refl).
  - exact (Hv Sample.fresh [] "jan.csv" [Sample.tesco_row] Sample.bad_value_row
              [Sample.employer_row] true [] false Sample.jan15 eq_refl eq_refl).
  - exact (Hf Sample.fresh [] "gone.csv" [Sample.statement] false ltac:(discriminate)).
Defined.

Lemma add_category_guard_witness :
  let st := init Sample.shop_categories [] in
  (EmptyString = EmptyString \/ "Food" = EmptyString) /\
  "Lidl" <> EmptyString /\ "Food" <> EmptyString /\
  categories (add_category st EmptyString "Food") = categories st /\
  effects (add_category st EmptyString "Food") = [ShowError "Please select a category to add."] /\
  categories (add_category st "Lidl" "Food") !! "Lidl" = Some "Food" /\
  effects (add_category st "Lidl" "Food") =
    [SaveCategories (<["Lidl" := "Food"]> Sample.shop_categories)].
Proof.
  cbn zeta.
  destruct (add_category_guard (init Sample.shop_categories []) EmptyString "Food") as [He _].
  destruct (add_category_guard (init Sample.shop_categories []) "Lidl" "Food") as [_ Hs].
  destruct (He (or_introl eq_refl)) as [He1 He2].
  destruct (Hs ltac:(discriminate) ltac:(discriminate)) as (Hs1 & Hs2 & Hs3).
  split; [now left|]. split; [discriminate|]. split; [discriminate|].
  split; [exact He1|]. split; [exact He2|]. split; [exact Hs2|].
  rewrite Hs3, Hs1. reflexivity.
Defined.

(** The update for all transactions of "Tesco" on a list that also holds
    a transaction of "tesco". *)
Lemma correct_all_for_store_witness :
  let st := set_transactions Sample.fresh
              [Sample.tesco; Sample.small_tesco; Sample.tesco_again] in
  "Food" <> EmptyString /\ "Food" <> "None" /\
  exists st',
    correct_transaction st 0 ("15 Jan 2024", "Tesco", "-23.50", "None") (Some "Food") true
      = Some st' /\
    transactions st' =
      [set_category Sample.tesco "Food"; Sample.small_tesco;
       set_category Sample.tesco_again "Food"].
Proof.
  cbn zeta. split; [discriminate|]. split; [discriminate|].
  destruct (correct_all_for_store
              (set_transactions Sample.fresh
                 [Sample.tesco; Sample.small_tesco; Sample.tesco_again])
              0 "15 Jan 2024" "Tesco" "-23.50" "None" "Food"
              ltac:(discriminate) ltac:(discriminate)) as (st' & Hrun & _ & _).
  exists st'. split; [exact Hrun|].
  vm_compute in Hrun. injection Hrun as <-. reflexivity.
Defined.

(** C4, as worded, fails in three ways. With the statement loaded under
    the categories "Groceries" and "Pay": renaming "Groceries" to
    "groceries" leaves every Tesco transaction with a category that still
    equals the old one case-insensitively; an empty new name renames
    nothing. With the Tesco transaction ignored, renaming "Groceries" to
    "Food" leaves that transaction, which is held in
    [ignored_transactions], with "Groceries". *)
Lemma rename_claim_fails :
  (exists st,
     Sample.run_sample (init Sample.shop_categories []) [LoadCsv [Sample.statement] false]
       = Some st /\
     ~ rename_claim st "Groceries" "groceries" /\
     ~ rename_claim st "Groceries" EmptyString) /\
  (exists st,
     Sample.run_sample (init Sample.shop_categories [])
       [LoadCsv [Sample.statement] false; AddSelected "2024-01-15" "Tesco"] = Some st /\
     ~ rename_claim st "Groceries" "Food").
Proof.
  split.
  - eexists. split; [vm_compute; reflexivity|]. split.
    + intros (_ & _ & H & _).
      assert (Hin : same_category "groceries" "Groceries" = false).
      { apply (H (mk_transaction Sample.jan15 "Tesco" (-23.5)%float "groceries")).
        vm_compute. now left. }
      vm_compute in Hin. discriminate Hin.
    + intros (H & _). specialize (H "Tesco" "Groceries" eq_refl eq_refl).
      vm_compute in H. discriminate H.
  - eexists. split; [vm_compute; reflexivity|].
    intros (_ & H & _).
    destruct (H 1 (mk_transaction Sample.jan15 "Tesco" (-23.5)%float "Groceries")
                eq_refl eq_refl) as (t' & Ht' & Hc).
    vm_compute in Ht'. injection Ht' as <-. discriminate Hc.
Qed.

Lemma rename_propagates_witness :
  let st := set_transactions (init Sample.shop_categories [])
              [set_category Sample.tesco "groceries"; set_category Sample.employer "Pay"] in
  "Food" <> EmptyString /\ "Food" <> "Groceries" /\ same_category "Food" "Groceries" = false /\
  categories (edit_category st "Groceries" (Some "Food")) !! "Tesco" = Some "Food" /\
  categories (edit_category st "Groceries" (Some "Food")) !! "Employer" = Some "Pay" /\
  transactions (edit_category st "Groceries" (Some "Food")) !! 0 =
    Some (set_category Sample.tesco "Food") /\
  (forall t, In t (transactions (edit_category st "Groceries" (Some "Food"))) ->
     same_category (category t) "Groceries" = false).
Proof.
  cbn zeta.
  destruct (rename_propagates
              (set_transactions (init Sample.shop_categories [])
                 [set_category Sample.tesco "groceries"; set_category Sample.employer "Pay"])
              "Groceries" "Food" ltac:(discriminate) ltac:(discriminate))
    as (Hc & _ & Ht & Hno).
  split; [discriminate|]. split; [discriminate|]. split; [reflexivity|].
  split; [exact (Hc "Tesco" "Groceries" eq_refl)|].
  split; [exact (Hc "Employer" "Pay" eq_refl)|].
  split; [exact (Ht 0 _ eq_refl)|].
  exact (proj1 (Hno eq_refl)).
Defined.

(** C5, as worded, fails. The Tesco row is loaded and ignored, a second
    file brings another Tesco row of that day, which goes to the ignored
    list, and the pair is taken back: the first transaction returns to
    [transactions], the second stays ignored. Ignoring the first one
    again and taking the pair back now returns the second transaction,
    and the first one is left in [ignored_transactions]. *)
Lemma toggle_claim_fails :
  exists st,
    Sample.run_sample Sample.fresh
      [LoadCsv [Sample.tesco_only] false; AddSelected "2024-01-15" "Tesco";
       LoadCsv [Sample.tesco_again_only] false; RemoveSelected "2024-01-15" "Tesco"]
      = Some st /\
    transactions st = [Sample.tesco] /\
    ignored_transactions st = [Sample.tesco_again] /\
    ~ toggle_claim st Sample.tesco.
Proof.
  eexists. split; [vm_compute; reflexivity|].
  split; [reflexivity|]. split; [reflexivity|].
  intros H. destruct H as (st1 & st2 & H1 & H2 & Hin & _); [now left|].
  vm_compute in H1. injection H1 as <-.
  vm_compute in H2. injection H2 as <-.
  destruct Hin as [Hin|[]].
  apply (f_equal amount) in Hin. apply (f_equal (fun x => (x =? -5)%float)) in Hin.
  vm_compute in Hin. discriminate Hin.
Qed.

Lemma ignore_toggle_restores_witness :
  let st := set_transactions Sample.fresh [Sample.tesco_again; Sample.employer; Sample.tesco] in
  In Sample.tesco (transactions st) /\
  valid_date (date Sample.tesco) = true /\
  (forall u, In u (ignored_transactions st) ->
     matches (date Sample.tesco) (store Sample.tesco) u = false) /\
  List.NoDup (ignore_list st) /\
  exists st1 st2,
    add_selectedd st "2024-01-15" "Tesco" = Some st1 /\
    remove_selectedd st1 "2024-01-15" "Tesco" = Some st2 /\
    In Sample.tesco (transactions st2) /\
    ~ In Sample.tesco (ignored_transactions st2) /\
    ~ In (ignore_key Sample.tesco) (ignore_list st2) /\
    ignored_transactions st2 = ignored_transactions st.
Proof.
  cbn zeta.
  assert (H1 : In Sample.tesco
                 (transactions (set_transactions Sample.fresh
                    [Sample.tesco_again; Sample.employer; Sample.tesco])))
    by (right; right; left; reflexivity).
  assert (H2 : valid_date (date Sample.tesco) = true) by reflexivity.
  assert (H3 : forall u,
             In u (ignored_transactions (set_transactions Sample.fresh
                     [Sample.tesco_again; Sample.employer; Sample.tesco])) ->
             matches (date Sample.tesco) (store Sample.tesco) u = false)
    by (intros u []).
  assert (H4 : List.NoDup (ignore_list (set_transactions Sample.fresh
                 [Sample.tesco_again; Sample.employer; Sample.tesco])))
    by constructor.
  split; [exact H1|]. split; [exact H2|]. split; [exact H3|]. split; [exact H4|].
  exact (ignore_toggle_restores _ Sample.tesco H1 H2 H3 H4).
Defined.

(** C8, as worded, fails. Three Tesco rows of one day are loaded and the
    pair is ignored once: two transactions of that day and store remain in
    [transactions]. Asking to ignore the pair again removes neither. *)
Lemma first_only_claim_fails :
  exists st,
    Sample.run_sample Sample.fresh
      [LoadCsv [Sample.three_tesco] false; AddSelected "2024-01-15" "Tesco"] = Some st /\
    transactions st = [Sample.tesco_again; Sample.tesco] /\
    add_selectedd st "2024-01-15" "Tesco" = Some st /\
    ~ first_only_claim st "2024-01-15" "Tesco".
Proof.
  eexists. split; [vm_compute; reflexivity|].
  split; [reflexivity|]. split; [vm_compute; reflexivity|].
  intros H.
  destruct (H Sample.jan15 [] Sample.tesco_again [Sample.tesco]) as (st' & Hrun & Ht & _).
  - reflexivity.
  - reflexivity.
  - reflexivity.
  - intros u [].
  - exists Sample.tesco. split; [now left|reflexivity].
  - vm_compute in Hrun. injection Hrun as <-. discriminate Ht.
Qed.

Lemma move_takes_first_only_witness :
  let st := mk_state [Sample.employer; Sample.tesco; Sample.tesco_again]
                     [Sample.tesco_again; Sample.tesco] ∅ [] empty_summary [] in
  strptime_ymd "2024-01-15" = Some Sample.jan15 /\
  matches Sample.jan15 "Tesco" Sample.tesco = true /\
  matches Sample.jan15 "Tesco" Sample.tesco_again = true /\
  in_ignore_list (ignore_list st) ("2024-01-15", "Tesco") = false /\
  (exists st', add_selectedd st "2024-01-15" "Tesco" = Some st' /\
     transactions st' = [Sample.employer] ++ [Sample.tesco_again] /\
     ignored_transactions st' = [Sample.tesco_again; Sample.tesco] ++ [Sample.tesco]) /\
  (exists st', remove_selectedd st "2024-01-15" "Tesco" = Some st' /\
     ignored_transactions st' = [] ++ [Sample.tesco] /\
     transactions st' =
       [Sample.employer; Sample.tesco; Sample.tesco_again] ++ [Sample.tesco_again]).
Proof.
  cbn zeta.
  split; [reflexivity|]. split; [reflexivity|]. split; [reflexivity|].
  split; [reflexivity|]. split.
  - refine (proj1 (move_takes_first_only
             (mk_state [Sample.employer; Sample.tesco; Sample.tesco_again]
                       [Sample.tesco_again; Sample.tesco] ∅ [] empty_summary [])
             "2024-01-15" "Tesco" Sample.jan15 [Sample.employer] Sample.tesco
             [Sample.tesco_again] eq_refl eq_refl _) eq_refl eq_refl).
    intros u [<-|[]]. reflexivity.
  - refine (proj2 (proj2 (move_takes_first_only
             (mk_state [Sample.employer; Sample.tesco; Sample.tesco_again]
                       [Sample.tesco_again; Sample.tesco] ∅ [] empty_summary [])
             "2024-01-15" "Tesco" Sample.jan15 [] Sample.tesco_again
             [Sample.tesco] eq_refl eq_refl _)) eq_refl).
    intros u [].
Defined.

(** * Further properties *)

(** ** Text: stripping *)

Lemma lstrip_head (s : string) :
  Text.lstrip s = EmptyString \/
  exists c r, Text.lstrip s = String c r /\ Text.is_space c = false.
Proof.
  induction s as [|c s IH]; cbn; [now left|].
  destruct (Text.is_space c) eqn:E; [exact IH|].
  right. now exists c, s.
Qed.

Lemma lstrip_no_space_head (c : ascii) (r : string) :
  Text.is_space c = false -> Text.lstrip (String c r) = String c r.
Proof. intros H. cbn. now rewrite H. Qed.

Lemma rstrip_head (c : ascii) (r : string) :
  Text.is_space c = false -> exists r', Text.rstrip (String c r) = String c r'.
Proof.
  intros H. cbn. destruct (Text.rstrip r); rewrite ?H; eauto.
Qed.

Lemma rstrip_idem (s : string) : Text.rstrip (Text.rstrip s) = Text.rstrip s.
Proof.
  induction s as [|c s IH]; [reflexivity|].
  cbn. destruct (Text.rstrip s) as [|c' r] eqn:E.
  - destruct (Text.is_space c) eqn:Hc; [reflexivity|]. cbn. now rewrite Hc.
  - cbn. cbn in IH. destruct (Text.rstrip r) as [|c'' r'] eqn:E'.
    + destruct (Text.is_space c') eqn:Hc'; [discriminate IH|].
      injection IH as ->. reflexivity.
    + injection IH as ->. reflexivity.
Qed.

Lemma strip_idem (s : string) : Text.strip (Text.strip s) = Text.strip s.
Proof.
  unfold Text.strip.
  destruct (lstrip_head s) as [->|(c & r & -> & Hc)]; [reflexivity|].
  destruct (rstrip_head c r Hc) as [r' Hr]. rewrite Hr.
  rewrite (lstrip_no_space_head c r' Hc), <- Hr. apply rstrip_idem.
Qed.

(** ** The store of a description *)

Lemma split_lacks (sep : ascii) (s : string) :
  lacks sep s = true -> Text.split sep s = [s].
Proof.
  induction s as [|c s IH]; simpl; [reflexivity|].
  intros [Hc Hs]%andb_true_iff. rewrite (IH Hs).
  now apply negb_true_iff in Hc as ->.
Qed.

Lemma split_lacks_app (sep : ascii) (a b : string) :
  lacks sep a = true ->
  Text.split sep (String.append a (String sep b)) = a :: Text.split sep b.
Proof.
  induction a as [|c a IH]; intros Ha.
  - simpl. now rewrite Ascii.eqb_refl.
  - simpl in Ha. apply andb_true_iff in Ha as [Hc Ha].
    simpl. rewrite (IH Ha). now apply negb_true_iff in Hc as ->.
Qed.

(** X1. The store [extract_store_name] returns has no white space at either
    end. *)
Theorem extract_store_name_stripped (description : string) :
  stripped (extract_store_name description).
Proof.
  unfold stripped, extract_store_name.
  destruct (Text.split "," description) as [|p0 [|p1 ps]]; apply strip_idem.
Qed.

(** X2. [extract_store_name] returns the second of the fields that commas
    separate, stripped, whatever follows it, and the whole description,
    stripped, when there is no comma. *)
Theorem extract_store_name_field (first second rest : string) :
  lacks "," first = true -> lacks "," second = true ->
  extract_store_name first = Text.strip first /\
  extract_store_name (String.append first (String "," second)) = Text.strip second /\
  extract_store_name
    (String.append first (String "," (String.append second (String "," rest))))
    = Text.strip second.
Proof.
  intros H1 H2. unfold extract_store_name. repeat split.
  - now rewrite (split_lacks _ _ H1).
  - now rewrite (split_lacks_app _ _ _ H1), (split_lacks _ _ H2).
  - rewrite (split_lacks_app _ _ _ H1), (split_lacks_app _ _ _ H2).
    now destruct (Text.split "," rest).
Qed.

Lemma extract_store_name_field_witness :
  lacks "," "SHOP A" = true /\ lacks "," " Tesco " = true /\
  extract_store_name "SHOP A" = "SHOP A" /\
  extract_store_name "SHOP A, Tesco " = "Tesco" /\
  extract_store_name "SHOP A, Tesco ,London, UK" = "Tesco".
Proof.
  split; [reflexivity|]. split; [reflexivity|].
  exact (extract_store_name_field "SHOP A" " Tesco " "London, UK" eq_refl eq_refl).
Defined.

(** ** The files of categories, of ignored pairs and of settings *)

Lemma rows_insert_all (l : list (string * string)) (d : gmap string string) :
  fold_left row_update ((fun p => [p.1; p.2]) <$> l) d = insert_all l d.
Proof.
  revert d. induction l as [|p l IH]; intros d; [reflexivity|]. cbn. apply IH.
Qed.

Lemma insert_all_lookup {V : Type} (l : list (string * V)) (d : gmap string V)
    (k : string) :
  NoDup (l.*1) ->
  insert_all l d !! k =
  match (list_to_map l : gmap string V) !! k with
  | Some v => Some v
  | None => d !! k
  end.
Proof.
  revert d. induction l as [|[s c] l IH]; intros d Hnd.
  - cbn. now rewrite lookup_empty.
  - cbn in Hnd. apply NoDup_cons in Hnd as [Hs Hnd].
    unfold insert_all. cbn [fold_left fst snd]. fold (insert_all l (<[s := c]> d)).
    rewrite (IH _ Hnd). cbn [list_to_map foldr fst snd uncurry].
    destruct (decide (s = k)) as [<-|Hne].
    + rewrite (not_elem_of_list_to_map_1 l s Hs). now rewrite !lookup_insert_eq.
    + rewrite (lookup_insert_ne (list_to_map l)) by exact Hne.
      destruct (list_to_map l !! k); [reflexivity|]. now apply lookup_insert_ne.
Qed.

Lemma insert_all_items {V : Type} (c d : gmap string V) (items : list (string * V)) :
  items ≡ₚ map_to_list c -> insert_all items d = c ∪ d.
Proof.
  intros Hp. apply map_eq. intros k.
  assert (Hnd : NoDup (items.*1)).
  { rewrite Hp. apply NoDup_fst_map_to_list. }
  rewrite (insert_all_lookup _ _ _ Hnd).
  rewrite (list_to_map_proper items (map_to_list c) Hnd Hp), list_to_map_to_list.
  rewrite lookup_union. now destruct (c !! k), (d !! k).
Qed.

(** X3. Saving the dictionary and loading the file gives the dictionary back,
    in whatever order the rows were written. *)
Theorem categories_round_trip (c : gmap string string) (items : list (string * string)) :
  items ≡ₚ map_to_list c ->
  load_categories (Some ((fun p => [p.1; p.2]) <$> items)) = c /\
  load_categories (Some (categories_rows c)) = c.
Proof.
  intros Hp. unfold load_categories, categories_rows. rewrite !rows_insert_all.
  rewrite (insert_all_items c ∅ items Hp), (insert_all_items c ∅ (map_to_list c)) by done.
  now rewrite (right_id_L ∅ (∪)).
Qed.

Lemma categories_round_trip_witness :
  [("Tesco", "Groceries"); ("Employer", "Pay")] ≡ₚ map_to_list Sample.shop_categories /\
  load_categories (Some [["Tesco"; "Groceries"]; ["Employer"; "Pay"]])
    = Sample.shop_categories.
Proof.
  assert (H : [("Tesco", "Groceries"); ("Employer", "Pay")]
                ≡ₚ map_to_list Sample.shop_categories).
  { vm_compute map_to_list. apply Permutation_swap. }
  split; [exact H|].
  exact (proj1 (categories_round_trip Sample.shop_categories _ H)).
Defined.

(** X4. In the file of categories a later row for a store replaces an earlier
    one, fields after the second are not read, and a row with fewer than
    two fields is passed over. *)
Theorem load_categories_rows (rows : list (list string)) :
  (forall s c more rows',
     (forall row, In row rows' -> hd_error row <> Some s \/ length row < 2) ->
     load_categories (Some (rows ++ (s :: c :: more) :: rows')) !! s = Some c) /\
  (forall row rows', length row < 2 ->
     load_categories (Some (rows ++ row :: rows')) = load_categories (Some (rows ++ rows'))).
Proof.
  split.
  - intros s c more rows' Hlater. unfold load_categories.
    rewrite fold_left_app. cbn [fold_left].
    change (fold_left row_update rows' (row_update (fold_left row_update rows ∅)
                                          (s :: c :: more)) !! s = Some c).
    assert (H : row_update (fold_left row_update rows ∅) (s :: c :: more) !! s = Some c)
      by apply lookup_insert_eq.
    revert H. generalize (row_update (fold_left row_update rows ∅) (s :: c :: more)).
    induction rows' as [|row rows' IH]; intros d H; [exact H|].
    cbn [fold_left]. apply IH.
    + intros r Hr. apply Hlater. now right.
    + destruct row as [|s0 [|c0 more0]]; cbn [row_update]; try exact H.
      destruct (Hlater (s0 :: c0 :: more0)) as [Hs|Hl]; [now left| |cbn in Hl; lia].
      rewrite lookup_insert_ne; [exact H|]. intros ->. now apply Hs.
  - intros row rows' Hlen. unfold load_categories.
    rewrite !fold_left_app. cbn [fold_left].
    destruct row as [|s0 [|c0 more0]]; [reflexivity|reflexivity|cbn in Hlen; lia].
Qed.

Lemma load_categories_rows_witness :
  (forall row, In row [["Lidl"; "Food"]; ["Tesco"]] ->
     hd_error row <> Some "Tesco" \/ length row < 2) /\
  length ["Tesco"] < 2 /\
  load_categories (Some ([["Tesco"; "Groceries"]] ++ ["Tesco"; "Food"; "x"]
                           :: [["Lidl"; "Food"]; ["Tesco"]])) !! "Tesco" = Some "Food" /\
  load_categories (Some ([["Tesco"; "Groceries"]] ++ ["Tesco"] :: [["Lidl"; "Food"]]))
    = load_categories (Some ([["Tesco"; "Groceries"]] ++ [["Lidl"; "Food"]])).
Proof.
  assert (H : forall row, In row [["Lidl"; "Food"]; ["Tesco"]] ->
                hd_error row <> Some "Tesco" \/ length row < 2).
  { intros row [<-|[<-|[]]]; [left; discriminate|right; cbn; lia]. }
  assert (Hl : length ["Tesco"] < 2) by (cbn; lia).
  split; [exact H|]. split; [exact Hl|]. split.
  - exact (proj1 (load_categories_rows [["Tesco"; "Groceries"]])
             "Tesco" "Food" ["x"] _ H).
  - exact (proj2 (load_categories_rows [["Tesco"; "Groceries"]])
             ["Tesco"] [["Lidl"; "Food"]] Hl).
Defined.

Lemma no_space_lstrip (s : string) : no_space s = true -> Text.lstrip s = s.
Proof.
  destruct s as [|c s]; [reflexivity|]. cbn.
  intros [Hc _]%andb_true_iff. now apply negb_true_iff in Hc as ->.
Qed.

Lemma no_space_rstrip (s : string) : no_space s = true -> Text.rstrip s = s.
Proof.
  induction s as [|c s IH]; [reflexivity|]. cbn.
  intros [Hc Hs]%andb_true_iff. rewrite (IH Hs).
  apply negb_true_iff in Hc. rewrite Hc. now destruct s.
Qed.

Lemma no_space_stripped (s : string) : no_space s = true -> stripped s.
Proof.
  intros H. unfold stripped, Text.strip.
  now rewrite (no_space_lstrip s H), (no_space_rstrip s H).
Qed.

Lemma no_space_app (a b : string) :
  no_space a = true -> no_space b = true -> no_space (String.append a b) = true.
Proof.
  intros Ha Hb. induction a as [|c a IH]; [exact Hb|].
  cbn [no_space] in Ha. apply andb_true_iff in Ha as [Hc Ha].
  change (negb (Text.is_space c) && no_space (String.append a b) = true).
  now rewrite Hc, IH.
Qed.

Lemma digit_no_space (c : ascii) : Text.is_digit c = true -> Text.is_space c = false.
Proof.
  unfold Text.is_digit, Text.is_space. generalize (nat_of_ascii c). intros n.
  intros [H1 H2]%andb_true_iff. apply Nat.leb_le in H1, H2.
  apply orb_false_iff. split; apply andb_false_iff.
  - right. apply Nat.leb_gt. lia.
  - right. apply Nat.leb_gt. lia.
Qed.

Lemma all_digits_no_space (s : string) : Text.all_digits s = true -> no_space s = true.
Proof.
  induction s as [|c s IH]; [reflexivity|]. cbn.
  intros [Hc Hs]%andb_true_iff. now rewrite (digit_no_space c Hc), IH.
Qed.

Lemma strftime_ymd_stripped (d : datetime) : stripped (strftime_ymd d).
Proof.
  apply no_space_stripped. unfold strftime_ymd.
  assert (Hz : forall w n, no_space (Text.zfill w (Text.of_nat n)) = true).
  { intros w n. apply all_digits_no_space, all_digits_zfill, all_digits_of_nat. }
  apply no_space_app; [apply Hz|]. cbn [no_space].
  change (Text.is_space "-") with false. cbn [negb andb].
  apply no_space_app; [apply Hz|]. cbn [no_space].
  change (Text.is_space "-") with false. cbn [negb andb]. apply Hz.
Qed.

Lemma load_ignore_rows (l : list (string * string)) :
  load_ignore_list (Some (ignore_rows l)) = map strip_pair l.
Proof.
  unfold load_ignore_list, ignore_rows.
  induction l as [|[d s] l IH]; [reflexivity|]. cbn. now rewrite IH.
Qed.

(** X5. What [load_ignore_list] reads has no white space around dates and
    stores; saving a list and loading it strips every entry, so a list of
    stripped entries comes back as it was, and saving what was loaded and
    loading again changes nothing. *)
Theorem ignore_list_round_trip (rows : list (list string)) (l : list (string * string)) :
  (forall p, In p (load_ignore_list (Some rows)) -> stripped p.1 /\ stripped p.2) /\
  load_ignore_list (Some (ignore_rows l)) = map strip_pair l /\
  ((forall p, In p l -> stripped p.1 /\ stripped p.2) ->
   load_ignore_list (Some (ignore_rows l)) = l) /\
  load_ignore_list (Some (ignore_rows (load_ignore_list (Some rows))))
    = load_ignore_list (Some rows).
Proof.
  assert (Hstripped : forall p, In p (load_ignore_list (Some rows)) ->
                        stripped p.1 /\ stripped p.2).
  { intros p Hp%list_elem_of_In. unfold load_ignore_list in Hp.
    apply list_elem_of_omap in Hp as (row & _ & Hrow).
    destruct row as [|d [|s more]]; try discriminate Hrow.
    injection Hrow as <-. split; apply strip_idem. }
  assert (Hid : forall l' : list (string * string),
            (forall p, In p l' -> stripped p.1 /\ stripped p.2) -> map strip_pair l' = l').
  { induction l' as [|[d s] l' IH]; intros H; [reflexivity|]. cbn.
    destruct (H (d, s)) as [Hd Hs]; [now left|]. cbn in Hd, Hs.
    unfold strip_pair at 1. cbn [fst snd]. unfold stripped in Hd, Hs. rewrite Hd, Hs.
    f_equal. apply IH. intros p Hp. apply H. now right. }
  split; [exact Hstripped|]. split; [apply load_ignore_rows|]. split.
  - intros H. rewrite load_ignore_rows. now apply Hid.
  - rewrite load_ignore_rows. now apply Hid.
Qed.

Lemma ignore_list_round_trip_witness :
  (forall p, In p [("2024-01-15", "Tesco")] -> stripped p.1 /\ stripped p.2) /\
  load_ignore_list (Some (ignore_rows [("2024-01-15", "Tesco")]))
    = [("2024-01-15", "Tesco")].
Proof.
  assert (H : forall p, In p [("2024-01-15", "Tesco")] -> stripped p.1 /\ stripped p.2).
  { intros p [<-|[]]. split; reflexivity. }
  split; [exact H|].
  exact (proj1 (proj2 (proj2 (ignore_list_round_trip [] [("2024-01-15", "Tesco")]))) H).
Defined.

Lemma settings_insert_all (l : list (string * setting_value))
    (d : gmap string setting_value) :
  fold_left setting_update ((fun p => [p.1; written p.2]) <$> l) d =
  insert_all (prod_map id (fun v => Str (written v)) <$> l) d.
Proof.
  revert d. induction l as [|p l IH]; intros d; [reflexivity|]. cbn. apply IH.
Qed.

Lemma settings_read_over (settings s0 : gmap string setting_value)
    (items : list (string * setting_value)) :
  items ≡ₚ map_to_list settings ->
  fold_left setting_update ((fun p => [p.1; written p.2]) <$> items) s0 =
  ((fun v => Str (written v)) <$> settings) ∪ s0.
Proof.
  intros Hp. rewrite settings_insert_all. apply insert_all_items.
  rewrite Hp. now rewrite map_to_list_fmap.
Qed.

(** X6. The settings file: [load_settings] reads what [save_settings]
    wrote over the dictionary in memory, in whatever order the rows were
    written, and what it reads is text: a string comes back as it was, an
    integer, such as the font size [apply_settings] stores, as its
    decimal text. So a saved dictionary read back over itself keeps its
    keys and has every value as text; it is unchanged when it held no
    integer. A missing file makes [load_settings] raise. *)
Theorem settings_round_trip (settings s0 : gmap string setting_value)
    (items : list (string * setting_value)) :
  items ≡ₚ map_to_list settings ->
  load_settings (Some (["Setting"; "Value"] :: ((fun p => [p.1; written p.2]) <$> items))) s0
    = Some (((fun v => Str (written v)) <$> settings) ∪ s0) /\
  load_settings (Some (settings_rows settings)) settings
    = Some ((fun v => Str (written v)) <$> settings) /\
  ((forall k n, settings !! k <> Some (Num n)) ->
   load_settings (Some (settings_rows settings)) settings = Some settings) /\
  load_settings None s0 = None.
Proof.
  intros Hp. unfold load_settings, settings_rows. cbn [tail].
  rewrite (settings_read_over settings s0 items Hp).
  rewrite (settings_read_over settings settings (map_to_list settings)) by done.
  assert (Hself : ((fun v => Str (written v)) <$> settings) ∪ settings =
                  (fun v => Str (written v)) <$> settings).
  { apply map_eq. intros k. rewrite lookup_union, lookup_fmap.
    now destruct (settings !! k). }
  rewrite Hself. repeat split. intros Htext. f_equal.
  apply map_eq. intros k. rewrite lookup_fmap.
  destruct (settings !! k) as [[s|n]|] eqn:Hk; [reflexivity| |reflexivity].
  now destruct (Htext k n).
Qed.

Lemma settings_round_trip_witness :
  let settings : gmap string setting_value :=
    {[ "FontSize" := Num 12; "Theme" := Str "Dark" ]} in
  let defaults : gmap string setting_value :=
    {[ "FontSize" := Str "10"; "hFontSize" := Str "12" ]} in
  [("FontSize", Num 12); ("Theme", Str "Dark")] ≡ₚ map_to_list settings /\
  load_settings (Some [["Setting"; "Value"]; ["FontSize"; "12"]; ["Theme"; "Dark"]]) defaults
    = Some {[ "FontSize" := Str "12"; "Theme" := Str "Dark"; "hFontSize" := Str "12" ]}.
Proof.
  cbn zeta.
  assert (H : [("FontSize", Num 12); ("Theme", Str "Dark")]
                ≡ₚ map_to_list ({[ "FontSize" := Num 12; "Theme" := Str "Dark" ]}
                                  : gmap string setting_value)).
  { vm_compute map_to_list. reflexivity. }
  split; [exact H|].
  refine (eq_trans (proj1 (settings_round_trip _
            ({[ "FontSize" := Str "10"; "hFontSize" := Str "12" ]}
               : gmap string setting_value) _ H)) _).
  reflexivity.
Defined.

(** ** Import: the keys and the dictionary *)

Lemma extends_with_none_refl (c : gmap string string) : extends_with_none c c.
Proof. split; [trivial|]. intros s v H1 H2. congruence. Qed.

Lemma extends_with_none_trans (c0 c1 c2 : gmap string string) :
  extends_with_none c0 c1 -> extends_with_none c1 c2 -> extends_with_none c0 c2.
Proof.
  intros [H1 H2] [H3 H4]. split.
  - intros s v H. now apply H3, H1.
  - intros s v Hn Hs. destruct (c1 !! s) as [v1|] eqn:E.
    + assert (v1 = "None") by now apply (H2 s). rewrite (H3 s v1 E) in Hs. congruence.
    + now apply (H4 s).
Qed.

Lemma extends_same_defaults (c0 c : gmap string string) :
  extends_with_none c0 c -> same_defaults c0 c.
Proof.
  intros [H1 H2] s. destruct (c0 !! s) as [v|] eqn:E.
  - now rewrite (H1 s v E).
  - destruct (c !! s) as [v|] eqn:E'; [|reflexivity]. cbn. symmetry. now apply (H2 s).
Qed.

Section ImportDictionary.

Variable py_float : string -> option float.
Variable strptime_dmy : string -> option datetime.

Local Abbreviation import_row := (import_row py_float strptime_dmy).
Local Abbreviation load_file := (load_file py_float strptime_dmy).
Local Abbreviation load_csv := (load_csv py_float strptime_dmy).
Local Abbreviation row_transaction := (row_transaction py_float strptime_dmy).
Local Abbreviation imported := (imported py_float strptime_dmy).

Lemma import_row_categories (file : string) (st : app_state) (row : csv_row) :
  extends_with_none (categories st) (categories (import_row file st row)) /\
  (forall t, row_transaction (categories st) row = Some t ->
     categories (import_row file st row) !! store t = Some (category t)).
Proof.
  unfold import_row, row_transaction.
  destruct (strptime_dmy (Date row)) as [d|];
    [|split; [apply extends_with_none_refl|discriminate]].
  destruct (py_float (Value row)) as [a|];
    [|split; [apply extends_with_none_refl|discriminate]].
  cbn zeta.
  destruct (categories st !! extract_store_name (Description row)) as [c|] eqn:Hc.
  - split.
    + destruct (in_ignore_list _ _); apply extends_with_none_refl.
    + intros t [= <-]. cbn [store category default].
      now destruct (in_ignore_list _ _).
  - assert (Hext : extends_with_none (categories st)
                     (<[extract_store_name (Description row) := "None"]> (categories st))).
    { split.
      - intros s v Hs. rewrite lookup_insert_ne; [exact Hs|].
        intros Heq. rewrite <- Heq, Hc in Hs. discriminate Hs.
      - intros s v Hn. destruct (decide (extract_store_name (Description row) = s)) as [<-|Hne].
        + rewrite lookup_insert_eq. now intros [= <-].
        + rewrite lookup_insert_ne by exact Hne. rewrite Hn. discriminate. }
    split.
    + destruct (in_ignore_list _ _); exact Hext.
    + intros t [= <-]. cbn [store category default].
      destruct (in_ignore_list _ _); cbn; apply lookup_insert_eq.
Qed.

Lemma import_rows_categories (file : string) (rows : list csv_row) (st : app_state) :
  extends_with_none (categories st) (categories (fold_left (import_row file) rows st)) /\
  (forall t, In t (omap (row_transaction (categories st)) rows) ->
     categories (fold_left (import_row file) rows st) !! store t = Some (category t)).
Proof.
  revert st. induction rows as [|row rows IH]; intros st.
  - split; [apply extends_with_none_refl|intros t []].
  - cbn [fold_left omap list_omap].
    destruct (import_row_categories file st row) as [He Ht].
    destruct (IH (import_row file st row)) as [He' Ht'].
    split; [exact (extends_with_none_trans _ _ _ He He')|].
    assert (Hsame : omap (row_transaction (categories (import_row file st row))) rows
                    = omap (row_transaction (categories st)) rows).
    { clear -He. induction rows as [|r rows IHr]; [reflexivity|]. cbn.
      rewrite IHr.
      now rewrite (row_transaction_defaults py_float strptime_dmy (categories st) _ r
                     (extends_same_defaults _ _ He)). }
    intros t Hin.
    assert (Hin' : In t (option_list (row_transaction (categories st) row)) \/
                   In t (omap (row_transaction (categories st)) rows)).
    { destruct (row_transaction (categories st) row); cbn in Hin |- *; tauto. }
    destruct Hin' as [Hfirst|Hrest].
    + destruct (row_transaction (categories st) row) as [t0|] eqn:E; [|destruct Hfirst].
      destruct Hfirst as [<-|[]]. apply (proj1 He'). now apply Ht.
    + apply Ht'. now rewrite Hsame.
Qed.

Lemma imported_defaults (c1 c2 : gmap string string) (files : list csv_file) :
  same_defaults c1 c2 -> imported c1 files = imported c2 files.
Proof.
  intros H. unfold imported. induction (flat_map file_rows files) as [|r rows IH];
    [reflexivity|].
  cbn. now rewrite IH, (row_transaction_defaults py_float strptime_dmy c1 c2 r H).
Qed.

Lemma load_file_categories (st : app_state) (f : csv_file) :
  extends_with_none (categories st) (categories (load_file st f)) /\
  (forall t, In t (omap (row_transaction (categories st)) (file_rows f)) ->
     categories (load_file st f) !! store t = Some (category t)).
Proof.
  destruct f as [p|p rows complete]; cbn [load_file file_rows].
  - split; [apply extends_with_none_refl|intros t []].
  - destruct complete; apply import_rows_categories.
Qed.

Lemma load_files_categories (files : list csv_file) (st : app_state) :
  extends_with_none (categories st) (categories (fold_left load_file files st)) /\
  (forall t, In t (imported (categories st) files) ->
     categories (fold_left load_file files st) !! store t = Some (category t)).
Proof.
  revert st. induction files as [|f files IH]; intros st.
  - split; [apply extends_with_none_refl|intros t []].
  - cbn [fold_left].
    destruct (load_file_categories st f) as [He Ht].
    destruct (IH (load_file st f)) as [He' Ht'].
    split; [exact (extends_with_none_trans _ _ _ He He')|].
    intros t Hin. unfold imported in Hin. cbn [flat_map] in Hin.
    rewrite omap_app in Hin. apply in_app_or in Hin as [Hin|Hin].
    + apply (proj1 He'). now apply Ht.
    + apply Ht'.
      rewrite <- (imported_defaults (categories st) _ files (extends_same_defaults _ _ He)).
      exact Hin.
Qed.

(** X7. After [load_csv] every entry the dictionary had is still there,
    unchanged; a store that was not in the dictionary and is now is mapped
    to "None"; and the store of every transaction read is in the
    dictionary, mapped to the category the transaction was given. *)
Theorem load_csv_dictionary (st : app_state) (file_paths : list csv_file)
    (replace_answer : bool) :
  let st' := load_csv st file_paths replace_answer in
  (forall s c, categories st !! s = Some c -> categories st' !! s = Some c) /\
  (forall s c, categories st !! s = None -> categories st' !! s = Some c -> c = "None") /\
  (forall t, In t (imported (categories st) file_paths) ->
     categories st' !! store t = Some (category t)).
Proof.
  cbn zeta. destruct file_paths as [|f fs].
  - cbn. split; [trivial|]. split; [|intros t []]. intros s c H1 H2. congruence.
  - rewrite load_csv_cons.
    destruct (load_start_fields st replace_answer) as (_ & _ & _ & Hc).
    destruct (load_files_categories (f :: fs) (load_start st replace_answer)) as [[H1 H2] H3].
    rewrite Hc in H1, H2, H3.
    assert (Hend : forall st2, categories (load_end st2) = categories st2).
    { intros st2. unfold load_end. now destruct (transactions st2). }
    rewrite Hend. repeat split; assumption.
Qed.

(** X8. The pair under which a transaction read by [load_csv] is ignored is
    written to the ignore file and read back unchanged: the date text and
    the store have no white space for [load_ignore_list] to strip. *)
Theorem imported_keys_round_trip (cats : gmap string string) (files : list csv_file)
    (ts : list transaction) :
  (forall t, In t ts -> In t (imported cats files)) ->
  load_ignore_list (Some (ignore_rows (map ignore_key ts))) = map ignore_key ts.
Proof.
  intros Hts. apply (ignore_list_round_trip [] (map ignore_key ts)).
  intros p (t & <- & Ht)%in_map_iff. cbn [ignore_key fst snd]. split.
  - apply strftime_ymd_stripped.
  - apply Hts, list_elem_of_In in Ht. unfold imported in Ht.
    apply list_elem_of_omap in Ht as (row & _ & Hrow).
    unfold row_transaction in Hrow.
    destruct (strptime_dmy (Date row)), (py_float (Value row)); try discriminate Hrow.
    injection Hrow as <-. apply extract_store_name_stripped.
Qed.

Lemma import_row_core (file : string) (st1 st2 : app_state) (row : csv_row) :
  core st1 = core st2 -> core (import_row file st1 row) = core (import_row file st2 row).
Proof.
  destruct st1 as [t1 i1 c1 l1 s1 e1], st2 as [t2 i2 c2 l2 s2 e2].
  unfold core. cbn. intros [= -> -> -> ->].
  unfold import_row. cbn.
  destruct (strptime_dmy (Date row)); [|reflexivity].
  destruct (py_float (Value row)); [|reflexivity].
  destruct (c2 !! extract_store_name (Description row)); cbn;
    destruct (in_ignore_list l2 _); reflexivity.
Qed.

Lemma load_files_core (files : list csv_file) (st1 st2 : app_state) :
  core st1 = core st2 ->
  core (fold_left load_file files st1) = core (fold_left load_file files st2).
Proof.
  revert st1 st2. induction files as [|f files IH]; intros st1 st2 H; [exact H|].
  cbn [fold_left]. apply IH. destruct f as [p|p rows complete]; cbn [load_file].
  - exact H.
  - assert (Hrows : core (fold_left (import_row p) rows st1) =
                    core (fold_left (import_row p) rows st2)).
    { clear IH. revert st1 st2 H. induction rows as [|r rows IHr]; intros st1 st2 H;
        [exact H|]. cbn [fold_left]. apply IHr, import_row_core, H. }
    now destruct complete.
Qed.

(** X9. Loading a batch of files at once, or its first part and then the
    rest with the answer "add", leaves the same lists, dictionary, ignore
    list and summary tables. *)
Theorem load_in_two_batches (st : app_state) (fs1 fs2 : list csv_file)
    (replace_answer : bool) :
  fs1 <> [] ->
  data (load_csv (load_csv st fs1 replace_answer) fs2 false) =
  data (load_csv st (fs1 ++ fs2) replace_answer).
Proof.
  intros Hne. destruct fs1 as [|f fs1]; [contradiction|]. clear Hne.
  destruct fs2 as [|g fs2]; [now rewrite app_nil_r|].
  cbn [app]. rewrite !load_csv_cons.
  set (X := fold_left load_file (f :: fs1) (load_start st replace_answer)).
  assert (Hstart : load_start (load_end X) false = load_end X).
  { unfold load_start. now destruct (transactions (load_end X)). }
  replace (fold_left load_file (f :: fs1 ++ g :: fs2) (load_start st replace_answer))
    with (fold_left load_file (g :: fs2) X)
    by (unfold X; now rewrite (fold_left_app _ (f :: fs1) (g :: fs2))).
  rewrite Hstart. clear Hstart.
  clearbody X.
  assert (Hempty : transactions X = [] -> data (load_end X) = data X).
  { intros H. unfold load_end. now rewrite H. }
  assert (Hkeep : core (load_end X) = core X /\
                  (transactions X <> [] -> transactions (load_end X) <> [])).
  { unfold load_end. destruct (transactions X) eqn:E.
    - split; [reflexivity|congruence].
    - split; [reflexivity|]. intros _. cbn. rewrite E. discriminate. }
  destruct Hkeep as [Hkeep Hkeep'].
  destruct (transactions X) as [|t0 ts0] eqn:HX.
  - apply load_end_data, load_files_data. now apply Hempty.
  - assert (Hcore : core (fold_left load_file (g :: fs2) (load_end X)) =
                    core (fold_left load_file (g :: fs2) X)).
    { apply load_files_core, Hkeep. }
    assert (Hnonempty : forall Y : app_state, transactions Y <> [] ->
              transactions (fold_left load_file (g :: fs2) Y) <> []).
    { intros Y HY.
      destruct (load_files_lists py_float strptime_dmy (g :: fs2) Y (categories Y)
                  (same_defaults_refl _)) as (-> & _).
      destruct (transactions Y); [contradiction|discriminate]. }
    assert (Hsum : forall A B : app_state,
              core A = core B -> transactions A <> [] ->
              data (load_end A) = data (load_end B)).
    { intros [t1 i1 c1 l1 s1 e1] [t2 i2 c2 l2 s2 e2]. unfold core. cbn.
      intros [= -> -> -> ->] Ht. unfold load_end, data. cbn.
      destruct t2; [contradiction|reflexivity]. }
    apply Hsum; [exact Hcore|]. apply Hnonempty, Hkeep'. discriminate.
Qed.

End ImportDictionary.

Lemma load_csv_dictionary_witness :
  let st := init {[ "Tesco" := "Groceries" ]} [] in
  let st' := load_csv Sample.py_float Sample.strptime_dmy st [Sample.statement] false in
  categories st !! "Tesco" = Some "Groceries" /\
  categories st' !! "Tesco" = Some "Groceries" /\
  In Sample.employer (imported Sample.py_float Sample.strptime_dmy (categories st)
                        [Sample.statement]) /\
  categories st' !! "Employer" = Some "None".
Proof.
  cbn zeta.
  pose proof (load_csv_dictionary Sample.py_float Sample.strptime_dmy
                (init {[ "Tesco" := "Groceries" ]} []) [Sample.statement] false) as H.
  cbn zeta in H. destruct H as (Hkept & _ & Hread).
  assert (Hc : categories (init {[ "Tesco" := "Groceries" ]} []) !! "Tesco" = Some "Groceries")
    by (vm_compute; reflexivity).
  assert (Hin : In Sample.employer
                  (imported Sample.py_float Sample.strptime_dmy
                     (categories (init {[ "Tesco" := "Groceries" ]} [])) [Sample.statement]))
    by (vm_compute; right; left; reflexivity).
  split; [exact Hc|]. split; [exact (Hkept _ _ Hc)|]. split; [exact Hin|].
  exact (Hread _ Hin).
Defined.

Lemma imported_keys_round_trip_witness :
  (forall t, In t [Sample.tesco; Sample.employer] ->
     In t (imported Sample.py_float Sample.strptime_dmy ∅ [Sample.statement])) /\
  load_ignore_list (Some [["2024-01-15"; "Tesco"]; ["2024-01-20"; "Employer"]]) =
    [("2024-01-15", "Tesco"); ("2024-01-20", "Employer")].
Proof.
  assert (H : forall t, In t [Sample.tesco; Sample.employer] ->
                In t (imported Sample.py_float Sample.strptime_dmy ∅ [Sample.statement])).
  { intros t Ht. vm_compute. exact Ht. }
  split; [exact H|].
  exact (imported_keys_round_trip Sample.py_float Sample.strptime_dmy ∅ [Sample.statement]
           [Sample.tesco; Sample.employer] H).
Defined.

Lemma load_in_two_batches_witness :
  [Sample.tesco_only] <> [] /\
  data (load_csv Sample.py_float Sample.strptime_dmy
          (load_csv Sample.py_float Sample.strptime_dmy Sample.fresh [Sample.tesco_only] true)
          [Sample.employer_only] false) =
  data (load_csv Sample.py_float Sample.strptime_dmy Sample.fresh
          ([Sample.tesco_only] ++ [Sample.employer_only]) true).
Proof.
  split; [discriminate|].
  exact (load_in_two_batches Sample.py_float Sample.strptime_dmy Sample.fresh
           [Sample.tesco_only] [Sample.employer_only] true ltac:(discriminate)).
Defined.


(** ** The ignore dialog: what the moves keep *)

(** X10. A move of the dialog, either way, neither loses nor duplicates a
    transaction, and touches neither the dictionary nor the summary
    tables: these stay as they were until the dialog is closed. *)
Theorem moves_conserve (st st' : app_state) (date_str store_name : string) :
  add_selectedd st date_str store_name = Some st' \/
  remove_selectedd st date_str store_name = Some st' ->
  transactions st' ++ ignored_transactions st' ≡ₚ
    transactions st ++ ignored_transactions st /\
  categories st' = categories st /\
  tables st' = tables st.
Proof.
  intros [H|H].
  - unfold add_selectedd in H.
    destruct (strptime_ymd date_str) as [d|]; [|discriminate].
    destruct (in_ignore_list _ _); [now injection H as <-|]. simpl_state.
    destruct (take_first (matches d store_name) (transactions st)) as [[t rest]|] eqn:Htf;
      injection H as <-; simpl_state; [|done].
    apply take_first_some in Htf as (l1 & l2 & -> & -> & _).
    repeat split.
    rewrite (app_assoc (l1 ++ l2)), <- Permutation_cons_append.
    rewrite <- !app_assoc. cbn. now rewrite <- Permutation_middle.
  - unfold remove_selectedd in H.
    destruct (strptime_ymd date_str) as [d|]; [|discriminate].
    destruct (take_first (matches d store_name) (ignored_transactions st))
      as [[t rest]|] eqn:Htf; injection H as <-; simpl_state; [|done].
    apply take_first_some in Htf as (l1 & l2 & -> & -> & _).
    repeat split.
    rewrite <- !app_assoc. cbn. now rewrite <- !Permutation_middle.
Qed.

Lemma moves_conserve_witness :
  let st := mk_state [Sample.employer; Sample.tesco] [Sample.tesco_again] ∅ []
                     empty_summary [] in
  exists st',
    add_selectedd st "2024-01-15" "Tesco" = Some st' /\
    transactions st' ++ ignored_transactions st' ≡ₚ
      [Sample.employer; Sample.tesco] ++ [Sample.tesco_again].
Proof.
  cbn zeta. eexists. split; [vm_compute; reflexivity|].
  refine (proj1 (moves_conserve
            (mk_state [Sample.employer; Sample.tesco] [Sample.tesco_again] ∅ []
                      empty_summary [])
            _ "2024-01-15" "Tesco" (or_introl _))).
  vm_compute. reflexivity.
Defined.

(** X11. Asking twice to ignore the same row: the second call changes
    nothing. *)
Theorem add_selectedd_twice (st st1 : app_state) (date_str store_name : string) :
  add_selectedd st date_str store_name = Some st1 ->
  add_selectedd st1 date_str store_name = Some st1.
Proof.
  unfold add_selectedd.
  destruct (strptime_ymd date_str) as [d|]; [|discriminate].
  destruct (in_ignore_list (ignore_list st) (date_str, store_name)) eqn:Hk.
  - intros [= <-]. now rewrite Hk.
  - assert (Hin : in_ignore_list (ignore_list st ++ [(date_str, store_name)])
                    (date_str, store_name) = true).
    { apply in_ignore_list_true, in_or_app. right. now left. }
    simpl_state.
    destruct (take_first (matches d store_name) (transactions st)) as [[t rest]|];
      intros [= <-]; simpl_state; now rewrite Hin.
Qed.

Lemma add_selectedd_twice_witness :
  let st := set_transactions Sample.fresh [Sample.tesco; Sample.tesco_again] in
  exists st1,
    add_selectedd st "2024-01-15" "Tesco" = Some st1 /\
    transactions st1 = [Sample.tesco_again] /\
    add_selectedd st1 "2024-01-15" "Tesco" = Some st1.
Proof.
  cbn zeta. eexists. split; [vm_compute; reflexivity|]. split; [reflexivity|].
  apply (add_selectedd_twice
           (set_transactions Sample.fresh [Sample.tesco; Sample.tesco_again])).
  vm_compute. reflexivity.
Defined.

(** X12. A pair that matches no transaction is not a no-op: [add_selectedd]
    still puts a new pair on the ignore list and saves it, and
    [remove_selectedd] still takes the pair off and saves; the two lists of
    transactions stay as they were. *)
Theorem move_without_match (st : app_state) (date_str store_name : string)
    (d : datetime) :
  strptime_ymd date_str = Some d ->
  ((forall u, In u (transactions st) -> matches d store_name u = false) ->
   ~ In (date_str, store_name) (ignore_list st) ->
   exists st', add_selectedd st date_str store_name = Some st' /\
     transactions st' = transactions st /\
     ignored_transactions st' = ignored_transactions st /\
     ignore_list st' = ignore_list st ++ [(date_str, store_name)] /\
     effects st' = effects st ++ [SaveIgnoreList (ignore_list st')]) /\
  ((forall u, In u (ignored_transactions st) -> matches d store_name u = false) ->
   exists st', remove_selectedd st date_str store_name = Some st' /\
     transactions st' = transactions st /\
     ignored_transactions st' = ignored_transactions st /\
     (In (date_str, store_name) (ignore_list st) ->
      ignore_list st' = remove_first (date_str, store_name) (ignore_list st)) /\
     effects st' = effects st ++ [SaveIgnoreList (ignore_list st')]).
Proof.
  intros Hp. split.
  - intros Hno Hk. apply in_ignore_list_false in Hk.
    unfold add_selectedd. rewrite Hp, Hk. simpl_state.
    rewrite (take_first_none _ _ Hno). eexists. split; [reflexivity|]. now cbn.
  - intros Hno. unfold remove_selectedd. rewrite Hp, (take_first_none _ _ Hno).
    eexists. split; [reflexivity|]. simpl_state. repeat split.
    intros Hin%in_ignore_list_true. now rewrite Hin.
Qed.

Lemma move_without_match_witness :
  strptime_ymd "2024-01-20" = Some Sample.jan20 /\
  (forall u, In u (transactions Sample.fresh) -> matches Sample.jan20 "Lidl" u = false) /\
  ~ In ("2024-01-20", "Lidl") (ignore_list Sample.fresh) /\
  exists st', add_selectedd Sample.fresh "2024-01-20" "Lidl" = Some st' /\
    ignore_list st' = [("2024-01-20", "Lidl")] /\
    effects st' = [SaveIgnoreList [("2024-01-20", "Lidl")]].
Proof.
  assert (H1 : forall u, In u (transactions Sample.fresh) ->
                 matches Sample.jan20 "Lidl" u = false) by (intros u []).
  assert (H2 : ~ In ("2024-01-20", "Lidl") (ignore_list Sample.fresh)) by (intros []).
  split; [reflexivity|]. split; [exact H1|]. split; [exact H2|].
  destruct (proj1 (move_without_match Sample.fresh "2024-01-20" "Lidl" Sample.jan20 eq_refl)
              H1 H2) as (st' & Hrun & _ & _ & Hl & He).
  exists st'. split; [exact Hrun|]. split; [exact Hl|]. rewrite He, Hl. reflexivity.
Defined.

(** ** The table of available transactions *)

Lemma filter_available_row (st : app_state) (time_var cat_var store_var : string)
    (row : dialog_row) :
  In row (filter_available st time_var cat_var store_var) ->
  exists t, In t (transactions st) /\
    row_date row = strftime_ymd (date t) /\ row_store row = store t /\
    row_category row = category t /\
    in_ignore_list (ignore_list st) (ignore_key t) = false.
Proof.
  intros Hrow%list_elem_of_In. unfold filter_available in Hrow.
  apply list_elem_of_omap in Hrow as (t & Ht%list_elem_of_In & Hsome).
  exists t. split; [exact Ht|]. cbn zeta in Hsome. unfold ignore_key.
  destruct (in_ignore_list (ignore_list st) (strftime_ymd (date t), store t));
    [discriminate|].
  repeat match type of Hsome with
         | (if ?c then None else _) = Some _ => destruct c; [discriminate|]
         end.
  injection Hsome as <-. now cbn.
Qed.

(** X13. With the three filter fields empty the table lists the transactions
    of [transactions] whose pair is not on the ignore list, each once and
    in order, a negative amount shown as outgoing and any other as
    income. *)
Theorem filter_available_unfiltered (st : app_state) :
  filter_available st EmptyString EmptyString EmptyString =
  map (fun t =>
         mk_dialog_row (strftime_ymd (date t)) (store t)
           (if (amount t <? 0)%float then 0%float else amount t)
           (if (amount t <? 0)%float then abs (amount t) else 0%float)
           (category t))
      (List.filter (fun t => negb (on_ignore_list (ignore_list st) t)) (transactions st)).
Proof.
  unfold filter_available. change (Text.strip (Text.lower EmptyString)) with EmptyString.
  cbn zeta. change (truthy EmptyString) with false. cbn [andb].
  induction (transactions st) as [|t l IH]; [reflexivity|].
  cbn [omap list_omap List.filter]. unfold on_ignore_list, ignore_key at 1.
  destruct (in_ignore_list (ignore_list st) (strftime_ymd (date t), store t));
    cbn [negb map]; now rewrite IH.
Qed.

Lemma strip_pairs_id (l : list (string * string)) :
  (forall p, In p l -> stripped p.1 /\ stripped p.2) -> map strip_pair l = l.
Proof.
  induction l as [|[d s] l IH]; intros H; [reflexivity|]. cbn [map].
  destruct (H (d, s)) as [Hd Hs]; [now left|]. cbn [fst snd] in Hd, Hs.
  unfold strip_pair at 1. cbn [fst snd]. unfold stripped in Hd, Hs. rewrite Hd, Hs.
  f_equal. apply IH. intros p Hp. apply H. now right.
Qed.

(** X14. What [add_selectedd] does to a row of the table of available
    transactions. Let the dates held be dates of the years 1000 to 9999,
    and the stores held and the entries of the ignore list be without
    white space at their ends, as [load_csv] and [load_ignore_list] make
    them. Then [strptime] reads the date of the row, and the updates of
    [add_selectedd] are these: the pair of the row goes onto the ignore
    list, which is saved, and the first transaction with that pair goes
    from [transactions] to the end of [ignored_transactions]. The ignore
    list so left is what [populate_ignore] reads back from the file. On
    the lists so left, whether or not the refresh of the two tables that
    follows the updates comes to its end, [filter_available] lists no row
    with that pair, whatever the filter, even when other transactions
    with it remain in [transactions]. *)
Theorem available_row_can_be_ignored (st : app_state)
    (time_var cat_var store_var : string) (row : dialog_row) :
  (forall t, In t (transactions st) ->
     valid_date (date t) = true /\ (1000 <=? year (date t)) = true /\
     stripped (store t)) ->
  (forall p, In p (ignore_list st) -> stripped p.1 /\ stripped p.2) ->
  In row (filter_available st time_var cat_var store_var) ->
  exists st' l1 t l2,
    add_selectedd st (row_date row) (row_store row) = Some st' /\
    transactions st = l1 ++ t :: l2 /\
    ignore_key t = (row_date row, row_store row) /\
    (forall u, In u l1 -> ignore_key u <> (row_date row, row_store row)) /\
    transactions st' = l1 ++ l2 /\
    ignored_transactions st' = ignored_transactions st ++ [t] /\
    ignore_list st' = ignore_list st ++ [(row_date row, row_store row)] /\
    effects st' = effects st ++ [SaveIgnoreList (ignore_list st')] /\
    load_ignore_list (Some (ignore_rows (ignore_list st'))) = ignore_list st' /\
    forall tv cv sv row',
      In row' (filter_available st' tv cv sv) ->
      (row_date row', row_store row') <> (row_date row, row_store row).
Proof.
  intros Hheld Hreg Hrow.
  destruct (filter_available_row _ _ _ _ _ Hrow) as (t0 & Ht0 & Hd & Hs & _ & Hk).
  assert (Hp : strptime_ymd (row_date row) = Some (date t0)).
  { rewrite Hd. apply strptime_strftime. now destruct (Hheld t0 Ht0). }
  assert (Hkey : forall u, ignore_key u = (row_date row, row_store row) <->
                           matches (date t0) (row_store row) u = true).
  { intros u. apply key_matches; [exact Hp|now rewrite Hd]. }
  assert (Hreload : load_ignore_list
                      (Some (ignore_rows (ignore_list st ++ [(row_date row, row_store row)])))
                    = ignore_list st ++ [(row_date row, row_store row)]).
  { rewrite load_ignore_rows. apply strip_pairs_id.
    intros p [Hin|[<-|[]]]%in_app_or; [now apply Hreg|]. cbn [fst snd]. split.
    - rewrite Hd. apply strftime_ymd_stripped.
    - rewrite Hs. now destruct (Hheld t0 Ht0) as (_ & _ & H). }
  unfold add_selectedd. rewrite Hp.
  unfold ignore_key in Hk. rewrite <- Hd, <- Hs in Hk. rewrite Hk. simpl_state.
  destruct (take_first (matches (date t0) (row_store row)) (transactions st))
    as [[t rest]|] eqn:Htf.
  2:{ apply take_first_is_none with (y := t0) in Htf; [|exact Ht0].
      rewrite Hs, matches_self in Htf. discriminate Htf. }
  apply take_first_some in Htf as (l1 & l2 & Htx & -> & Ht & Hl1).
  exists (set_ignored
            (set_transactions
               (save_ignore_list
                  (set_ignore_list st (ignore_list st ++ [(row_date row, row_store row)])))
               (l1 ++ l2))
            (ignored_transactions st ++ [t])), l1, t, l2.
  split; [reflexivity|]. split; [exact Htx|]. split; [now apply Hkey|]. split.
  { intros u Hu Hku. apply Hkey in Hku. now rewrite (Hl1 u Hu) in Hku. }
  simpl_state. split; [reflexivity|]. split; [reflexivity|]. split; [reflexivity|].
  split; [reflexivity|]. split; [exact Hreload|].
  intros tv cv sv row' Hrow' Heq.
  destruct (filter_available_row _ _ _ _ _ Hrow') as (u & _ & Hud & Hus & _ & Huk).
  simpl_state. apply in_ignore_list_false in Huk. apply Huk.
  unfold ignore_key. rewrite <- Hud, <- Hus, Heq. apply in_or_app. right. now left.
Qed.

Lemma available_row_can_be_ignored_witness :
  let st := set_transactions Sample.fresh [Sample.employer; Sample.tesco; Sample.tesco_again] in
  let row := mk_dialog_row "2024-01-15" "Tesco" 0%float 5%float "None" in
  (forall t, In t (transactions st) ->
     valid_date (date t) = true /\ (1000 <=? year (date t)) = true /\
     stripped (store t)) /\
  (forall p, In p (ignore_list st) -> stripped p.1 /\ stripped p.2) /\
  In row (filter_available st "2024-01" EmptyString " tes ") /\
  exists st' l1 t l2,
    add_selectedd st "2024-01-15" "Tesco" = Some st' /\
    transactions st = l1 ++ t :: l2 /\
    transactions st' = l1 ++ l2 /\
    ignored_transactions st' = [] ++ [t].
Proof.
  cbn zeta.
  assert (H1 : forall t,
             In t (transactions (set_transactions Sample.fresh
                     [Sample.employer; Sample.tesco; Sample.tesco_again])) ->
             valid_date (date t) = true /\ (1000 <=? year (date t)) = true /\
             stripped (store t)).
  { intros t [<-|[<-|[<-|[]]]]; repeat split. }
  assert (H0 : forall p,
             In p (ignore_list (set_transactions Sample.fresh
                     [Sample.employer; Sample.tesco; Sample.tesco_again])) ->
             stripped p.1 /\ stripped p.2).
  { intros p []. }
  assert (H2 : In (mk_dialog_row "2024-01-15" "Tesco" 0%float 5%float "None")
                 (filter_available
                    (set_transactions Sample.fresh
                       [Sample.employer; Sample.tesco; Sample.tesco_again])
                    "2024-01" EmptyString " tes ")).
  { vm_compute. right. left. reflexivity. }
  split; [exact H1|]. split; [exact H0|]. split; [exact H2|].
  destruct (available_row_can_be_ignored _ _ _ _ _ H1 H0 H2)
    as (st' & l1 & t & l2 & Hrun & Htx & _ & _ & Ht' & Hi' & _).
  exists st', l1, t, l2. repeat split; assumption.
Defined.

(** ** Corrections of single transactions and the correction table *)

(** X15. Correcting one transaction: with a new category that is not empty
    and differs from the one shown, the transaction at the index gets the
    new category and nothing else in [transactions] changes, the
    dictionary is left as it was and the summary is rebuilt; an index
    past the end of the list raises; a cancelled box, an empty text or the
    category already shown change nothing. *)
Theorem correct_single_transaction (st : app_state) (index : nat)
    (shown_date shown_store shown_amount current_cat nc : string) :
  let values := (shown_date, shown_store, shown_amount, current_cat) in
  (nc <> EmptyString -> nc <> current_cat ->
   (forall t, transactions st !! index = Some t ->
      exists st', correct_transaction st index values (Some nc) false = Some st' /\
        transactions st' = <[index := set_category t nc]> (transactions st) /\
        transactions st' !! index = Some (set_category t nc) /\
        (forall j, j <> index -> transactions st' !! j = transactions st !! j) /\
        categories st' = categories st /\
        ignored_transactions st' = ignored_transactions st /\
        tables st' = summarize (transactions st')) /\
   (length (transactions st) <= index ->
      correct_transaction st index values (Some nc) false = None)) /\
  (forall update_all,
     correct_transaction st index values None update_all = Some st /\
     correct_transaction st index values (Some EmptyString) update_all = Some st /\
     correct_transaction st index values (Some current_cat) update_all = Some st).
Proof.
  cbn zeta. split.
  - intros Hne Hcur. apply String.eqb_neq in Hne, Hcur. split.
    + intros t Ht. unfold correct_transaction. rewrite Hne, Hcur, Ht. cbn [negb andb].
      eexists. split; [reflexivity|]. simpl_state. repeat split.
      * apply list_lookup_insert_eq. now apply lookup_lt_Some in Ht.
      * intros j Hj. now apply list_lookup_insert_ne.
    + intros Hlen. unfold correct_transaction. rewrite Hne, Hcur. cbn [negb andb].
      now rewrite (lookup_ge_None_2 _ _ Hlen).
  - intros update_all. unfold correct_transaction. repeat split.
    rewrite String.eqb_refl. cbn [negb andb].
    now destruct (negb (String.eqb current_cat EmptyString)).
Qed.

Lemma correct_single_transaction_witness :
  let st := set_transactions Sample.fresh [Sample.tesco; Sample.tesco_again] in
  "Food" <> EmptyString /\ "Food" <> "None" /\
  transactions st !! 1 = Some Sample.tesco_again /\
  length (transactions st) <= 2 /\
  (exists st',
     correct_transaction st 1 ("15 Jan 2024", "Tesco", "-5.00", "None") (Some "Food") false
       = Some st' /\
     transactions st' = [Sample.tesco; set_category Sample.tesco_again "Food"]) /\
  correct_transaction st 2 ("15 Jan 2024", "Tesco", "-5.00", "None") (Some "Food") false
    = None.
Proof.
  cbn zeta.
  destruct (correct_single_transaction
              (set_transactions Sample.fresh [Sample.tesco; Sample.tesco_again])
              1 "15 Jan 2024" "Tesco" "-5.00" "None" "Food") as [H _].
  destruct (H ltac:(discriminate) ltac:(discriminate)) as [Hin _].
  destruct (correct_single_transaction
              (set_transactions Sample.fresh [Sample.tesco; Sample.tesco_again])
              2 "15 Jan 2024" "Tesco" "-5.00" "None" "Food") as [H' _].
  destruct (H' ltac:(discriminate) ltac:(discriminate)) as [_ Hout].
  split; [discriminate|]. split; [discriminate|]. split; [reflexivity|].
  split; [cbn; lia|]. split.
  - destruct (Hin Sample.tesco_again eq_refl) as (st' & Hrun & Htx & _).
    exists st'. split; [exact Hrun|]. rewrite Htx. reflexivity.
  - apply Hout. cbn. lia.
Defined.

Lemma correction_tab_row (st : app_state) (period cat_var store_var : string)
    (i : nat) (t : transaction) :
  In (i, t) (populate_correction_tab st period cat_var store_var) ->
  transactions st !! i = Some t /\ in_period period (date t) = true.
Proof.
  intros H%list_elem_of_In. unfold populate_correction_tab in H.
  apply list_elem_of_omap in H as ([j u] & Hju & Hsome).
  apply elem_of_lookup_imap in Hju as (k & x & [= -> ->] & Hk).
  cbn [snd] in Hsome. cbn zeta in Hsome.
  destruct (in_period period (date x)) eqn:Hp; [|discriminate]. cbn [negb] in Hsome.
  repeat match type of Hsome with
         | (if ?c then None else _) = Some _ => destruct c; [discriminate|]
         end.
  injection Hsome as -> ->. now split.
Qed.

(** X16. The correction table names each item by the position of its
    transaction in [transactions], and lists only transactions of the
    period; with the period "Total" and the two search fields empty it
    lists every transaction, in order; a period that is neither "Total"
    nor four or seven characters long lists nothing. *)
Theorem correction_tab_items (st : app_state) (period cat_var store_var : string) :
  (forall i t, In (i, t) (populate_correction_tab st period cat_var store_var) ->
     transactions st !! i = Some t /\ in_period period (date t) = true) /\
  populate_correction_tab st "Total" EmptyString EmptyString =
    imap (fun i t => (i, t)) (transactions st) /\
  (period <> "Total" -> String.length period <> 4 -> String.length period <> 7 ->
   populate_correction_tab st period cat_var store_var = []).
Proof.
  split; [intros i t; apply correction_tab_row|]. split.
  - unfold populate_correction_tab. cbn zeta.
    change (truthy (Text.lower EmptyString)) with false. cbn [andb].
    induction (imap (fun i t => (i, t)) (transactions st)) as [|it l IH]; [reflexivity|].
    cbn [omap list_omap]. now rewrite IH.
  - intros H1 H2 H3. unfold populate_correction_tab. cbn zeta.
    assert (Hp : forall d, in_period period d = false).
    { intros d. unfold in_period.
      apply String.eqb_neq in H1. apply Nat.eqb_neq in H2, H3. now rewrite H1, H2, H3. }
    induction (imap (fun i t => (i, t)) (transactions st)) as [|it l IH]; [reflexivity|].
    cbn [omap list_omap]. now rewrite Hp, IH.
Qed.

Lemma correction_tab_items_witness :
  let st := set_transactions Sample.fresh [Sample.tesco; Sample.employer] in
  "2024-1" <> "Total" /\ String.length "2024-1" <> 4 /\ String.length "2024-1" <> 7 /\
  populate_correction_tab st "2024" EmptyString "EMPLO" = [(1, Sample.employer)] /\
  populate_correction_tab st "2024-1" EmptyString EmptyString = [].
Proof.
  cbn zeta. split; [discriminate|]. split; [discriminate|]. split; [discriminate|].
  split; [vm_compute; reflexivity|].
  refine (proj2 (proj2 (correction_tab_items
            (set_transactions Sample.fresh [Sample.tesco; Sample.employer])
            "2024-1" EmptyString EmptyString)) _ _ _); discriminate.
Defined.

(** X17. The item names of the correction table are what [correct_transaction]
    takes them for: correcting the selected item, when the table was
    filled from the current list, changes the category of the very
    transaction the item shows, and of no other. *)
Theorem correction_row_corrected (st : app_state) (period cat_var store_var : string)
    (i : nat) (t : transaction) (shown_date shown_amount nc : string) :
  In (i, t) (populate_correction_tab st period cat_var store_var) ->
  nc <> EmptyString -> nc <> category t ->
  exists st',
    correct_transaction st i (shown_date, store t, shown_amount, category t)
      (Some nc) false = Some st' /\
    transactions st' !! i = Some (set_category t nc) /\
    (forall j, j <> i -> transactions st' !! j = transactions st !! j) /\
    In (i, set_category t nc) (populate_correction_tab st' period EmptyString EmptyString).
Proof.
  intros Hrow Hne Hcur. apply String.eqb_neq in Hne, Hcur.
  destruct (correction_tab_row _ _ _ _ _ _ Hrow) as [Hi Hp].
  unfold correct_transaction. rewrite Hne, Hcur, Hi. cbn [negb andb].
  eexists. split; [reflexivity|]. simpl_state.
  assert (Hnew : <[i := set_category t nc]> (transactions st) !! i
                 = Some (set_category t nc)).
  { apply list_lookup_insert_eq. now apply lookup_lt_Some in Hi. }
  split; [exact Hnew|]. split.
  - intros j Hj. now apply list_lookup_insert_ne.
  - apply list_elem_of_In. unfold populate_correction_tab. simpl_state.
    apply list_elem_of_omap. exists (i, set_category t nc). split.
    + now apply (elem_of_lookup_imap_2 (fun i t => (i, t))).
    + cbn. rewrite Hp. reflexivity.
Qed.

Lemma correction_row_corrected_witness :
  let st := set_transactions Sample.fresh [Sample.tesco; Sample.employer] in
  In (1, Sample.employer) (populate_correction_tab st "2024" EmptyString "EMPLO") /\
  "Pay" <> EmptyString /\ "Pay" <> category Sample.employer /\
  exists st',
    correct_transaction st 1 ("20 Jan 2024", "Employer", "2000.00", "None") (Some "Pay") false
      = Some st' /\
    transactions st' !! 1 = Some (set_category Sample.employer "Pay").
Proof.
  cbn zeta.
  assert (H : In (1, Sample.employer)
                (populate_correction_tab
                   (set_transactions Sample.fresh [Sample.tesco; Sample.employer])
                   "2024" EmptyString "EMPLO")) by (vm_compute; now left).
  split; [exact H|]. split; [discriminate|]. split; [discriminate|].
  destruct (correction_row_corrected _ _ _ _ _ _ "20 Jan 2024" "2000.00" "Pay" H
              ltac:(discriminate) ltac:(discriminate)) as (st' & Hrun & Hi & _).
  exists st'. split; [exact Hrun|exact Hi].
Defined.

(** ** The summary: totals, months and counts *)

Lemma same_money_filter (p : datetime -> float -> bool) (g : float -> float)
    (l1 l2 : list transaction) :
  same_money l1 l2 ->
  map (fun t => g (amount t)) (List.filter (fun t => p (date t) (amount t)) l1) =
  map (fun t => g (amount t)) (List.filter (fun t => p (date t) (amount t)) l2).
Proof.
  induction 1 as [|a b l1 l2 [Hd Ha] _ IH]; [reflexivity|].
  cbn [List.filter]. rewrite Hd, Ha.
  destruct (p (date b) (amount b)); cbn [map]; now rewrite IH, ?Ha.
Qed.

Lemma same_money_totals (l1 l2 : list transaction) (m : string) :
  same_money l1 l2 ->
  total_at (monthly_totals_income (summarize l1)) m =
    total_at (monthly_totals_income (summarize l2)) m /\
  total_at (monthly_totals_spending (summarize l1)) m =
    total_at (monthly_totals_spending (summarize l2)) m.
Proof.
  intros H. unfold summarize. rewrite !fold_totals_income, !fold_totals_spending. split.
  - f_equal.
    apply (same_money_filter
             (fun d a => String.eqb (strftime_ym d) m && (0 <? a)%float) (fun a => a) _ _ H).
  - f_equal.
    apply (same_money_filter
             (fun d a => String.eqb (strftime_ym d) m && (a <? 0)%float) abs _ _ H).
Qed.

Lemma same_money_refl (l : list transaction) : same_money l l.
Proof. induction l; constructor; auto. Qed.

Lemma same_money_map (f : transaction -> transaction) (l : list transaction) :
  (forall t, date (f t) = date t /\ amount (f t) = amount t) -> same_money (map f l) l.
Proof. intros H. induction l; constructor; auto. Qed.

Lemma same_money_insert (l : list transaction) (i : nat) (t : transaction) (c : string) :
  l !! i = Some t -> same_money (<[i := set_category t c]> l) l.
Proof.
  revert i. induction l as [|a l IH]; intros [|i] H; try discriminate H.
  - injection H as ->. constructor; [now split|apply same_money_refl].
  - constructor; [now split|]. now apply IH.
Qed.

(** X18. Changing categories never changes the monthly totals: after
    [correct_transaction], for one transaction or for all of a store, and
    after [edit_category], the income and the spending of every month,
    computed from [transactions], are what they were. *)
Theorem category_edits_keep_totals (st st' : app_state) (m : string) :
  (exists index values new_cat update_all,
     correct_transaction st index values new_cat update_all = Some st') \/
  (exists old_cat new_cat, st' = edit_category st old_cat new_cat) ->
  total_at (monthly_totals_income (summarize (transactions st'))) m =
    total_at (monthly_totals_income (summarize (transactions st))) m /\
  total_at (monthly_totals_spending (summarize (transactions st'))) m =
    total_at (monthly_totals_spending (summarize (transactions st))) m.
Proof.
  intros H. apply same_money_totals.
  destruct H as [(index & [[[v0 v1] v2] v3] & new_cat & update_all & H)
                |(old_cat & new_cat & ->)].
  - unfold correct_transaction in H.
    destruct new_cat as [nc|]; [|injection H as <-; apply same_money_refl].
    destruct (negb (String.eqb nc EmptyString) && negb (String.eqb nc v3));
      [|injection H as <-; apply same_money_refl].
    destruct update_all.
    + injection H as <-. simpl_state. apply same_money_map.
      intros t. now destruct (String.eqb (store t) v1).
    + destruct (transactions st !! index) as [t|] eqn:Hi; [|discriminate].
      injection H as <-. simpl_state. now apply same_money_insert.
  - unfold edit_category.
    destruct new_cat as [nc|]; [|apply same_money_refl].
    destruct (negb (String.eqb nc EmptyString) && negb (String.eqb nc old_cat));
      [|apply same_money_refl].
    simpl_state. apply same_money_map.
    intros t. now destruct (same_category (category t) old_cat).
Qed.

Lemma category_edits_keep_totals_witness :
  let st := set_transactions Sample.fresh [Sample.tesco; Sample.employer; Sample.tesco_again] in
  exists st',
    correct_transaction st 0 ("15 Jan 2024", "Tesco", "-23.50", "None") (Some "Food") true
      = Some st' /\
    total_at (monthly_totals_spending (summarize (transactions st'))) "2024-01" = 28.5%float /\
    breakdown_at (summary_spending (summarize (transactions st'))) "2024-01" "Food"
      = 28.5%float.
Proof.
  cbn zeta. eexists. split; [vm_compute; reflexivity|]. split.
  - refine (eq_trans (proj2 (category_edits_keep_totals
              (set_transactions Sample.fresh
                 [Sample.tesco; Sample.employer; Sample.tesco_again]) _ "2024-01"
              (or_introl (ex_intro _ 0 (ex_intro _ ("15 Jan 2024", "Tesco", "-23.50", "None")
                 (ex_intro _ (Some "Food") (ex_intro _ true _))))))) _).
    + vm_compute. reflexivity.
    + vm_compute. reflexivity.
  - vm_compute. reflexivity.
Defined.

Lemma fold_keys {A S V : Type} (step : S -> A -> S) (proj : S -> gmap string V)
    (p : A -> bool) (m : string) :
  (forall s t, is_Some (proj (step s t) !! m) <-> is_Some (proj s !! m) \/ p t = true) ->
  forall (txs : list A) (s : S),
    is_Some (proj (fold_left step txs s) !! m) <->
    is_Some (proj s !! m) \/ existsb p txs = true.
Proof.
  intros Hstep txs. induction txs as [|t txs IH]; intros s; cbn [fold_left existsb].
  - split; [now left|]. intros [H|H]; [exact H|discriminate H].
  - rewrite IH, Hstep, orb_true_iff. tauto.
Qed.

Lemma insert_key {V : Type} (k m : string) (v : V) (d : gmap string V) :
  is_Some (<[k := v]> d !! m) <-> is_Some (d !! m) \/ String.eqb k m = true.
Proof.
  destruct (String.eqb_spec k m) as [->|Hne].
  - rewrite lookup_insert_eq. split; [now right|now eexists].
  - rewrite lookup_insert_ne by exact Hne. split; [now left|].
    intros [H|H]; [exact H|discriminate H].
Qed.

Lemma summary_step_keys (s : summary) (t : transaction) (m : string) :
  (is_Some (monthly_totals_income (summary_step s t) !! m) <->
     is_Some (monthly_totals_income s !! m) \/ in_month m t && is_income t = true) /\
  (is_Some (monthly_totals_spending (summary_step s t) !! m) <->
     is_Some (monthly_totals_spending s !! m) \/ in_month m t && is_spending t = true) /\
  (is_Some (summary_income (summary_step s t) !! m) <->
     is_Some (summary_income s !! m) \/ in_month m t && is_income t = true) /\
  (is_Some (summary_spending (summary_step s t) !! m) <->
     is_Some (summary_spending s !! m) \/ in_month m t && is_spending t = true).
Proof.
  unfold summary_step, in_month, is_income, is_spending, add_to, add_to2.
  destruct (amount t <? 0)%float eqn:Hneg.
  - assert (Hpos : (0 <? amount t)%float = false).
    { destruct (0 <? amount t)%float eqn:Hpos; [|reflexivity].
      rewrite (float_pos_not_neg _ Hpos) in Hneg. discriminate Hneg. }
    rewrite Hpos, andb_false_r, andb_true_r.
    cbn [monthly_totals_income monthly_totals_spending summary_income summary_spending].
    rewrite !insert_key. intuition discriminate.
  - destruct (0 <? amount t)%float eqn:Hpos; rewrite ?andb_false_r, ?andb_true_r;
      cbn [monthly_totals_income monthly_totals_spending summary_income summary_spending];
      rewrite ?insert_key; intuition discriminate.
Qed.

(** X19. The months of the summary.  After [generate_summary] a month is a key
    of the income totals exactly when some transaction of that month has an
    amount above zero, and a key of the spending totals exactly when one has
    an amount below zero; the breakdown by category has the same months as
    the totals.  A month whose transactions all have amount zero appears in
    no table. *)
Theorem summary_months (st : app_state) (m : string) :
  let s := tables (generate_summary st) in
  let income := existsb (fun t => in_month m t && is_income t) (transactions st) in
  let spending := existsb (fun t => in_month m t && is_spending t) (transactions st) in
  bool_decide (is_Some (monthly_totals_income s !! m)) = income /\
  bool_decide (is_Some (monthly_totals_spending s !! m)) = spending /\
  bool_decide (is_Some (summary_income s !! m)) = income /\
  bool_decide (is_Some (summary_spending s !! m)) = spending.
Proof.
  cbn zeta. unfold generate_summary. simpl_state. unfold summarize.
  assert (Hempty : forall V, ~ is_Some ((∅ : gmap string V) !! m)).
  { intros V [x Hx]. rewrite lookup_empty in Hx. discriminate Hx. }
  assert (Hbool : forall (P : Prop) `{Decision P} (b : bool),
             (P <-> b = true) -> bool_decide P = b).
  { intros P HP b Hb. destruct b.
    - apply bool_decide_eq_true. now apply Hb.
    - apply bool_decide_eq_false. intros HPp. apply Hb in HPp. discriminate HPp. }
  repeat split; apply Hbool.
  - rewrite (fold_keys summary_step monthly_totals_income
               (fun t => in_month m t && is_income t) m
               (fun s t => proj1 (summary_step_keys s t m))).
    cbn [empty_summary monthly_totals_income]. specialize (Hempty float). tauto.
  - rewrite (fold_keys summary_step monthly_totals_spending
               (fun t => in_month m t && is_spending t) m
               (fun s t => proj1 (proj2 (summary_step_keys s t m)))).
    cbn [empty_summary monthly_totals_spending]. specialize (Hempty float). tauto.
  - rewrite (fold_keys summary_step summary_income
               (fun t => in_month m t && is_income t) m
               (fun s t => proj1 (proj2 (proj2 (summary_step_keys s t m))))).
    cbn [empty_summary summary_income]. specialize (Hempty (gmap string float)). tauto.
  - rewrite (fold_keys summary_step summary_spending
               (fun t => in_month m t && is_spending t) m
               (fun s t => proj2 (proj2 (proj2 (summary_step_keys s t m))))).
    cbn [empty_summary summary_spending]. specialize (Hempty (gmap string float)). tauto.
Qed.

(** ** The categories tab *)

Lemma fold_counts (c : string) (txs : list transaction) (d : gmap string nat) :
  default 0 (fold_left (fun d t => <[category t := S (default 0 (d !! category t))]> d)
               txs d !! c) =
  default 0 (d !! c) + length (List.filter (has_category c) txs).
Proof.
  revert d. induction txs as [|t txs IH]; intros d; cbn [fold_left List.filter].
  - cbn. lia.
  - rewrite IH. unfold has_category.
    destruct (String.eqb_spec (category t) c) as [->|Hne].
    + rewrite lookup_insert_eq. cbn. lia.
    + now rewrite lookup_insert_ne.
Qed.

Lemma fold_category_totals (c : string) (txs : list transaction) (d : gmap string float) :
  total_at (fold_left (fun d t => add_to (category t) (amount t) d) txs d) c =
  fold_left PrimFloat.add (map amount (List.filter (has_category c) txs)) (total_at d c).
Proof.
  revert d. induction txs as [|t txs IH]; intros d; cbn [fold_left List.filter]; [reflexivity|].
  rewrite IH, total_at_add_to. unfold has_category.
  now destruct (String.eqb (category t) c).
Qed.

Lemma existsb_filter_nil {A : Type} (p : A -> bool) (l : list A) :
  existsb p l = match List.filter p l with [] => false | _ :: _ => true end.
Proof.
  induction l as [|a l IH]; [reflexivity|]. cbn. now destruct (p a).
Qed.

(** X20. The rows of the categories tab.  The loop of [populate_categories_tab]
    gives a category a row exactly when some transaction has it; its count is
    the number of those transactions, never zero, so the guard of the average
    never takes its [else 0] branch, and its total is their amounts added
    from 0.0 in list order. *)
Theorem categories_tab_rows (txs : list transaction) (c : string) :
  let own := List.filter (has_category c) txs in
  category_counts txs !! c =
    match own with [] => None | _ :: _ => Some (length own) end /\
  category_totals txs !! c =
    match own with [] => None | _ :: _ => Some (fsum (map amount own)) end.
Proof.
  cbn zeta. unfold category_counts, category_totals.
  pose proof (fold_counts c txs ∅) as Hcount.
  pose proof (fold_category_totals c txs ∅) as Htotal.
  pose proof (fold_keys (fun (d : gmap string nat) t =>
                           <[category t := S (default 0 (d !! category t))]> d)
                (fun d => d) (has_category c) c
                (fun d t => insert_key (category t) c _ d) txs ∅) as Hk1.
  pose proof (fold_keys (fun (d : gmap string float) t => add_to (category t) (amount t) d)
                (fun d => d) (has_category c) c
                (fun d t => insert_key (category t) c _ d) txs ∅) as Hk2.
  rewrite existsb_filter_nil in Hk1, Hk2.
  rewrite lookup_empty in Hcount. unfold total_at in Htotal. rewrite lookup_empty in Htotal.
  cbn [default] in Hcount, Htotal.
  assert (Hempty : forall V, ~ is_Some ((∅ : gmap string V) !! c)).
  { intros V [x Hx]. rewrite lookup_empty in Hx. discriminate Hx. }
  destruct (List.filter (has_category c) txs) as [|t own] eqn:Hown.
  - split.
    + match goal with |- ?x = None => destruct x eqn:H end; [|reflexivity].
      exfalso. destruct (proj1 Hk1 (ex_intro _ _ eq_refl)) as [H'|H'];
        [now apply (Hempty nat)|discriminate H'].
    + match goal with |- ?x = None => destruct x eqn:H end; [|reflexivity].
      exfalso. destruct (proj1 Hk2 (ex_intro _ _ eq_refl)) as [H'|H'];
        [now apply (Hempty float)|discriminate H'].
  - split.
    + destruct (proj2 Hk1 (or_intror eq_refl)) as [n Hn].
      rewrite Hn in Hcount |- *. f_equal. exact Hcount.
    + destruct (proj2 Hk2 (or_intror eq_refl)) as [x Hx].
      rewrite Hx in Htotal |- *. f_equal. exact Htotal.
Qed.
